(** * cf-dns.py: record resolution and mutation safety

    A shallow embedding of [src/cf-dns.py] (Cloudflare DNS command-line
    client) and the properties its specification states about it.

    Conventions of the embedding.
    - Python [str] values are [string]s read as ASCII text; [strip],
      [lower] and [upper] act on the ASCII range as Python's do.
    - Values decoded from JSON are [json]; JSON numbers are integers and
      Python's [None] is [JNull].  A [dict] is a [gmap string json], so
      the order in which a dict would enumerate its keys is the map's.
    - Console, environment, file system and HTTP transport are explicit:
      a [world] answers them and every run leaves a [trace] of [event]s.
      A request is recorded as the arguments of [http_json]; the
      encoding of the query and of the body is the transport's.
    - [sys.exit] and uncaught exceptions end a run: see [result].
    - The [while True] loops of the lister and of the zones command run
      on fuel.
    - [main] starts from the parsed command line. *)

From Stdlib Require Import ZArith Ascii String.
From stdpp Require Import gmap strings list fin_maps pretty.

Local Open Scope string_scope.
Local Open Scope Z_scope.
Local Open Scope list_scope.
Local Set Warnings "-register-all".

(** ** Python string operations *)

Module PyStr.

Definition code (c : ascii) : Z := Z.of_N (N_of_ascii c).

Definition chr (n : Z) : ascii := ascii_of_N (Z.to_N n).

(** [str.isspace] on ASCII: TAB..CR, FS..US and the space. *)
Definition is_space (c : ascii) : bool :=
  let n := code c in
  ((9 <=? n) && (n <=? 13)) || ((28 <=? n) && (n <=? 32)).

Fixpoint lstrip (s : string) : string :=
  match s with
  | EmptyString => EmptyString
  | String c s' => if is_space c then lstrip s' else s
  end.

Fixpoint rstrip (s : string) : string :=
  match s with
  | EmptyString => EmptyString
  | String c s' =>
      match rstrip s' with
      | EmptyString => if is_space c then EmptyString else String c EmptyString
      | r => String c r
      end
  end.

(** [s.strip()] *)
Definition strip (s : string) : string := rstrip (lstrip s).

Definition map_chars (f : ascii → ascii) : string → string :=
  fix go s :=
    match s with
    | EmptyString => EmptyString
    | String c s' => String (f c) (go s')
    end.

Definition lower_char (c : ascii) : ascii :=
  let n := code c in
  if (65 <=? n) && (n <=? 90) then chr (n + 32) else c.

Definition upper_char (c : ascii) : ascii :=
  let n := code c in
  if (97 <=? n) && (n <=? 122) then chr (n - 32) else c.

(** [s.lower()] and [s.upper()] *)
Definition lower : string → string := map_chars lower_char.
Definition upper : string → string := map_chars upper_char.

(** [s.endswith(suf)]: some tail of [s] is [suf]. *)
Fixpoint endswith (s suf : string) : bool :=
  if String.eqb s suf then true
  else match s with
       | EmptyString => false
       | String _ s' => endswith s' suf
       end.

(** [needle in hay] on strings. *)
Fixpoint contains (needle hay : string) : bool :=
  if String.prefix needle hay then true
  else match hay with
       | EmptyString => false
       | String _ hay' => contains needle hay'
       end.

(** Truth value of a string: non-empty. *)
Definition nonempty (s : string) : bool :=
  match s with EmptyString => false | _ => true end.

(** Truth value of an optional command-line string: given and non-empty. *)
Definition given (o : option string) : bool :=
  match o with Some s => nonempty s | None => false end.

Definition LF : ascii := "010"%char.
Definition CR : ascii := "013"%char.
Definition TAB : string := String "009"%char EmptyString.

(** [f.readline()] of a file opened in text mode: the text up to the
    first line end, which universal newlines deliver as LF. *)
Fixpoint readline (s : string) : string :=
  match s with
  | EmptyString => EmptyString
  | String c s' =>
      if Ascii.eqb c LF || Ascii.eqb c CR then String LF EmptyString
      else String c (readline s')
  end.

Definition digit (c : ascii) : option Z :=
  let n := code c in
  if (48 <=? n) && (n <=? 57) then Some (n - 48) else None.

(** Decimal digits with single underscores between digits. *)
Fixpoint digits (s : string) (acc : Z) (after_digit : bool) : option Z :=
  match s with
  | EmptyString => if after_digit then Some acc else None
  | String c s' =>
      match digit c with
      | Some d => digits s' (10 * acc + d) true
      | None =>
          if Ascii.eqb c "_"%char && after_digit then digits s' acc false
          else None
      end
  end.

(** [int(s)] for a string: surrounding whitespace, one optional sign,
    decimal digits; [None] stands for ValueError.  (The interpreter's
    limit on the number of digits is not modelled.) *)
Definition to_int (s : string) : option Z :=
  match strip s with
  | String "+"%char r => digits r 0 false
  | String "-"%char r => Z.opp <$> digits r 0 false
  | t => digits t 0 false
  end.

End PyStr.

(** ** JSON values and the Python operations the program applies to them *)

Inductive json :=
| JNull
| JBool (b : bool)
| JInt (n : Z)
| JStr (s : string)
| JList (l : list json)
| JObj (o : gmap string json).

Abbreviation dict := (gmap string json).

Inductive exn :=
| AttributeError | KeyError | IndexError | TypeError | ValueError | EOFError
| OSError.

(** How a run, or a step of one, ends. *)
Inductive result (A : Type) :=
| Ret (a : A)            (* normal completion *)
| Exit (code : Z)        (* sys.exit(code) *)
| Uncaught (e : exn)     (* an exception nobody catches: traceback, status 1 *)
| OutOfFuel.             (* the loop was cut by the model's fuel *)
Arguments Ret {A} a.
Arguments Exit {A} code.
Arguments Uncaught {A} e.
Arguments OutOfFuel {A}.

(** Exit status of the process. *)
Definition status {A} (r : result A) : option Z :=
  match r with
  | Ret _ => Some 0
  | Exit c => Some c
  | Uncaught _ => Some 1
  | OutOfFuel => None
  end.

#[global] Instance result_ret : MRet result := @Ret.
#[global] Instance result_bind : MBind result := λ A B f m,
  match m with
  | Ret a => f a
  | Exit c => Exit c
  | Uncaught e => Uncaught e
  | OutOfFuel => OutOfFuel
  end.

Module Py.

(** [bool(v)] *)
Definition truthy (v : json) : bool :=
  match v with
  | JNull => false
  | JBool b => b
  | JInt n => negb (n =? 0)
  | JStr s => PyStr.nonempty s
  | JList l => match l with [] => false | _ => true end
  | JObj o => negb (bool_decide (o = ∅))
  end.

(** [a or b] *)
Definition or_ (a b : json) : json := if truthy a then a else b.

(** [v.get(k, d)] *)
Definition get (v : json) (k : string) (d : json) : result json :=
  match v with
  | JObj o => Ret (default d (o !! k))
  | _ => Uncaught AttributeError
  end.

(** [v[k]] for a string key *)
Definition getitem (v : json) (k : string) : result json :=
  match v with
  | JObj o => match o !! k with Some x => Ret x | None => Uncaught KeyError end
  | _ => Uncaught TypeError
  end.

(** [v[0]] *)
Definition first (v : json) : result json :=
  match v with
  | JList (x :: _) => Ret x
  | JList [] => Uncaught IndexError
  | JStr (String c _) => Ret (JStr (String c EmptyString))
  | JStr EmptyString => Uncaught IndexError
  | JObj _ => Uncaught KeyError
  | _ => Uncaught TypeError
  end.

Definition chars (s : string) : list json :=
  (λ c, JStr (String c EmptyString)) <$> list_ascii_of_string s.

(** The items a [for] loop or [list.extend] draws from [v]. *)
Definition iter (v : json) : result (list json) :=
  match v with
  | JList l => Ret l
  | JStr s => Ret (chars s)
  | JObj o => Ret (JStr <$> (map_to_list o).*1)
  | _ => Uncaught TypeError
  end.

(** [len(v)] *)
Definition len (v : json) : result Z :=
  match v with
  | JList l => Ret (Z.of_nat (length l))
  | JStr s => Ret (Z.of_nat (String.length s))
  | JObj o => Ret (Z.of_nat (size o))
  | _ => Uncaught TypeError
  end.

(** [int(v)] *)
Definition int (v : json) : result Z :=
  match v with
  | JInt n => Ret n
  | JBool b => Ret (Z.b2z b)
  | JStr s => match PyStr.to_int s with Some n => Ret n | None => Uncaught ValueError end
  | _ => Uncaught TypeError
  end.

(** [v == s] for a string [s] *)
Definition eq_str (v : json) (s : string) : bool :=
  match v with JStr t => String.eqb t s | _ => false end.

(** [v is not None] *)
Definition not_none (v : json) : bool :=
  match v with JNull => false | _ => true end.

(** Command-line values as Python values: an omitted flag is [None]. *)
Definition of_str (o : option string) : json := from_option JStr JNull o.
Definition of_int (o : option Z) : json := from_option JInt JNull o.
Definition of_bool (o : option bool) : json := from_option JBool JNull o.

End Py.

(** ** The world a run talks to *)

(** The arguments of one [http_json] call.  The bearer token travels in
    the request headers; [params] is the query, in insertion order
    (empty when the call passes none). *)
Record request := Request {
  rq_method : string;
  rq_url : string;
  rq_token : string;
  rq_params : list (string * json);
  rq_payload : option dict
}.

(** What [urlopen] and the decoding of the body come to. *)
Inductive reply :=
| Answer (http_status : Z) (js : json)   (* a response whose body is JSON *)
| Raises (e : exn)                       (* any other exception of urlopen, read
                                            or json.loads: not caught *)
| HTTPError (code : Z) (body : string) (parsed : option json)
                                         (* error status; the body, and the
                                            body as JSON when it is JSON *)
| URLError (text : string).              (* transport failure, with its text *)

Inductive event :=
| EHttp (r : request)
| EStdout (text : string)        (* print(text) *)
| EStdoutJson (v : json)         (* print(json.dumps(v, indent=2)) *)
| EStderr (text : string)        (* print(text, file=sys.stderr) *)
| EStderrJson (v : json)         (* print(json.dumps(v, indent=2), file=sys.stderr) *)
| EPrompt (text : string)        (* the prompt input() writes *)
| ERead (line : string).         (* the line input() returns *)

Record world := World {
  environ : option string;                   (* CF_API_TOKEN *)
  files : string → string + string;          (* text of the file, or why reading fails *)
  isatty : bool;                             (* sys.stdin.isatty() *)
  server : list request → request → reply    (* reply, given the requests before *)
}.

Record state := State {
  trace : list event;
  stdin : list string      (* the lines not read yet *)
}.

Definition requests (t : list event) : list request :=
  omap (λ e, match e with EHttp r => Some r | _ => None end) t.

Definition prompts (t : list event) : list string :=
  omap (λ e, match e with EPrompt p => Some p | _ => None end) t.

(** Requests that change the provider's state. *)
Definition mutating (r : request) : bool :=
  negb (String.eqb (rq_method r) "GET").

Definition mutations (t : list event) : list request :=
  filter (λ r, mutating r = true) (requests t).

(** ** Runs *)

Definition M (A : Type) : Type := world → state → result A * state.

#[global] Instance M_ret : MRet M := λ A a _ s, (Ret a, s).
#[global] Instance M_bind : MBind M := λ A B f m w s,
  match m w s with
  | (Ret a, s') => f a w s'
  | (Exit c, s') => (Exit c, s')
  | (Uncaught e, s') => (Uncaught e, s')
  | (OutOfFuel, s') => (OutOfFuel, s')
  end.

Definition lift {A} (r : result A) : M A := λ _ s, (r, s).

Definition emit (e : event) : M unit :=
  λ _ s, (Ret (), State (trace s ++ [e]) (stdin s)).

Definition print (text : string) : M unit := emit (EStdout text).
Definition eprint (text : string) : M unit := emit (EStderr text).

(** [sys.exit(code)] *)
Definition sys_exit {A} (code : Z) : M A := lift (Exit code).

(** [input(prompt)]: end of input raises EOFError. *)
Definition read_line : M string :=
  λ _ s, match stdin s with
         | [] => (Uncaught EOFError, s)
         | line :: rest => (Ret line, State (trace s ++ [ERead line]) rest)
         end.

Definition input (prompt : string) : M string :=
  emit (EPrompt prompt);; read_line.

Definition stdin_isatty : M bool := λ w s, (Ret (isatty w), s).

Definition getenv : M (option string) := λ w s, (Ret (environ w), s).

Definition open_read (path : string) : M (string + string) :=
  λ w s, (Ret (files w path), s).

Definition urlopen (r : request) : M reply :=
  λ w s, (Ret (server w (requests (trace s)) r),
          State (trace s ++ [EHttp r]) (stdin s)).

(** ** The program *)

Definition API_BASE : string := "https://api.cloudflare.com/client/v4".

(** [die(msg, code, data)] (source lines 20-25) *)
Definition die {A} (msg : string) (code : Z) (data : option json) : M A :=
  eprint msg;;
  match data with
  | Some v => if Py.not_none v then emit (EStderrJson v) else mret ()
  | None => mret ()
  end;;
  sys_exit code.

(** [read_token] (source lines 27-36) *)
Definition read_token (token_file : option string) : M string :=
  t ← getenv;
  if PyStr.given t then mret (PyStr.strip (default "" t))
  else if PyStr.given token_file then
    f ← open_read (default "" token_file);
    match f with
    | inl text => mret (PyStr.strip (PyStr.readline text))
    | inr e => die ("Error reading token file: " +:+ e) 2 None
    end
  else die "No token. Set CF_API_TOKEN or use --token-file /path/to/token.txt" 2 None.

(** [normalize_name] (source lines 93-94) *)
Definition normalize_name (zone name : string) : string :=
  if String.eqb name zone || PyStr.endswith name ("." +:+ zone)
  then name
  else name +:+ "." +:+ zone.

(** [for x in xs: body(x)] *)
Fixpoint for_each {A} (xs : list A) (body : A → M unit) : M unit :=
  match xs with
  | [] => mret ()
  | x :: xs' => body x;; for_each xs' body
  end.

(** Python's [repr] of a list or a dict, which [str] and f-strings fall
    back to; the program only meets it when a field it prints holds a
    container.  It is an interface of the interpreter, left open. *)
Class PyRepr := py_repr : json → string.

Section Program.

Context `{!PyRepr}.

(** [str(v)], also the text an f-string puts for [{v}]. *)
Definition py_str (v : json) : string :=
  match v with
  | JNull => "None"
  | JBool true => "True"
  | JBool false => "False"
  | JInt n => pretty n
  | JStr s => s
  | _ => py_repr v
  end.

(** [http_json] (source lines 46-67) *)
Definition http_json (method url token : string) (payload : option dict)
    (params : list (string * json)) : M json :=
  r ← urlopen (Request method url token params payload);
  match r with
  | Answer st js =>
      ok ← lift (Py.get js "success" (JBool false));
      if Py.truthy ok then mret js
      else die ("Cloudflare API error (HTTP " +:+ pretty st +:+ ")") 1 (Some js)
  | Raises e => lift (Uncaught e)
  | HTTPError code body None =>
      die ("HTTP " +:+ pretty code +:+ ": " +:+ substring 0 4000 body) 1 None
  | HTTPError code _ (Some js) =>
      die ("Cloudflare API error (HTTP " +:+ pretty code +:+ ")") 1 (Some js)
  | URLError text => die ("Network error: " +:+ text) 1 None
  end.

(** [zone_id] (source lines 69-73) *)
Definition zone_id (token zone_name base : string) : M json :=
  js ← http_json "GET" (base +:+ "/zones") token None [("name", JStr zone_name)];
  r ← lift (Py.get js "result" JNull);
  let res := Py.or_ r (JList []) in
  if negb (Py.truthy res)
  then die ("Zone not found or unauthorized: " +:+ zone_name) 3 None
  else z ← lift (Py.first res); lift (Py.getitem z "id").

Definition records_url (base : string) (zid : json) : string :=
  base +:+ "/zones/" +:+ py_str zid +:+ "/dns_records".

Definition record_url (base : string) (zid rid : json) : string :=
  base +:+ "/zones/" +:+ py_str zid +:+ "/dns_records/" +:+ py_str rid.

(** The query of one page request (source lines 79-80). *)
Definition page_params (page per : Z) (rtype : option string) : list (string * json) :=
  ([("page", JInt page); ("per_page", JInt per)]
   ++ (if PyStr.given rtype then [("type", JStr (default "" rtype))] else []))%list.

(** The [while True] loop of [paginate_records] (source lines 78-85),
    entered with the current [page] and [out]. *)
Fixpoint paginate_loop (fuel : nat) (token : string) (zid : json)
    (rtype : option string) (base : string) (page : Z) (out : list json)
    : M (list json) :=
  match fuel with
  | O => lift OutOfFuel
  | S fuel' =>
      js ← http_json "GET" (records_url base zid) token None
             (page_params page 100 rtype);
      r ← lift (Py.get js "result" JNull);
      items ← lift (Py.iter (Py.or_ r (JList [])));
      let out := (out ++ items)%list in
      i ← lift (Py.get js "result_info" JNull);
      let info := Py.or_ i (JObj ∅) in
      tp ← lift (Py.get info "total_pages" (JInt 1));
      n ← lift (Py.int tp);
      if page >=? n then mret out
      else paginate_loop fuel' token zid rtype base (page + 1) out
  end.

(** [paginate_records] (source lines 75-86) *)
Definition paginate_records (fuel : nat) (token : string) (zid : json)
    (rtype : option string) (base : string) : M (list json) :=
  paginate_loop fuel token zid rtype base 1 [].

(** One row of [render_table] (source line 91). *)
Definition table_row (r : json) : result string :=
  id ← Py.get r "id" (JStr "");
  ty ← Py.get r "type" (JStr "");
  name ← Py.get r "name" (JStr "");
  content ← Py.get r "content" (JStr "");
  ttl ← Py.get r "ttl" (JStr "");
  proxied ← Py.get r "proxied" (JStr "");
  mret (py_str id +:+ PyStr.TAB +:+ py_str ty +:+ PyStr.TAB +:+ py_str name
        +:+ PyStr.TAB +:+ py_str content +:+ PyStr.TAB +:+ py_str ttl
        +:+ PyStr.TAB +:+ py_str proxied).

(** [render_table] (source lines 88-91) *)
Definition render_table (records : json) : M unit :=
  print ("id" +:+ PyStr.TAB +:+ "type" +:+ PyStr.TAB +:+ "name" +:+ PyStr.TAB
         +:+ "content" +:+ PyStr.TAB +:+ "ttl" +:+ PyStr.TAB +:+ "proxied");;
  items ← lift (Py.iter records);
  for_each items (λ r, row ← lift (table_row r); print row).

(** [rtype in ("A","AAAA","CNAME")] *)
Definition proxiable (rtype : json) : bool :=
  Py.eq_str rtype "A" || Py.eq_str rtype "AAAA" || Py.eq_str rtype "CNAME".

(** [build_payload] (source lines 96-100) *)
Definition build_payload (name rtype content ttl proxied : json) : result dict :=
  let p : dict := <["content" := content]> (<["name" := name]> {["type" := rtype]}) in
  p ← (if Py.not_none ttl then n ← Py.int ttl; mret (<["ttl" := JInt n]> p)
       else mret p);
  mret (if proxiable rtype && Py.not_none proxied
        then <["proxied" := JBool (Py.truthy proxied)]> p
        else p).

(** [next((m for m in matches if m.get("id")==choice), None)]
    (source line 121) *)
Fixpoint first_with_id (choice : string) (matches : list json)
    : result (option json) :=
  match matches with
  | [] => mret None
  | m :: rest =>
      id ← Py.get m "id" JNull;
      if Py.eq_str id choice then mret (Some m)
      else first_with_id choice rest
  end.

(** [find_record] (source lines 102-123) *)
Definition find_record (token : string) (zid : json) (rid name rtype : option string)
    (zone_name base : string) : M (json * json) :=
  if PyStr.given rid then
    let rid := default "" rid in
    js ← http_json "GET" (record_url base zid (JStr rid)) token None [];
    r ← lift (Py.getitem js "result");
    mret (JStr rid, r)
  else if negb (PyStr.given name) || negb (PyStr.given rtype) then
    die "Provide --id OR (--name and --type)" 2 None
  else
    let name := default "" name in
    let rtype := default "" rtype in
    let fqdn := if PyStr.nonempty zone_name then normalize_name zone_name name
                else name in
    js ← http_json "GET" (records_url base zid) token None
           [("type", JStr rtype); ("name", JStr fqdn)];
    r ← lift (Py.get js "result" JNull);
    let matches := Py.or_ r (JList []) in
    if negb (Py.truthy matches)
    then die ("No records match: type=" +:+ rtype +:+ " name=" +:+ fqdn) 3 None
    else
      n ← lift (Py.len matches);
      if n =? 1 then
        r ← lift (Py.first matches);
        id ← lift (Py.getitem r "id");
        mret (id, r)
      else
        tty ← stdin_isatty;
        if negb tty
        then die ("Multiple records match type=" +:+ rtype +:+ " name=" +:+ fqdn
                  +:+ ". Use --id to specify.") 3 None
        else
          print ("Multiple records found:" +:+ String PyStr.LF "");;
          render_table matches;;
          line ← input (String PyStr.LF ""
                        +:+ "Enter record ID to proceed (blank to cancel): ");
          let choice := PyStr.strip line in
          if negb (PyStr.nonempty choice)
          then eprint "No record selected.";; sys_exit 0
          else
            sel ← lift (Py.iter matches ≫= first_with_id choice);
            match sel with
            | Some m => if Py.truthy m then mret (JStr choice, m)
                        else die "Invalid record ID." 2 None
            | None => die "Invalid record ID." 2 None
            end.

(** One row of [cmd_zones] (source line 131). *)
Definition zone_row (z : json) : result string :=
  id ← Py.get z "id" (JStr "");
  name ← Py.get z "name" (JStr "");
  st ← Py.get z "status" (JStr "");
  plan ← Py.get z "plan" JNull;
  plan_name ← Py.get (Py.or_ plan (JObj ∅)) "name" (JStr "");
  mret (py_str id +:+ PyStr.TAB +:+ py_str name +:+ PyStr.TAB +:+ py_str st
        +:+ PyStr.TAB +:+ py_str plan_name).

(** The [while True] loop of [cmd_zones] (source lines 128-134). *)
Fixpoint zones_loop (fuel : nat) (token base : string) (page : Z) : M unit :=
  match fuel with
  | O => lift OutOfFuel
  | S fuel' =>
      js ← http_json "GET" (base +:+ "/zones") token None (page_params page 50 None);
      r ← lift (Py.get js "result" (JList []));
      zs ← lift (Py.iter r);
      for_each zs (λ z, row ← lift (zone_row z); print row);;
      i ← lift (Py.get js "result_info" JNull);
      let info := Py.or_ i (JObj ∅) in
      tp ← lift (Py.get info "total_pages" (JInt 1));
      n ← lift (Py.int tp);
      if page >=? n then mret ()
      else zones_loop fuel' token base (page + 1)
  end.

(** [cmd_zones] (source lines 125-134) *)
Definition cmd_zones (fuel : nat) (token base : string) : M unit :=
  print ("id" +:+ PyStr.TAB +:+ "name" +:+ PyStr.TAB +:+ "status" +:+ PyStr.TAB
         +:+ "plan");;
  zones_loop fuel token base 1.

(** [[r for r in recs if needle in str(r.get("name","")).lower()]]
    (source line 141) *)
Fixpoint name_filter (needle : string) (recs : list json) : result (list json) :=
  match recs with
  | [] => mret []
  | r :: rest =>
      name ← Py.get r "name" (JStr "");
      kept ← name_filter needle rest;
      mret (if PyStr.contains needle (PyStr.lower (py_str name))
            then r :: kept else kept)
  end.

(** [cmd_list] (source lines 136-143) *)
Definition cmd_list (fuel : nat) (token zone : string) (rtype name_substr : option string)
    (as_json : bool) (base : string) : M unit :=
  zid ← zone_id token zone base;
  recs ← paginate_records fuel token zid rtype base;
  recs ← (if PyStr.given name_substr
          then lift (name_filter (PyStr.lower (default "" name_substr)) recs)
          else mret recs);
  if as_json then emit (EStdoutJson (JList recs)) else render_table (JList recs).

(** [ans in ("y","yes")] *)
Definition affirmative (ans : string) : bool :=
  String.eqb ans "y" || String.eqb ans "yes".

(** [confirm] (source lines 145-150) *)
Definition confirm (prompt : string) (yes : bool) : M unit :=
  if yes then mret ()
  else
    line ← input (prompt +:+ " [y/N] ");
    let ans := PyStr.lower (PyStr.strip line) in
    if negb (affirmative ans) then eprint "Aborted.";; sys_exit 0
    else mret ().

(** [cmd_add] (source lines 152-161) *)
Definition cmd_add (token zone name rtype content : string) (ttl : option Z)
    (proxied : option bool) (yes : bool) (base : string) : M unit :=
  zid ← zone_id token zone base;
  let fqdn := normalize_name zone name in
  let rtype := PyStr.upper rtype in
  payload ← lift (build_payload (JStr fqdn) (JStr rtype) (JStr content)
                    (Py.of_int ttl) (Py.of_bool proxied));
  print ("About to CREATE: " +:+ rtype +:+ " " +:+ fqdn +:+ " → " +:+ content);;
  confirm "Proceed?" yes;;
  js ← http_json "POST" (records_url base zid) token (Some payload) [];
  r ← lift (Py.getitem js "result");
  r_name ← lift (Py.get r "name" JNull);
  r_type ← lift (Py.get r "type" JNull);
  r_content ← lift (Py.get r "content" JNull);
  r_ttl ← lift (Py.get r "ttl" JNull);
  r_proxied ← lift (Py.get r "proxied" JNull);
  print ("Record " +:+ py_str r_name +:+ " (" +:+ py_str r_type +:+ ") created: "
         +:+ py_str r_content +:+ " (ttl=" +:+ py_str r_ttl +:+ " proxied="
         +:+ py_str r_proxied +:+ ")").

(** [rtype.upper() if rtype else None] *)
Definition upper_opt (rtype : option string) : option string :=
  if PyStr.given rtype then Some (PyStr.upper (default "" rtype)) else None.

(** The payload [cmd_update] computes from the flags and the current
    record (source lines 167-172). *)
Definition update_payload (zone : string) (name rtype content : option string)
    (ttl : option Z) (proxied : option bool) (current : json)
    : result (json * json * json * dict) :=
  new_name ← (if PyStr.given name
              then mret (JStr (normalize_name zone (default "" name)))
              else Py.get current "name" JNull);
  new_type ← (if PyStr.given rtype then mret (Py.of_str rtype)
              else Py.get current "type" JNull);
  new_content ← (if Py.not_none (Py.of_str content) then mret (Py.of_str content)
                 else Py.get current "content" JNull);
  new_ttl ← (if Py.not_none (Py.of_int ttl) then mret (Py.of_int ttl)
             else Py.get current "ttl" JNull);
  prox_eff ← (if Py.not_none (Py.of_bool proxied) then mret (Py.of_bool proxied)
              else
                p ← Py.get current "proxied" JNull;
                match p with
                | JBool _ => p' ← Py.get current "proxied" JNull;
                             mret (JBool (Py.truthy p'))
                | _ => mret JNull
                end);
  payload ← build_payload new_name new_type new_content new_ttl prox_eff;
  mret (new_name, new_type, new_content, payload).

(** [cmd_update] (source lines 163-179) *)
Definition cmd_update (token zone : string) (rid name rtype content : option string)
    (ttl : option Z) (proxied : option bool) (yes : bool) (base : string) : M unit :=
  zid ← zone_id token zone base;
  let rtype := upper_opt rtype in
  '(rid, current) ← find_record token zid rid name rtype zone base;
  '(new_name, new_type, new_content, payload) ←
    lift (update_payload zone name rtype content ttl proxied current);
  print "About to UPDATE:";;
  c_type ← lift (Py.get current "type" JNull);
  c_name ← lift (Py.get current "name" JNull);
  c_content ← lift (Py.get current "content" JNull);
  print ("from: " +:+ py_str c_type +:+ " " +:+ py_str c_name +:+ " → "
         +:+ py_str c_content);;
  print ("to:   " +:+ py_str new_type +:+ " " +:+ py_str new_name +:+ " → "
         +:+ py_str new_content);;
  confirm "Proceed?" yes;;
  js ← http_json "PUT" (record_url base zid rid) token (Some payload) [];
  r ← lift (Py.getitem js "result");
  r_name ← lift (Py.get r "name" JNull);
  r_type ← lift (Py.get r "type" JNull);
  c_content ← lift (Py.get current "content" JNull);
  r_content ← lift (Py.get r "content" JNull);
  print ("Record " +:+ py_str r_name +:+ " (" +:+ py_str r_type +:+ ") updated: "
         +:+ py_str c_content +:+ " → " +:+ py_str r_content).

(** [cmd_delete] (source lines 181-188) *)
Definition cmd_delete (token zone : string) (rid name rtype : option string)
    (yes : bool) (base : string) : M unit :=
  zid ← zone_id token zone base;
  let rtype := upper_opt rtype in
  '(rid, current) ← find_record token zid rid name rtype zone base;
  c_type ← lift (Py.get current "type" JNull);
  c_name ← lift (Py.get current "name" JNull);
  c_content ← lift (Py.get current "content" JNull);
  print ("About to DELETE: " +:+ py_str c_type +:+ " " +:+ py_str c_name +:+ " → "
         +:+ py_str c_content);;
  confirm "Proceed?" yes;;
  http_json "DELETE" (record_url base zid rid) token None [];;
  c_name ← lift (Py.get current "name" JNull);
  c_type ← lift (Py.get current "type" JNull);
  c_content ← lift (Py.get current "content" JNull);
  print ("Record " +:+ py_str c_name +:+ " (" +:+ py_str c_type +:+ ") deleted: "
         +:+ py_str c_content).

(** The parsed command line: what [argparse] hands to [main]. *)
Inductive invocation :=
| Zones
| List (zone : string) (rtype name_substr : option string) (as_json : bool)
| Add (zone name rtype content : string) (ttl : option Z) (proxied : option string)
| Update (zone : string) (rid name rtype content : option string) (ttl : option Z)
    (proxied : option string)
| Delete (zone : string) (rid name rtype : option string).

Record cli := Cli {
  token_file : option string;
  base_url : string;
  yes : bool;
  cmd : invocation
}.

(** [prox] of [main] (source lines 250-251 and 254-255). *)
Definition prox (proxied : option string) : option bool :=
  (λ p, String.eqb (PyStr.lower p) "on") <$> proxied.

(** [main] after [parse_args] (source lines 240-258). *)
Definition main (fuel : nat) (args : cli) : M unit :=
  token ← read_token (token_file args);
  let base := base_url args in
  match cmd args with
  | Zones => cmd_zones fuel token base
  | List zone rtype name_substr as_json =>
      cmd_list fuel token zone (upper_opt rtype) name_substr as_json base
  | Add zone name rtype content ttl proxied =>
      cmd_add token zone name rtype content ttl (prox proxied) (yes args) base
  | Update zone rid name rtype content ttl proxied =>
      cmd_update token zone rid name rtype content ttl (prox proxied) (yes args) base
  | Delete zone rid name rtype =>
      cmd_delete token zone rid name rtype (yes args) base
  end.

End Program.

(** The commands that change the provider's state. *)
Definition is_mutation (c : invocation) : bool :=
  match c with
  | Add _ _ _ _ _ _ | Update _ _ _ _ _ _ _ | Delete _ _ _ _ => true
  | _ => false
  end.

(** The prompt of the confirmation gate: [confirm("Proceed?", yes)]. *)
Definition confirm_prompt : string := "Proceed? [y/N] ".

(** ** Vocabulary of the statements *)

(** A response body [http_json] accepts: an object whose [success] is true. *)
Definition accepted (js : json) : bool :=
  match Py.get js "success" (JBool false) with
  | Ret ok => Py.truthy ok
  | _ => false
  end.

(** [o.get(k)] *)
Definition field (o : dict) (k : string) : json := default JNull (o !! k).

(** No leading and no trailing whitespace. *)
Definition stripped (s : string) : Prop :=
  PyStr.lstrip s = s ∧ PyStr.rstrip s = s.

(** The same world with another value of CF_API_TOKEN. *)
Definition with_environ (v : option string) (w : world) : world :=
  World v (files w) (isatty w) (server w).

(** Events other than requests and prompts: output and lines read. *)
Definition benign (e : event) : Prop :=
  match e with
  | EHttp _ | EPrompt _ => False
  | _ => True
  end.

(** Every event a computation adds to the trace satisfies [P]. *)
Definition emits {A} (P : event → Prop) (m : M A) : Prop :=
  ∀ w s, ∃ t, trace (m w s).2 = trace s ++ t ∧ Forall P t.

(** [m.get("id") == choice] for a candidate [m] that is an object. *)
Definition has_id (choice : string) (m : json) : bool :=
  match m with
  | JObj o => Py.eq_str (field o "id") choice
  | _ => false
  end.

Definition is_object (m : json) : Prop := ∃ o : dict, m = JObj o.

(** A listing response [http_json] accepts, carrying [items] and
    reporting [k] pages in all. *)
Definition is_page (js : json) (items : list json) (k : Z) : Prop :=
  ∃ o info : dict,
    js = JObj o ∧ accepted js = true
    ∧ o !! "result" = Some (JList items)
    ∧ o !! "result_info" = Some (JObj info)
    ∧ info !! "total_pages" = Some (JInt k).

(** The request of the record lister for one page (page size 100). *)
Definition page_request `{!PyRepr} (token : string) (zid : json)
    (rtype : option string) (base : string) (page : Z) : request :=
  Request "GET" (records_url base zid) token (page_params page 100 rtype) None.

(** The request of the zones command for one page (page size 50). *)
Definition zones_page_request (token base : string) (page : Z) : request :=
  Request "GET" (base +:+ "/zones") token (page_params page 50 None) None.

(** ** Vocabulary of the pagination claim *)

(** Events other than requests. *)
Definition no_request (e : event) : Prop :=
  match e with
  | EHttp _ => False
  | _ => True
  end.

(** A zone the zones command can print. *)
Definition printable_zone `{!PyRepr} (z : json) : Prop :=
  ∃ row, zone_row z = Ret row.

(** The query of resolution by (name, type). *)
Definition resolve_request `{!PyRepr} (token : string) (zid : json)
    (name rtype zone base : string) : request :=
  Request "GET" (records_url base zid) token
    [("type", JStr rtype);
     ("name", JStr (if PyStr.nonempty zone then normalize_name zone name else name))]
    None.

(** A request that asks for a page. *)
Definition asks_page (r : request) : bool :=
  bool_decide (is_Some ((list_to_map (rq_params r) : dict) !! "page")).

(** C8 as the specification words it, first half: pagination lives in
    the record lister only, so every request for a page that a run
    sends is one of the lister's. *)
Definition pagination_in_lister_only `{!PyRepr} : Prop :=
  ∀ fuel args w s r,
    r ∈ requests (trace (main fuel args w s).2) →
    r ∉ requests (trace s) →
    asks_page r = true →
    ∃ token zid rtype base page, r = page_request token zid rtype base page.

(** C8 as the specification words it, second half: resolution by
    (name, type) walks all reported pages, so when the answer to its
    query reports [k] pages it sends [k] requests. *)
Definition resolution_walks_pages `{!PyRepr} : Prop :=
  ∀ token zid name rtype zone base w s st js items k,
    name ≠ "" → rtype ≠ "" →
    server w (requests (trace s)) (resolve_request token zid name rtype zone base)
    = Answer st js →
    is_page js items k →
    length (requests (trace (find_record token zid None (Some name) (Some rtype)
                               zone base w s).2))
    = (length (requests (trace s)) + Z.to_nat k)%nat.

(** ** A mock provider

    One zone, example.com, with four records, two of them TXT records of
    the same name.  Used to run the program on concrete inputs. *)

Module Mock.

Definition repr : PyRepr := λ _, "<container>".

Definition base : string := "https://mock".
Definition token : string := "secret".

Definition record (id type name content : string) (ttl : Z) (proxied : bool) : dict :=
  list_to_map [("id", JStr id); ("type", JStr type); ("name", JStr name);
               ("content", JStr content); ("ttl", JInt ttl);
               ("proxied", JBool proxied)].

Definition www : dict := record "r1" "A" "www.example.com" "1.2.3.4" 300 true.
Definition api : dict := record "r2" "A" "api.example.com" "5.6.7.8" 300 false.
Definition txt1 : dict := record "t1" "TXT" "example.com" "v=spf1 -all" 3600 false.
Definition txt2 : dict := record "t2" "TXT" "example.com" "site=abc" 3600 false.

Definition records : list dict := [www; api; txt1; txt2].

Definition zone : dict :=
  list_to_map [("id", JStr "z1"); ("name", JStr "example.com");
               ("status", JStr "active")].

(** An accepted body with a result and a page count. *)
Definition body (result : json) (total_pages : Z) : dict :=
  list_to_map [("success", JBool true); ("result", result);
               ("result_info", JObj {[ "total_pages" := JInt total_pages ]})].

Definition param (r : request) (k : string) : json :=
  default JNull ((list_to_map (rq_params r) : dict) !! k).

Definition matching (ty name : json) : list dict :=
  List.filter (λ m : dict,
    match ty, name with
    | JStr t, JStr n => Py.eq_str (field m "type") t && Py.eq_str (field m "name") n
    | _, _ => false
    end) records.

(** The record listing: by page when a page is asked for (two records a
    page), else the records of the given type and name, of which the
    provider hands out at most [per] in one response. *)
Definition listing (per : nat) (r : request) : dict :=
  match param r "page" with
  | JInt 1 => body (JList [JObj www; JObj api]) 2
  | JInt 2 => body (JList [JObj txt1; JObj txt2]) 2
  | JInt _ => body (JList []) 2
  | _ =>
      let ms := matching (param r "type") (param r "name") in
      body (JList (JObj <$> take per ms))
           (Z.of_nat (Nat.div (length ms + per - 1) per))
  end.

Definition zones (r : request) : dict :=
  match param r "name", param r "page" with
  | JStr n, _ => body (JList (if String.eqb n "example.com" then [JObj zone] else [])) 1
  | _, JInt 2 => body (JList []) 2
  | _, _ => body (JList [JObj zone]) 2
  end.

(** The record a fetch-by-id URL names. *)
Definition by_id (url : string) : option dict :=
  List.find (λ m : dict,
    match field m "id" with
    | JStr i => String.eqb url ("https://mock/zones/z1/dns_records/" +:+ i)
    | _ => false
    end) records.

Definition server (per : nat) (_ : list request) (r : request) : reply :=
  if String.eqb (rq_url r) "https://mock/zones" then Answer 200 (JObj (zones r))
  else if String.eqb (rq_url r) "https://mock/zones/z1/dns_records" then
    match rq_payload r with
    | Some p => Answer 200 (JObj (body (JObj p) 1))
    | None => Answer 200 (JObj (listing per r))
    end
  else match by_id (rq_url r), rq_payload r with
       | Some m, None => Answer 200 (JObj (body (JObj m) 1))
       | Some _, Some p => Answer 200 (JObj (body (JObj p) 1))
       | None, _ => HTTPError 404 "not found" None
       end.

Definition world (tty : bool) (per : nat) : world :=
  World (Some token) (λ _, inr "no such file") tty (server per).

Definition start (lines : list string) : state := State [] lines.

End Mock.

(** A [ttl] field as the provider sends it: an integer, null or absent. *)
Definition int_or_absent (v : option json) : Prop :=
  match v with
  | None | Some JNull | Some (JInt _) => True
  | _ => False
  end.

(** C1 as the specification words it: a field of the payload is the
    supplied value when that is not None, else the current record's. *)
Definition merge (supplied current : json) : json :=
  if Py.not_none supplied then supplied else current.

Definition plain_merge (name rtype content : option string) (ttl : option Z)
    (proxied : option bool) (cur payload : dict) : Prop :=
  payload !! "name" = Some (merge (Py.of_str name) (field cur "name"))
  ∧ payload !! "type" = Some (merge (Py.of_str rtype) (field cur "type"))
  ∧ payload !! "content" = Some (merge (Py.of_str content) (field cur "content"))
  ∧ payload !! "ttl" = Some (merge (Py.of_int ttl) (field cur "ttl"))
  ∧ payload !! "proxied" = Some (merge (Py.of_bool proxied) (field cur "proxied")).

(** The fields a payload may carry. *)
Definition payload_fields : list string :=
  ["type"; "name"; "content"; "ttl"; "proxied"].

(** Events that change nothing at the provider. *)
Definition harmless (e : event) : Prop :=
  match e with
  | EHttp r => mutating r = false
  | _ => True
  end.

(** ** Vocabulary of the confirmation gate *)

(** The same command line with the [--yes] flag set or cleared. *)
Definition with_yes (b : bool) (args : cli) : cli :=
  Cli (token_file args) (base_url args) b (cmd args).

(** The line read in answer to the first confirmation prompt of a trace. *)
Fixpoint gate_answer (t : list event) : option string :=
  match t with
  | [] => None
  | EPrompt p :: rest =>
      if String.eqb p confirm_prompt
      then match rest with ERead line :: _ => Some line | _ => None end
      else gate_answer rest
  | _ :: rest => gate_answer rest
  end.

(** What [confirm] makes of an answer: [ans not in ("y","yes")]. *)
Definition declines (line : string) : bool :=
  negb (affirmative (PyStr.lower (PyStr.strip line))).

(** Events that are neither a change at the provider nor the
    confirmation prompt. *)
Definition quiet (e : event) : Prop :=
  match e with
  | EHttp r => mutating r = false
  | EPrompt p => p ≠ confirm_prompt
  | _ => True
  end.

(** Events other than prompts. *)
Definition no_prompt (e : event) : Prop :=
  match e with
  | EPrompt _ => False
  | _ => True
  end.

(** The commands that change the provider's state and need no
    disambiguation: add, and update or delete of a record given by id. *)
Definition direct (c : invocation) : bool :=
  match c with
  | Add _ _ _ _ _ _ => true
  | Update _ rid _ _ _ _ _ | Delete _ rid _ _ => PyStr.given rid
  | _ => false
  end.

(** The gate, between the events [t1] of a run with the confirmation
    skipped and the events [t0] and outcome [r0] of the same run with
    the confirmation asked. *)
Definition gate_ok {A} (r0 : result A) (t1 t0 : list event) : Prop :=
  (confirm_prompt ∉ prompts t1)
  ∧ (confirm_prompt ∈ prompts t0 → ∃ r, mutating r = true ∧ mutations t1 = [r])
  ∧ (∀ line, gate_answer t0 = Some line → declines line = true →
       r0 = Exit 0 ∧ mutations t0 = [])
  ∧ (mutations t0 ≠ [] →
       ∃ line, gate_answer t0 = Some line ∧ declines line = false).

Definition gated {A} (m1 m0 : M A) : Prop :=
  ∀ w s, ∃ t1 t0,
    trace (m1 w s).2 = trace s ++ t1
    ∧ trace (m0 w s).2 = trace s ++ t0
    ∧ gate_ok (m0 w s).1 t1 t0.

(** What a mutating command has in hand when it comes to its gate from
    state [s]: the token, the zone id, for update and delete the current
    record, and the payload.  [r] is the change the command is about to
    make and [s'] the state once all that is resolved (source lines
    153-156, 164-172 and 182-184). *)
Definition pending `{!PyRepr} (args : cli) (w : world) (s : state) (r : request)
    (s' : state) : Prop :=
  ∃ tok, read_token (token_file args) w s = (Ret tok, s) ∧
  let base := base_url args in
  match cmd args with
  | Add zone name rtype content ttl proxied =>
      ∃ zid payload,
        zone_id tok zone base w s = (Ret zid, s')
        ∧ build_payload (JStr (normalize_name zone name)) (JStr (PyStr.upper rtype))
            (JStr content) (Py.of_int ttl) (Py.of_bool (prox proxied)) = Ret payload
        ∧ r = Request "POST" (records_url base zid) tok [] (Some payload)
  | Update zone rid name rtype content ttl proxied =>
      ∃ zid s1 rid' (cur : dict) new_name new_type new_content payload,
        zone_id tok zone base w s = (Ret zid, s1)
        ∧ find_record tok zid rid name (upper_opt rtype) zone base w s1
          = (Ret (rid', JObj cur), s')
        ∧ update_payload zone name (upper_opt rtype) content ttl (prox proxied)
            (JObj cur) = Ret (new_name, new_type, new_content, payload)
        ∧ r = Request "PUT" (record_url base zid rid') tok [] (Some payload)
  | Delete zone rid name rtype =>
      ∃ zid s1 rid' (cur : dict),
        zone_id tok zone base w s = (Ret zid, s1)
        ∧ find_record tok zid rid name (upper_opt rtype) zone base w s1
          = (Ret (rid', JObj cur), s')
        ∧ r = Request "DELETE" (record_url base zid rid') tok [] None
  | _ => False
  end.

(** C4 as the specification words it, first half: for a mutating
    command with the skip flag set, no prompt is issued. *)
Definition silent_with_yes `{!PyRepr} : Prop :=
  ∀ fuel args w s,
    is_mutation (cmd args) = true → yes args = true →
    prompts (trace (main fuel args w s).2) = prompts (trace s).


(** ** Vocabulary of the further properties *)

(** A reply on which [http_json] gives up: an error status, a transport
    failure, or an object whose [success] is missing or not true. *)
Definition failing (rp : reply) : Prop :=
  match rp with
  | HTTPError _ _ _ | URLError _ => True
  | Answer _ (JObj o) => Py.truthy (default (JBool false) (o !! "success")) = false
  | _ => False
  end.

(** The zone a command works on. *)
Definition zone_of (c : invocation) : option string :=
  match c with
  | Zones => None
  | List zone _ _ _ | Add zone _ _ _ _ _ | Update zone _ _ _ _ _ _
  | Delete zone _ _ _ => Some zone
  end.

(** The exact-name query of the zone resolver. *)
Definition zone_request (token zone base : string) : request :=
  Request "GET" (base +:+ "/zones") token [("name", JStr zone)] None.

(** The method of the one change a command makes. *)
Definition method_of (c : invocation) : string :=
  match c with
  | Add _ _ _ _ _ _ => "POST"
  | Update _ _ _ _ _ _ _ => "PUT"
  | Delete _ _ _ _ => "DELETE"
  | _ => "GET"
  end.

(** A provider that fails where the mock one answers: the zone lookup
    works; the record listing answers page 1 of 3 and then breaks; a
    fetch by id is refused; a create is accepted with an empty body. *)
Module Faulty.

Definition server (_ : list request) (r : request) : reply :=
  if String.eqb (rq_url r) "https://mock/zones" then
    Answer 200 (JObj (Mock.body (JList [JObj Mock.zone]) 1))
  else if String.eqb (rq_url r) "https://mock/zones/z1/dns_records" then
    match rq_payload r, Mock.param r "page" with
    | Some _, _ => Answer 200 (JObj {[ "success" := JBool true ]})
    | None, JInt 1 => Answer 200 (JObj (Mock.body (JList [JObj Mock.www]) 3))
    | None, _ => HTTPError 500 "oops" None
    end
  else HTTPError 404 "{}" (Some (JObj {[ "success" := JBool false ]})).

(** A provider that answers every request with the same body. *)
Definition constant (o : dict) : world :=
  World (Some Mock.token) (λ _, inr "no such file") false
        (λ _ _, Answer 200 (JObj o)).

(** A provider whose listing never ends: every page is empty and
    reports one page more than the page asked for. *)
Definition endless : world :=
  World (Some Mock.token) (λ _, inr "no such file") false
        (λ _ r, match Mock.param r "page" with
                | JInt p => Answer 200 (JObj (Mock.body (JList []) (p + 1)))
                | _ => HTTPError 400 "no page" None
                end).

Definition world : world :=
  World (Some Mock.token) (λ _, inr "no such file") false server.

End Faulty.

(** A request for [base], carrying [token]; any other event. *)
Definition carries (token base : string) (e : event) : Prop :=
  match e with
  | EHttp r => rq_token r = token ∧ String.prefix base (rq_url r) = true
  | _ => True
  end.

(** At most one change, and nothing but output after it: the events [t]
    are harmless, or harmless up to one mutating request that satisfies
    [Q] and output from there on. *)
Definition one_change (Q : request → Prop) (t : list event) : Prop :=
  Forall harmless t
  ∨ ∃ pre r post,
      t = pre ++ EHttp r :: post
      ∧ Forall harmless pre ∧ Forall benign post
      ∧ mutating r = true ∧ Q r.

Definition once {A} (Q : request → Prop) (m : M A) : Prop :=
  ∀ w s, ∃ t, trace (m w s).2 = trace s ++ t ∧ one_change Q t.

(** A computation that reads nothing when there is nothing to read. *)
Definition dry {A} (m : M A) : Prop :=
  ∀ w s, stdin s = [] → stdin (m w s).2 = [].

(** A computation that, with nothing to read, changes nothing and does
    not come to its end. *)
Definition starved {A} (m : M A) : Prop :=
  ∀ w s, stdin s = [] →
    (∀ a, (m w s).1 ≠ Ret a)
    ∧ ∃ t, trace (m w s).2 = trace s ++ t ∧ Forall harmless t.

(** A response that reports no page count, or one below two: no
    [result_info] (or null), no [total_pages] in it, or an integer
    [total_pages] of at most 1. *)
Definition at_most_one_page (o : dict) : Prop :=
  o !! "result_info" = None
  ∨ o !! "result_info" = Some JNull
  ∨ ∃ info : dict,
      o !! "result_info" = Some (JObj info)
      ∧ (info !! "total_pages" = None
         ∨ ∃ n, info !! "total_pages" = Some (JInt n) ∧ n ≤ 1).

(** [needle in str(r.get("name","")).lower()] for a record that is an
    object (source line 141). *)
Definition name_has `{!PyRepr} (needle : string) (r : json) : bool :=
  match r with
  | JObj o => PyStr.contains needle
                (PyStr.lower (py_str (default (JStr "") (o !! "name"))))
  | _ => false
  end.

(** The same command with another [--type]. *)
Definition with_type (ty : string) (c : invocation) : invocation :=
  match c with
  | Zones => Zones
  | List zone _ name_substr as_json => List zone (Some ty) name_substr as_json
  | Add zone name _ content ttl proxied => Add zone name ty content ttl proxied
  | Update zone rid name _ content ttl proxied =>
      Update zone rid name (Some ty) content ttl proxied
  | Delete zone rid name _ => Delete zone rid name (Some ty)
  end.

(** * Properties *)

(** ** Strings *)

Section Strings.

Lemma endswith_refl s : PyStr.endswith s s = true.
Proof. destruct s; cbn [PyStr.endswith]; by rewrite String.eqb_refl. Qed.

Lemma endswith_app p suf : PyStr.endswith (p +:+ suf) suf = true.
Proof.
  induction p as [|c p IH].
  - apply endswith_refl.
  - change (String c p +:+ suf) with (String c (p +:+ suf)).
    cbn [PyStr.endswith]. rewrite IH. by destruct (String.eqb _ _).
Qed.

Lemma endswith_spec s suf :
  PyStr.endswith s suf = true ↔ ∃ p, s = p +:+ suf.
Proof.
  split.
  - induction s as [|c s IH]; cbn [PyStr.endswith].
    + destruct (String.eqb_spec "" suf) as [<-|]; [by exists ""|done].
    + destruct (String.eqb_spec (String c s) suf) as [<-|_].
      * by exists "".
      * intros Hs. destruct (IH Hs) as [p ->]. by exists (String c p).
  - intros [p ->]. apply endswith_app.
Qed.

Lemma lstrip_head s :
  PyStr.lstrip s = "" ∨ ∃ c r, PyStr.lstrip s = String c r ∧ PyStr.is_space c = false.
Proof.
  induction s as [|c s IH]; cbn [PyStr.lstrip]; [by left|].
  destruct (PyStr.is_space c) eqn:E; [done|]. right. by exists c, s.
Qed.

Lemma rstrip_idemp s : PyStr.rstrip (PyStr.rstrip s) = PyStr.rstrip s.
Proof.
  induction s as [|c s IH]; [done|]. cbn [PyStr.rstrip].
  destruct (PyStr.rstrip s) as [|d r] eqn:E.
  - destruct (PyStr.is_space c) eqn:Ec; [done|].
    cbn [PyStr.rstrip]. by rewrite Ec.
  - cbn [PyStr.rstrip]. cbn [PyStr.rstrip] in IH.
    destruct (PyStr.rstrip r) as [|e r'] eqn:Er.
    + destruct (PyStr.is_space d) eqn:Ed; [done|]. by inversion IH.
    + by rewrite IH.
Qed.

Lemma strip_stripped s : stripped (PyStr.strip s).
Proof.
  unfold stripped, PyStr.strip. split; [|apply rstrip_idemp].
  destruct (lstrip_head s) as [->|(c & r & -> & Hc)]; [done|].
  cbn [PyStr.rstrip]. rewrite Hc.
  destruct (PyStr.rstrip r); cbn [PyStr.lstrip]; by rewrite Hc.
Qed.

End Strings.

(** The string operations on small inputs. *)
Example strip_example : PyStr.strip ("  Yes " +:+ String PyStr.LF "") = "Yes".
Proof. reflexivity. Qed.

Example lower_example : PyStr.lower "Yes" = "yes" ∧ PyStr.upper "txt_1" = "TXT_1".
Proof. by split. Qed.

Example readline_example :
  PyStr.readline ("tok" +:+ String PyStr.CR (String PyStr.LF "next")) = "tok" +:+ String PyStr.LF "".
Proof. reflexivity. Qed.

Example to_int_example :
  PyStr.to_int " +1_000 " = Some 1000
  ∧ PyStr.to_int "-07" = Some (-7)
  ∧ PyStr.to_int "1__0" = None
  ∧ PyStr.to_int "" = None.
Proof. by repeat split. Qed.

Example contains_example :
  PyStr.contains "ww" "www.example.com" = true
  ∧ PyStr.contains "api" "www.example.com" = false.
Proof. by split. Qed.

(** ** Name normalisation *)

(** C5.  A name equal to the zone, or ending in "." + zone, is left
    unchanged; any other name gets "." + zone appended; normalising twice
    is normalising once. *)
Theorem normalize_name_spec (z n : string) :
  ((n = z ∨ ∃ p, n = p +:+ "." +:+ z) → normalize_name z n = n)
  ∧ (n ≠ z → (∀ p, n ≠ p +:+ "." +:+ z) → normalize_name z n = n +:+ "." +:+ z)
  ∧ normalize_name z (normalize_name z n) = normalize_name z n.
Proof.
  assert (Hin : (n = z ∨ ∃ p, n = p +:+ "." +:+ z) → normalize_name z n = n).
  { unfold normalize_name. intros [->|Hs].
    - by rewrite String.eqb_refl.
    - apply endswith_spec in Hs. rewrite Hs. by rewrite orb_true_r. }
  split; [done|]. split.
  - intros Hne Hsuf. unfold normalize_name.
    destruct (String.eqb_spec n z) as [|_]; [done|].
    destruct (PyStr.endswith n ("." +:+ z)) eqn:E; [|done].
    apply endswith_spec in E as [p ->]. by destruct (Hsuf p).
  - unfold normalize_name at 2.
    destruct (String.eqb n z || PyStr.endswith n ("." +:+ z)) eqn:E.
    + unfold normalize_name. by rewrite E.
    + unfold normalize_name. rewrite (endswith_app n ("." +:+ z)).
      rewrite orb_true_r. by rewrite E.
Qed.

Lemma normalize_name_spec_witness :
  normalize_name "example.com" "www.example.com" = "www.example.com"
  ∧ normalize_name "example.com" "www" = "www.example.com".
Proof.
  split.
  - apply (proj1 (normalize_name_spec "example.com" "www.example.com")).
    right. by exists "www".
  - apply (proj1 (proj2 (normalize_name_spec "example.com" "www"))).
    + done.
    + intros p Hp.
      assert (E : PyStr.endswith "www" ".example.com" = true)
        by (apply endswith_spec; by exists p).
      vm_compute in E. discriminate E.
Defined.

(** ** Running computations *)

Section Runs.

Context {A B : Type}.

Lemma run_bind (m : M A) (f : A → M B) w s :
  (m ≫= f) w s =
  match m w s with
  | (Ret a, s') => f a w s'
  | (Exit c, s') => (Exit c, s')
  | (Uncaught e, s') => (Uncaught e, s')
  | (OutOfFuel, s') => (OutOfFuel, s')
  end.
Proof. reflexivity. Qed.

Lemma bind_ret (m : M A) (f : A → M B) w s a s' :
  m w s = (Ret a, s') → (m ≫= f) w s = f a w s'.
Proof. intros E. by rewrite run_bind, E. Qed.

Lemma bind_lift (r : result A) (f : A → M B) w s :
  (lift r ≫= f) w s =
  match r with
  | Ret a => f a w s
  | Exit c => (Exit c, s)
  | Uncaught e => (Uncaught e, s)
  | OutOfFuel => (OutOfFuel, s)
  end.
Proof. rewrite run_bind. unfold lift. by destruct r. Qed.

End Runs.

Lemma run_die {A} msg code w s :
  die (A:=A) msg code None w s
  = (Exit code, State (trace s ++ [EStderr msg]) (stdin s)).
Proof. reflexivity. Qed.

Lemma run_die_data {A} msg code v w s :
  die (A:=A) msg code (Some v) w s
  = (Exit code,
     State (trace s ++ EStderr msg :: (if Py.not_none v then [EStderrJson v] else []))
           (stdin s)).
Proof.
  unfold die. rewrite run_bind. cbn. rewrite run_bind.
  destruct (Py.not_none v); cbn; [by rewrite <- app_assoc|done].
Qed.

Lemma benign_dump msg v :
  Forall benign (EStderr msg :: (if Py.not_none v then [EStderrJson v] else [])).
Proof. destruct (Py.not_none v); by repeat constructor. Qed.

(** Reduction of the Python primitives on known shapes. *)
Ltac py_simpl :=
  cbn [default from_option id fst snd negb andb orb
       Py.get Py.getitem Py.first Py.truthy Py.or_ Py.iter Py.len Py.int
       Py.eq_str Py.not_none Py.of_str Py.of_int Py.of_bool
       PyStr.nonempty PyStr.given trace stdin].

Ltac py_simpl_in H :=
  cbn [default from_option id fst snd negb andb orb
       Py.get Py.getitem Py.first Py.truthy Py.or_ Py.iter Py.len Py.int
       Py.eq_str Py.not_none Py.of_str Py.of_int Py.of_bool
       PyStr.nonempty PyStr.given trace stdin] in H.

(** One step of a run whose first action is known to return. *)
Ltac step H := rewrite (bind_ret _ _ _ _ _ _ H); cbv beta.

Section Transport.

Context `{!PyRepr}.

Lemma http_json_accepted method url token payload params w s st js :
  server w (requests (trace s)) (Request method url token params payload)
    = Answer st js →
  accepted js = true →
  http_json method url token payload params w s
  = (Ret js, State (trace s ++ [EHttp (Request method url token params payload)])
               (stdin s)).
Proof.
  intros Hsrv Hok. unfold http_json. rewrite run_bind. unfold urlopen.
  rewrite Hsrv. rewrite bind_lift. unfold accepted in Hok.
  destruct (Py.get js "success" (JBool false)) as [ok| | |]; try done.
  by rewrite Hok.
Qed.

End Transport.

(** ** Traces *)

Section Traces.

Lemma requests_app t1 t2 : requests (t1 ++ t2) = requests t1 ++ requests t2.
Proof. unfold requests. apply omap_app. Qed.

Lemma prompts_app t1 t2 : prompts (t1 ++ t2) = prompts t1 ++ prompts t2.
Proof. unfold prompts. apply omap_app. Qed.

Lemma mutations_app t1 t2 : mutations (t1 ++ t2) = mutations t1 ++ mutations t2.
Proof. unfold mutations. rewrite requests_app. apply filter_app. Qed.

Lemma requests_benign t : Forall benign t → requests t = [].
Proof.
  induction 1 as [|e t He _ IH]; [done|].
  unfold requests in *. cbn [omap list_omap]. by destruct e.
Qed.

Lemma prompts_benign t : Forall benign t → prompts t = [].
Proof.
  induction 1 as [|e t He _ IH]; [done|].
  unfold prompts in *. cbn [omap list_omap]. by destruct e.
Qed.

Lemma benign_no_request e : benign e → no_request e.
Proof. by destruct e. Qed.

Lemma requests_no_request t : Forall no_request t → requests t = [].
Proof.
  induction 1 as [|e t He _ IH]; [done|].
  unfold requests in *. cbn [omap list_omap]. by destruct e.
Qed.

Lemma benign_harmless e : benign e → harmless e.
Proof. by destruct e. Qed.

Lemma mutations_harmless t : Forall harmless t → mutations t = [].
Proof.
  induction 1 as [|e t He _ IH]; [done|].
  change (e :: t) with ([e] ++ t). rewrite mutations_app, IH, app_nil_r.
  destruct e as [r| | | | | |]; try done.
  unfold mutations. cbn. cbn in He. rewrite He. by rewrite decide_False.
Qed.

Lemma mutations_call r t :
  mutating r = true → Forall harmless t → mutations (EHttp r :: t) = [r].
Proof.
  intros Hr Ht. change (EHttp r :: t) with ([EHttp r] ++ t).
  rewrite mutations_app, (mutations_harmless t Ht), app_nil_r.
  unfold mutations. cbn. by rewrite decide_True.
Qed.

End Traces.

Section TransportTrace.

Context `{!PyRepr}.

(** Whatever the reply, [http_json] sends its one request and then only
    writes to the error stream. *)
Lemma http_json_trace method url token payload params w s :
  ∃ t, (http_json method url token payload params w s).2
       = State (trace s ++ EHttp (Request method url token params payload) :: t)
               (stdin s)
       ∧ Forall benign t.
Proof.
  unfold http_json. rewrite run_bind. unfold urlopen.
  destruct (server w _ _) as [st js|e|code body [js|]|text].
  - rewrite bind_lift. destruct (Py.get js _ _) as [ok| | |];
      try (by exists []). destruct (Py.truthy ok); [by exists []|].
    rewrite run_die_data. cbn [snd trace stdin].
    eexists (_ :: _). rewrite <- app_assoc. split; [done|]. apply benign_dump.
  - by exists [].
  - rewrite run_die_data. cbn [snd trace stdin].
    eexists (_ :: _). rewrite <- app_assoc. split; [done|]. apply benign_dump.
  - rewrite run_die. cbn [snd trace stdin].
    eexists [_]. rewrite <- app_assoc. split; [done|]. by repeat constructor.
  - rewrite run_die. cbn [snd trace stdin].
    eexists [_]. rewrite <- app_assoc. split; [done|]. by repeat constructor.
Qed.

End TransportTrace.

(** ** Token loading *)

(** C10.  An empty CF_API_TOKEN counts as an absent one; a non-empty one
    is used, stripped; otherwise the first line of the token file is
    used, stripped, and a missing or unreadable file ends the run with
    status 2.  Whatever is returned has no surrounding whitespace. *)
Theorem read_token_sources (tf : option string) (w : world) (s : state) :
  (environ w = Some "" →
     read_token tf w s = read_token tf (with_environ None w) s)
  ∧ (∀ t, environ w = Some t → t ≠ "" →
       read_token tf w s = (Ret (PyStr.strip t), s))
  ∧ (PyStr.given (environ w) = false →
       (PyStr.given tf = false → (read_token tf w s).1 = Exit 2)
       ∧ (∀ path, tf = Some path → path ≠ "" →
            match files w path with
            | inl text =>
                read_token tf w s = (Ret (PyStr.strip (PyStr.readline text)), s)
            | inr _ => (read_token tf w s).1 = Exit 2
            end))
  ∧ (∀ tok, (read_token tf w s).1 = Ret tok → stripped tok).
Proof.
  unfold read_token. rewrite !run_bind. unfold getenv. cbn [environ with_environ].
  split; [|split; [|split]].
  - intros ->. cbn [PyStr.given PyStr.nonempty].
    destruct (PyStr.given tf); [|done].
    rewrite !run_bind. unfold open_read. cbn [files with_environ].
    destruct (files w _); reflexivity.
  - intros t -> Ht. destruct t; [done|]. done.
  - intros ->. split.
    + by intros ->.
    + intros path -> Hp. destruct path; [done|]. cbn [PyStr.given PyStr.nonempty].
      rewrite run_bind. unfold open_read. cbn [default].
      by destruct (files w _).
  - intros tok. destruct (PyStr.given (environ w)).
    + intros [= <-]. apply strip_stripped.
    + destruct (PyStr.given tf); [|done].
      rewrite run_bind. unfold open_read.
      destruct (files w _); [|done]. intros [= <-]. apply strip_stripped.
Qed.

Lemma read_token_sources_witness :
  read_token None (World (Some " secret ") (λ _, inr "") false (λ _ _, Raises OSError))
    (State [] [])
  = (Ret "secret", State [] []).
Proof.
  apply (proj1 (proj2 (read_token_sources None
           (World (Some " secret ") (λ _, inr "") false (λ _ _, Raises OSError))
           (State [] []))) " secret "); [reflexivity | discriminate].
Defined.

(** ** Zone resolution *)

Section ZoneResolver.

Context `{!PyRepr}.

(** C9.  When the exact-name query comes back with an empty result set
    (missing, null or empty), the run ends with status 3 and a message
    that depends on the zone name only; when the result set starts with
    a zone that has an id, that id is returned.  In both cases the query
    is the only request, and nothing is read or prompted. *)
Theorem zone_id_resolution token zone base w s st (o : dict) :
  let req := Request "GET" (base +:+ "/zones") token [("name", JStr zone)] None in
  server w (requests (trace s)) req = Answer st (JObj o) →
  accepted (JObj o) = true →
  (Py.truthy (field o "result") = false →
     zone_id token zone base w s
     = (Exit 3,
        State (trace s ++ [EHttp req;
                           EStderr ("Zone not found or unauthorized: " +:+ zone)])
              (stdin s)))
  ∧ (∀ (z : dict) rest id,
       o !! "result" = Some (JList (JObj z :: rest)) →
       z !! "id" = Some id →
       zone_id token zone base w s
       = (Ret id, State (trace s ++ [EHttp req]) (stdin s))).
Proof.
  intros req Hsrv Hok. unfold zone_id.
  step (http_json_accepted _ _ _ _ _ _ _ _ _ Hsrv Hok). split.
  - intros Hempty. rewrite bind_lift. cbn [Py.get].
    unfold Py.or_, field in *. rewrite Hempty. cbn [Py.truthy negb].
    rewrite run_die. cbn [trace stdin]. by rewrite <- app_assoc.
  - intros z rest id Hres Hid. rewrite bind_lift. py_simpl.
    rewrite Hres. py_simpl. rewrite bind_lift. unfold lift.
    cbn [Py.getitem]. by rewrite Hid.
Qed.

End ZoneResolver.

(** ** Record resolution *)

Section Console.

Lemma run_print text w s :
  print text w s = (Ret (), State (trace s ++ [EStdout text]) (stdin s)).
Proof. reflexivity. Qed.

Lemma run_eprint text w s :
  eprint text w s = (Ret (), State (trace s ++ [EStderr text]) (stdin s)).
Proof. reflexivity. Qed.

Lemma run_input prompt w s line rest :
  stdin s = line :: rest →
  input prompt w s
  = (Ret line, State (trace s ++ [EPrompt prompt; ERead line]) rest).
Proof.
  intros Hin. unfold input. rewrite run_bind. unfold emit, read_line.
  cbn [trace stdin]. rewrite Hin. by rewrite <- app_assoc.
Qed.

Lemma run_input_eof prompt w s :
  stdin s = [] →
  input prompt w s
  = (Uncaught EOFError, State (trace s ++ [EPrompt prompt]) []).
Proof.
  intros Hin. unfold input. rewrite run_bind. unfold emit, read_line.
  cbn [trace stdin]. by rewrite Hin.
Qed.

End Console.

Section RecordResolver.

Context `{!PyRepr}.

(** C2.  Resolution by (name, type), no id given: an empty result set
    ends the run with status 3; a single candidate is returned; several
    candidates without a terminal end the run with status 3.  In all
    three cases the query is the only request and nothing is prompted or
    read. *)
Theorem find_record_by_name token zid rid name rtype zone base w s st (o : dict) :
  PyStr.given rid = false → name ≠ "" → rtype ≠ "" →
  let fqdn := if PyStr.nonempty zone then normalize_name zone name else name in
  let req := Request "GET" (records_url base zid) token
               [("type", JStr rtype); ("name", JStr fqdn)] None in
  server w (requests (trace s)) req = Answer st (JObj o) →
  accepted (JObj o) = true →
  let run := find_record token zid rid (Some name) (Some rtype) zone base w s in
  (Py.truthy (field o "result") = false →
     run = (Exit 3,
            State (trace s ++ [EHttp req;
                     EStderr ("No records match: type=" +:+ rtype +:+ " name=" +:+ fqdn)])
                  (stdin s)))
  ∧ (∀ r id, o !! "result" = Some (JList [r]) → Py.getitem r "id" = Ret id →
       run = (Ret (id, r), State (trace s ++ [EHttp req]) (stdin s)))
  ∧ (∀ l, o !! "result" = Some (JList l) → (2 ≤ length l)%nat → isatty w = false →
       run = (Exit 3,
              State (trace s ++ [EHttp req;
                       EStderr ("Multiple records match type=" +:+ rtype +:+ " name="
                                +:+ fqdn +:+ ". Use --id to specify.")])
                    (stdin s))).
Proof.
  intros Hrid Hname Hrtype fqdn req Hsrv Hok run. subst run.
  unfold find_record. rewrite Hrid.
  destruct name as [|c name]; [done|]. destruct rtype as [|c' rtype]; [done|].
  cbn [PyStr.given PyStr.nonempty negb orb default].
  fold fqdn. step (http_json_accepted _ _ _ _ _ _ _ _ _ Hsrv Hok).
  rewrite bind_lift. cbn [Py.get]. fold (field o "result").
  split; [|split].
  - intros Hempty. unfold Py.or_. rewrite Hempty. cbn [Py.truthy negb].
    rewrite run_die. cbn [trace stdin]. by rewrite <- app_assoc.
  - intros r id Hres Hid. unfold field. rewrite Hres. py_simpl.
    rewrite bind_lift. py_simpl. change (Z.of_nat (length [r]) =? 1) with true.
    cbv iota. rewrite bind_lift. rewrite bind_lift. by rewrite Hid.
  - intros l Hres Hlen Htty. unfold field. rewrite Hres.
    destruct l as [|a [|b l]]; [simpl in Hlen; lia..|]. py_simpl.
    rewrite bind_lift.
    destruct (Z.eqb_spec (Z.of_nat (length (a :: b :: l))) 1) as [E|_];
      [simpl in E; lia|].
    rewrite run_bind. unfold stdin_isatty. rewrite Htty. cbn [negb].
    rewrite run_die. cbn [trace stdin]. by rewrite <- app_assoc.
Qed.

(** C3.  With an id supplied, resolution is the same function of the
    world whatever name and type come with it: it sends the fetch-by-id
    request, and nothing else, and returns the id with the record the
    provider answers. *)
Theorem find_record_by_id token zid rid zone base w s :
  rid ≠ "" →
  let req := Request "GET" (record_url base zid (JStr rid)) token [] None in
  ∀ name1 rtype1 name2 rtype2,
    find_record token zid (Some rid) name1 rtype1 zone base w s
    = find_record token zid (Some rid) name2 rtype2 zone base w s
    ∧ requests (trace (find_record token zid (Some rid) name1 rtype1 zone base w s).2)
      = requests (trace s) ++ [req]
    ∧ (∀ st (o : dict) r,
         server w (requests (trace s)) req = Answer st (JObj o) →
         accepted (JObj o) = true →
         o !! "result" = Some r →
         find_record token zid (Some rid) name1 rtype1 zone base w s
         = (Ret (JStr rid, r), State (trace s ++ [EHttp req]) (stdin s))).
Proof.
  intros Hrid req name1 rtype1 name2 rtype2.
  destruct rid as [|c rid]; [done|].
  unfold find_record. cbn [PyStr.given PyStr.nonempty default].
  split; [done|]. split.
  - rewrite run_bind.
    destruct (http_json_trace "GET" (record_url base zid (JStr (String c rid)))
                token None [] w s) as (t & Hs' & Ht).
    destruct (http_json _ _ _ _ _ w s) as [r s'] eqn:E. cbn [snd] in Hs'. subst s'.
    assert (Hreq : requests (trace s ++ EHttp req :: t) = requests (trace s) ++ [req]).
    { rewrite (requests_app (trace s) (EHttp req :: t)).
      change (EHttp req :: t) with ([EHttp req] ++ t).
      rewrite (requests_app [EHttp req] t), (requests_benign t Ht).
      by rewrite app_nil_r. }
    destruct r as [js| | |]; try done.
    rewrite bind_lift. by destruct (Py.getitem js "result").
  - intros st o r Hsrv Hok Hres.
    step (http_json_accepted _ _ _ _ _ _ _ _ _ Hsrv Hok).
    rewrite bind_lift. cbn [Py.getitem]. by rewrite Hres.
Qed.

Lemma table_row_object m : is_object m → ∃ row, table_row m = Ret row.
Proof. intros [o ->]. unfold table_row. cbn. eauto. Qed.

Lemma for_each_rows l w s :
  Forall is_object l →
  ∃ t, for_each l (λ r, row ← lift (table_row r); print row) w s
       = (Ret (), State (trace s ++ t) (stdin s))
       ∧ Forall benign t.
Proof.
  intros Hl. revert s. induction Hl as [|m l Hm _ IH]; intros s.
  - exists []. cbn. by rewrite app_nil_r; destruct s.
  - destruct (table_row_object m Hm) as [row Hrow].
    cbn [for_each]. rewrite run_bind, bind_lift, Hrow, run_print.
    destruct (IH (State (trace s ++ [EStdout row]) (stdin s))) as (t & -> & Ht).
    exists (EStdout row :: t). cbn [trace stdin]. rewrite <- app_assoc.
    split; [done|]. by constructor.
Qed.

Lemma render_table_objects l w s :
  Forall is_object l →
  ∃ t, render_table (JList l) w s = (Ret (), State (trace s ++ t) (stdin s))
       ∧ Forall benign t.
Proof.
  intros Hl. unfold render_table. rewrite run_bind, run_print, bind_lift.
  cbn [Py.iter].
  destruct (for_each_rows l w (State (trace s ++ [EStdout
              ("id" +:+ PyStr.TAB +:+ "type" +:+ PyStr.TAB +:+ "name" +:+ PyStr.TAB
               +:+ "content" +:+ PyStr.TAB +:+ "ttl" +:+ PyStr.TAB +:+ "proxied")])
              (stdin s)) Hl) as (t & -> & Ht).
  eexists (_ :: t). cbn [trace stdin]. rewrite <- app_assoc.
  split; [done|]. by constructor.
Qed.

Lemma first_with_id_find choice l :
  Forall is_object l → first_with_id choice l = Ret (find (has_id choice) l).
Proof.
  induction 1 as [|m l [o ->] _ IH]; [done|].
  cbn [first_with_id find has_id Py.get]. unfold field.
  change (mbind ?f (Ret ?a)) with (f a). cbv beta.
  by destruct (Py.eq_str _ _).
Qed.

Lemma has_id_truthy choice m : has_id choice m = true → Py.truthy m = true.
Proof.
  destruct m as [| | | | |o]; try done. cbn [has_id Py.truthy]. unfold field.
  intros Hid. rewrite negb_true_iff, bool_decide_eq_false. intros ->.
  by rewrite lookup_empty in Hid.
Qed.

(** C7.  Several candidates on a terminal: the line typed at the prompt,
    stripped, is the choice.  A blank choice ends the run with status 0;
    a choice that is no candidate's id ends it with status 2; otherwise
    the first candidate carrying that id is returned with it. *)
Theorem find_record_disambiguation token zid rid name rtype zone base w s st
    (o : dict) l line rest :
  PyStr.given rid = false → name ≠ "" → rtype ≠ "" →
  let fqdn := if PyStr.nonempty zone then normalize_name zone name else name in
  let req := Request "GET" (records_url base zid) token
               [("type", JStr rtype); ("name", JStr fqdn)] None in
  server w (requests (trace s)) req = Answer st (JObj o) →
  accepted (JObj o) = true →
  o !! "result" = Some (JList l) → (2 ≤ length l)%nat → Forall is_object l →
  isatty w = true →
  stdin s = line :: rest →
  let choice := PyStr.strip line in
  let run := find_record token zid rid (Some name) (Some rtype) zone base w s in
  (choice = "" → run.1 = Exit 0)
  ∧ (choice ≠ "" → (∀ m, m ∈ l → has_id choice m = false) → run.1 = Exit 2)
  ∧ (choice ≠ "" → ∀ m, find (has_id choice) l = Some m →
       run.1 = Ret (JStr choice, m)).
Proof.
  intros Hrid Hname Hrtype fqdn req Hsrv Hok Hres Hlen Hobj Htty Hin choice run.
  assert (Hrun : ∃ s', run =
    (if negb (PyStr.nonempty choice) then Exit 0
     else match find (has_id choice) l with
          | Some m => Ret (JStr choice, m)
          | None => Exit 2
          end, s')).
  { subst run. unfold find_record. rewrite Hrid.
    destruct name as [|c name]; [done|]. destruct rtype as [|c' rtype]; [done|].
    cbn [PyStr.given PyStr.nonempty negb orb default].
    fold fqdn. step (http_json_accepted _ _ _ _ _ _ _ _ _ Hsrv Hok).
    rewrite bind_lift. cbn [Py.get]. rewrite Hres.
    destruct l as [|a [|b l]]; [simpl in Hlen; lia..|]. py_simpl.
    rewrite bind_lift.
    destruct (Z.eqb_spec (Z.of_nat (length (a :: b :: l))) 1) as [E|_];
      [simpl in E; lia|].
    rewrite run_bind. unfold stdin_isatty. rewrite Htty. cbn [negb].
    rewrite run_bind, run_print. cbn [trace stdin].
    match goal with
    | |- context [(render_table (JList ?l) ≫= _) ?w ?st] =>
        destruct (render_table_objects l w st Hobj) as (t & Htab & _)
    end.
    step Htab. erewrite bind_ret; [|by apply run_input]. cbv beta.
    fold choice. destruct (PyStr.nonempty choice); cbn [negb].
    - rewrite bind_lift. cbn [Py.iter].
      change (mbind ?f (Ret ?a)) with (f a).
      rewrite (first_with_id_find choice _ Hobj).
      destruct (find _ _) as [m|] eqn:Hfind.
      + apply find_some in Hfind as [_ Hm].
        rewrite (has_id_truthy _ _ Hm). eauto.
      + rewrite run_die. eauto.
    - rewrite run_bind, run_eprint. eauto. }
  destruct Hrun as [s' ->]. cbn [fst]. split; [|split].
  - by intros ->.
  - intros Hc Hnone. destruct choice; [done|]. cbn [PyStr.nonempty negb].
    destruct (find _ _) as [m|] eqn:Hfind; [|done].
    apply find_some in Hfind as [Hm Hid].
    rewrite Hnone in Hid; [done|]. by apply list_elem_of_In.
  - intros Hc m Hfind. destruct choice; [done|]. cbn [PyStr.nonempty negb].
    by rewrite Hfind.
Qed.

End RecordResolver.

(** ** The record lister *)

Section Lister.

Context `{!PyRepr}.

Lemma iter_or_list items : Py.iter (Py.or_ (JList items) (JList [])) = Ret items.
Proof. by destruct items. Qed.

Lemma or_dict (info : dict) k v :
  info !! k = Some v → Py.or_ (JObj info) (JObj ∅) = JObj info.
Proof.
  intros Hk. unfold Py.or_, Py.truthy. case_bool_decide as E; [|done].
  subst info. by rewrite lookup_empty in Hk.
Qed.

Lemma paginate_loop_pages token zid rtype base w k (rem : list (list json)) :
  ∀ fuel page out s,
    rem ≠ [] → (length rem ≤ fuel)%nat →
    k = page + Z.of_nat (length rem) - 1 →
    (∀ h (i : nat) items, rem !! i = Some items →
       ∃ st js, server w h (page_request token zid rtype base (page + Z.of_nat i))
                = Answer st js ∧ is_page js items k) →
    paginate_loop fuel token zid rtype base page out w s
    = (Ret (out ++ concat rem),
       State (trace s ++ ((λ p, EHttp (page_request token zid rtype base p))
                          <$> seqZ page (Z.of_nat (length rem))))
             (stdin s)).
Proof.
  induction rem as [|items rem IH]; intros fuel page out s Hne Hfuel Hk Hsrv;
    [done|].
  destruct fuel as [|fuel]; [simpl in Hfuel; lia|].
  destruct (Hsrv (requests (trace s)) 0%nat items eq_refl)
    as (st & js & Hreply & o & info & -> & Hok & Hres & Hinfo & Htp).
  rewrite Z.add_0_r in Hreply.
  cbn [paginate_loop].
  step (http_json_accepted _ _ _ _ _ _ _ _ _ Hreply Hok).
  rewrite bind_lift. cbn [Py.get]. rewrite Hres. cbn [default from_option id].
  rewrite bind_lift, iter_or_list, bind_lift. cbn [Py.get]. rewrite Hinfo.
  cbn [default from_option id].
  rewrite (or_dict _ _ _ Htp), bind_lift. cbn [Py.get]. rewrite Htp.
  cbn [default from_option id Py.int]. rewrite bind_lift.
  rewrite seqZ_cons by (simpl; lia). cbn [fmap list_fmap].
  destruct rem as [|items' rem].
  - cbn [length] in Hk. cbn [concat length]. rewrite app_nil_r.
    destruct (Z.geb_spec page k) as [_|]; [|lia].
    cbn. by rewrite seqZ_nil by lia.
  - cbn [length] in Hk.
    destruct (Z.geb_spec page k) as [|_]; [lia|].
    rewrite (IH fuel (page + 1)); [| done | simpl in *; lia | simpl; lia |].
    + cbn [trace stdin concat]. rewrite <- !app_assoc. do 3 f_equal.
      cbn [app]. do 2 f_equal. cbn [length]. f_equal; lia.
    + intros h i its Hi. destruct (Hsrv h (S i) its Hi) as (st' & js' & Hr' & Hp').
      exists st', js'. split; [|done]. rewrite <- Hr'. do 2 f_equal. lia.
Qed.

(** C6.  Against a listing endpoint that answers page [p] with the
    [p]-th list of [pages] and reports [length pages] pages, the lister
    (given fuel for that many rounds) sends exactly the requests for
    pages 1, 2, ..., in that order, each with page size 100, and returns
    the lists of items joined in page order. *)
Theorem paginate_records_pages fuel token zid rtype base w s (pages : list (list json)) :
  pages ≠ [] → (length pages ≤ fuel)%nat →
  (∀ h (i : nat) items, pages !! i = Some items →
     ∃ st js, server w h (page_request token zid rtype base (1 + Z.of_nat i))
              = Answer st js ∧ is_page js items (Z.of_nat (length pages))) →
  paginate_records fuel token zid rtype base w s
  = (Ret (concat pages),
     State (trace s ++ ((λ p, EHttp (page_request token zid rtype base p))
                        <$> seqZ 1 (Z.of_nat (length pages))))
           (stdin s)).
Proof.
  intros Hne Hfuel Hsrv. unfold paginate_records.
  by rewrite (paginate_loop_pages token zid rtype base w (Z.of_nat (length pages))
                pages fuel 1 [] s Hne Hfuel ltac:(lia) Hsrv).
Qed.

End Lister.

(** ** What a computation may add to the trace *)

Section Emits.

Context (P : event → Prop) (HP : ∀ e, benign e → P e).

Lemma emits_ret {A} (a : A) : emits P (mret a).
Proof. intros w s. exists []. by rewrite app_nil_r. Qed.

Lemma emits_lift {A} (r : result A) : emits P (lift r).
Proof. intros w s. exists []. by rewrite app_nil_r. Qed.

Lemma emits_bind {A B} (m : M A) (f : A → M B) :
  emits P m → (∀ a, emits P (f a)) → emits P (m ≫= f).
Proof.
  intros Hm Hf w s. rewrite run_bind.
  destruct (Hm w s) as (t1 & E1 & H1). destruct (m w s) as [r s1].
  cbn [snd] in E1. destruct r as [a| | |]; try by exists t1.
  destruct (Hf a w s1) as (t2 & E2 & H2). exists (t1 ++ t2).
  rewrite E2, E1, app_assoc. split; [done|]. by apply Forall_app.
Qed.

Lemma emits_emit e : P e → emits P (emit e).
Proof. intros He w s. exists [e]. split; [done|]. by constructor. Qed.

Lemma emits_print text : emits P (print text).
Proof. by apply emits_emit, HP. Qed.

Lemma emits_eprint text : emits P (eprint text).
Proof. by apply emits_emit, HP. Qed.

Lemma emits_die {A} msg code data : emits P (die (A:=A) msg code data).
Proof.
  unfold die. apply emits_bind; [apply emits_eprint|intros _].
  apply emits_bind; [|intros _; apply emits_lift].
  destruct data as [v|]; [|apply emits_ret].
  destruct (Py.not_none v); [by apply emits_emit, HP|apply emits_ret].
Qed.

Lemma emits_read_line : emits P read_line.
Proof.
  intros w s. unfold read_line. destruct (stdin s) as [|line rest].
  - exists []. by rewrite app_nil_r.
  - exists [ERead line]. split; [done|]. constructor; [by apply HP|done].
Qed.

Lemma emits_input prompt : P (EPrompt prompt) → emits P (input prompt).
Proof.
  intros Hp. unfold input. apply emits_bind; [by apply emits_emit|intros _].
  apply emits_read_line.
Qed.

Lemma emits_isatty : emits P stdin_isatty.
Proof. intros w s. exists []. by rewrite app_nil_r. Qed.

Lemma emits_getenv : emits P getenv.
Proof. intros w s. exists []. by rewrite app_nil_r. Qed.

Lemma emits_open_read path : emits P (open_read path).
Proof. intros w s. exists []. by rewrite app_nil_r. Qed.

Lemma emits_for_each {A} (l : list A) (body : A → M unit) :
  (∀ x, emits P (body x)) → emits P (for_each l body).
Proof.
  intros Hb. induction l as [|x l IH]; [apply emits_ret|].
  cbn [for_each]. apply emits_bind; [apply Hb|by intros _].
Qed.


Context `{!PyRepr}.

Lemma emits_http_json method url token payload params :
  P (EHttp (Request method url token params payload)) →
  emits P (http_json method url token payload params).
Proof.
  intros Hp w s.
  destruct (http_json_trace method url token payload params w s) as (t & -> & Ht).
  eexists (_ :: t). split; [done|]. constructor; [done|].
  eapply Forall_impl; [done|]. apply HP.
Qed.

Lemma emits_render_table records : emits P (render_table records).
Proof.
  unfold render_table. apply emits_bind; [apply emits_print|intros _].
  apply emits_bind; [apply emits_lift|intros items].
  apply emits_for_each. intros r.
  apply emits_bind; [apply emits_lift|intros row; apply emits_print].
Qed.

End Emits.

(** ** The update payload *)

Section UpdatePayload.

Context `{!PyRepr}.

Lemma build_payload_fields name rtype content ttl proxied :
  (ttl = JNull ∨ ∃ n, ttl = JInt n) →
  ∃ p : dict,
    build_payload name rtype content ttl proxied = Ret p
    ∧ p !! "name" = Some name
    ∧ p !! "type" = Some rtype
    ∧ p !! "content" = Some content
    ∧ p !! "ttl" = (if Py.not_none ttl then Some ttl else None)
    ∧ p !! "proxied" = (if proxiable rtype && Py.not_none proxied
                        then Some (JBool (Py.truthy proxied)) else None)
    ∧ (∀ k, is_Some (p !! k) → k ∈ payload_fields).
Proof.
  intros Httl. unfold build_payload.
  destruct Httl as [->|[n ->]]; cbn [Py.not_none Py.int];
    change (mbind ?f (Ret ?a)) with (f a); cbv beta;
    destruct (proxiable rtype && Py.not_none proxied);
    (eexists; split; [reflexivity|]);
    (repeat split; [by simplify_map_eq..|]).
  all: intros k [v Hk]; unfold payload_fields.
  all: apply elem_of_dom_2 in Hk.
  all: rewrite ?dom_insert_L, ?dom_singleton_L in Hk.
  all: rewrite ?elem_of_union, ?elem_of_singleton in Hk.
  all: rewrite !elem_of_cons.
  all: intuition auto.
Qed.

Lemma update_payload_eq zone name rtype content ttl proxied (cur : dict) :
  update_payload zone name rtype content ttl proxied (JObj cur)
  = let new_name := if PyStr.given name
                    then JStr (normalize_name zone (default "" name))
                    else field cur "name" in
    let new_type := if PyStr.given rtype then Py.of_str rtype else field cur "type" in
    let new_content := match content with
                       | Some c => JStr c
                       | None => field cur "content"
                       end in
    let new_ttl := match ttl with Some t => JInt t | None => field cur "ttl" end in
    let prox_eff := match proxied with
                    | Some b => JBool b
                    | None => match field cur "proxied" with
                              | JBool b => JBool b
                              | _ => JNull
                              end
                    end in
    payload ← build_payload new_name new_type new_content new_ttl prox_eff;
    mret (new_name, new_type, new_content, payload).
Proof.
  unfold update_payload, field.
  destruct (PyStr.given name), (PyStr.given rtype), content, ttl, proxied;
    cbn [Py.get Py.of_str Py.of_int Py.of_bool Py.not_none from_option];
    change (mbind ?f (Ret ?a)) with (f a); cbv beta; try reflexivity;
    destruct (default JNull (cur !! "proxied")) as [|[]| | | |]; reflexivity.
Qed.

Lemma given_upper_opt rtype : PyStr.given (upper_opt rtype) = PyStr.given rtype.
Proof. unfold upper_opt. by destruct rtype as [[|c r]|]. Qed.

Lemma of_str_upper_opt rtype :
  PyStr.given rtype = true →
  Py.of_str (upper_opt rtype) = JStr (PyStr.upper (default "" rtype)).
Proof. unfold upper_opt. by intros ->. Qed.

(** A request followed by events that satisfy [P]. *)
Lemma call_then {A} (P : event → Prop) method url token payload params
    (post : json → M A) w st :
  (∀ e, benign e → P e) →
  (∀ js, emits P (post js)) →
  ∃ t, trace ((http_json method url token payload params ≫= post) w st).2
       = trace st ++ EHttp (Request method url token params payload) :: t
       ∧ Forall P t.
Proof.
  intros HP Hpost. rewrite run_bind.
  destruct (http_json_trace method url token payload params w st) as (t & E & Ht).
  destruct (http_json _ _ _ _ _ w st) as [r s3]. cbn [snd] in E. subst s3.
  assert (Ht' : Forall P t) by (eapply Forall_impl; [done|apply HP]).
  destruct r as [js| | |]; try by exists t.
  destruct (Hpost js w (State (trace st ++ EHttp (Request method url token params
              payload) :: t) (stdin st))) as (t' & E' & Ht'').
  exists (t ++ t'). rewrite E'. cbn [trace]. rewrite <- app_assoc.
  split; [done|]. by apply Forall_app.
Qed.

Lemma call_then_benign {A} method url token payload params (post : json → M A) w st :
  (∀ js, emits benign (post js)) →
  ∃ t, trace ((http_json method url token payload params ≫= post) w st).2
       = trace st ++ EHttp (Request method url token params payload) :: t
       ∧ Forall benign t.
Proof. by apply call_then. Qed.

(** C1 (amended).  Once the zone and the current record are resolved,
    the payload of the update is, field by field: [name], the supplied
    name normalised against the zone when one is supplied (non-empty),
    else the current name; [type], the supplied type in upper case when
    one is supplied (non-empty), else the current type; [content], the
    supplied content when it is not None, else the current content;
    [ttl], the supplied ttl when it is not None, else the current ttl,
    the field being left out when both are None; [proxied], present only
    when the resulting type is A, AAAA or CNAME, and then the supplied
    flag when it is not None, else the current value when that is a
    boolean, else left out.  No other field is sent.  With the
    confirmation skipped the PUT carrying this payload is the one change
    the run makes; without it the run makes that change or none. *)
Theorem update_payload_merge token zone rid name rtype content ttl proxied base w s
    zid s1 rid' (cur : dict) s2 :
  zone_id token zone base w s = (Ret zid, s1) →
  find_record token zid rid name (upper_opt rtype) zone base w s1
  = (Ret (rid', JObj cur), s2) →
  int_or_absent (cur !! "ttl") →
  let new_type := if PyStr.given rtype then JStr (PyStr.upper (default "" rtype))
                  else field cur "type" in
  ∃ payload : dict,
    payload !! "name"
    = Some (if PyStr.given name then JStr (normalize_name zone (default "" name))
            else field cur "name")
    ∧ payload !! "type" = Some new_type
    ∧ payload !! "content"
      = Some (match content with Some c => JStr c | None => field cur "content" end)
    ∧ payload !! "ttl"
      = match ttl with
        | Some t => Some (JInt t)
        | None => match cur !! "ttl" with
                  | Some (JInt n) => Some (JInt n)
                  | _ => None
                  end
        end
    ∧ payload !! "proxied"
      = (if proxiable new_type
         then match proxied with
              | Some b => Some (JBool b)
              | None => match cur !! "proxied" with
                        | Some (JBool b) => Some (JBool b)
                        | _ => None
                        end
              end
         else None)
    ∧ (∀ k, is_Some (payload !! k) → k ∈ payload_fields)
    ∧ let put := Request "PUT" (record_url base zid rid') token [] (Some payload) in
      mutations (trace (cmd_update token zone rid name rtype content ttl proxied
                          true base w s).2)
      = mutations (trace s2) ++ [put]
      ∧ (mutations (trace (cmd_update token zone rid name rtype content ttl proxied
                             false base w s).2) = mutations (trace s2)
         ∨ mutations (trace (cmd_update token zone rid name rtype content ttl proxied
                               false base w s).2) = mutations (trace s2) ++ [put]).
Proof.
  intros Hzone Hfind Httl new_type.
  pose proof (update_payload_eq zone name (upper_opt rtype) content ttl proxied cur)
    as Hupd. cbv zeta in Hupd. rewrite given_upper_opt in Hupd.
  set (new_name := if PyStr.given name
                   then JStr (normalize_name zone (default "" name))
                   else field cur "name") in *.
  assert (Hty : (if PyStr.given rtype then Py.of_str (upper_opt rtype)
                 else field cur "type") = new_type).
  { subst new_type. destruct (PyStr.given rtype) eqn:E; [|done].
    by apply of_str_upper_opt. }
  rewrite Hty in Hupd.
  set (new_content := match content with Some c => JStr c | None => field cur "content"
                      end) in *.
  set (new_ttl := match ttl with Some t => JInt t | None => field cur "ttl" end) in *.
  set (prox_eff := match proxied with
                   | Some b => JBool b
                   | None => match field cur "proxied" with
                             | JBool b => JBool b
                             | _ => JNull
                             end
                   end) in *.
  destruct (build_payload_fields new_name new_type new_content new_ttl prox_eff)
    as (payload & Hbuild & Hn & Ht & Hc & Htt & Hp & Hdom).
  { subst new_ttl. unfold field. destruct ttl as [t|]; [by eauto|].
    destruct (cur !! "ttl") as [[]|]; try done; by eauto. }
  rewrite Hbuild in Hupd. change (mbind ?f (Ret ?a)) with (f a) in Hupd.
  cbv beta in Hupd.
  exists payload. split; [done|]. split; [done|]. split; [done|]. split.
  { rewrite Htt. subst new_ttl. unfold field. destruct ttl as [t|]; [done|].
    by destruct (cur !! "ttl") as [[]|]. }
  split.
  { rewrite Hp. subst prox_eff. unfold field.
    destruct (proxiable new_type); [|done]. cbn [andb].
    destruct proxied as [b|]; [by destruct b|].
    by destruct (cur !! "proxied") as [[|[]| | | |]|]. }
  split; [done|]. intros put.
  pose (post := λ js : json,
    (r ← lift (Py.getitem js "result");
     r_name ← lift (Py.get r "name" JNull);
     r_type ← lift (Py.get r "type" JNull);
     c_content ← lift (Py.get (JObj cur) "content" JNull);
     r_content ← lift (Py.get r "content" JNull);
     print ("Record " +:+ py_str r_name +:+ " (" +:+ py_str r_type +:+ ") updated: "
            +:+ py_str c_content +:+ " → " +:+ py_str r_content)) : M unit).
  assert (Hrun : ∀ yes,
    cmd_update token zone rid name rtype content ttl proxied yes base w s
    = (confirm "Proceed?" yes ≫= λ _,
       http_json "PUT" (record_url base zid rid') token (Some payload) [] ≫= post) w
      (State (trace s2 ++
                [EStdout "About to UPDATE:";
                 EStdout ("from: " +:+ py_str (field cur "type") +:+ " "
                          +:+ py_str (field cur "name") +:+ " → "
                          +:+ py_str (field cur "content"));
                 EStdout ("to:   " +:+ py_str new_type +:+ " " +:+ py_str new_name
                          +:+ " → " +:+ py_str new_content)])
             (stdin s2))).
  { intros yes. unfold cmd_update. step Hzone. cbv zeta. step Hfind.
    rewrite bind_lift, Hupd. unfold mret at 1, result_ret. cbv beta iota.
    rewrite run_bind, run_print. cbn [trace stdin].
    repeat (rewrite bind_lift; cbn [Py.get]). rewrite run_bind, run_print.
    cbn [trace stdin]. rewrite run_bind, run_print. cbn [trace stdin].
    rewrite <- !app_assoc. reflexivity. }
  assert (Hpost : ∀ js, emits benign (post js)).
  { intros js. unfold post. repeat (apply emits_bind; [by apply emits_lift|intros ?]).
    by apply emits_print. }
  assert (Hput : mutating put = true) by reflexivity.
  assert (Hcall : ∀ st,
    mutations (trace ((http_json "PUT" (record_url base zid rid') token (Some payload)
                         [] ≫= post) w st).2) = mutations (trace st) ++ [put]).
  { intros st. destruct (call_then_benign "PUT" (record_url base zid rid') token
                           (Some payload) [] post w st Hpost) as (t & -> & Ht').
    rewrite mutations_app. f_equal. apply mutations_call; [done|].
    eapply Forall_impl; [done|]. apply benign_harmless. }
  split.
  - rewrite Hrun. unfold confirm. rewrite run_bind. cbn -[http_json].
    rewrite Hcall. cbn [trace]. rewrite mutations_app. by rewrite app_nil_r.
  - rewrite Hrun. unfold confirm. rewrite run_bind.
    destruct (stdin s2) as [|line rest] eqn:Hin.
    + left. rewrite run_bind, run_input_eof by done. cbn [snd trace].
      rewrite !mutations_app. by rewrite !app_nil_r.
    + rewrite run_bind, (run_input _ _ _ line rest) by done.
      destruct (affirmative _); cbn [negb].
      * right. cbn -[http_json]. rewrite Hcall. cbn [trace].
        rewrite !mutations_app. by rewrite !app_nil_r.
      * left. rewrite run_bind, run_eprint. unfold sys_exit, lift.
        cbn [snd trace]. rewrite !mutations_app. by rewrite !app_nil_r.
Qed.

End UpdatePayload.

(** ** The confirmation gate *)

Section Gate.

Lemma benign_quiet e : benign e → quiet e.
Proof. by destruct e. Qed.

Lemma quiet_harmless e : quiet e → harmless e.
Proof. by destruct e. Qed.

Lemma quiet_mutations t : Forall quiet t → mutations t = [].
Proof.
  intros Ht. apply mutations_harmless. eapply Forall_impl; [done|].
  apply quiet_harmless.
Qed.

Lemma quiet_prompts t : Forall quiet t → confirm_prompt ∉ prompts t.
Proof.
  induction 1 as [|e t He _ IH]; [apply not_elem_of_nil|].
  change (e :: t) with ([e] ++ t). rewrite prompts_app.
  destruct e; try done. cbn. intros [Heq|Hin]%elem_of_cons; [by apply He|done].
Qed.

Lemma quiet_gate_answer pre t : Forall quiet pre → gate_answer (pre ++ t) = gate_answer t.
Proof.
  induction 1 as [|e pre He _ IH]; [done|].
  destruct e; try done. cbn [app gate_answer]. cbn in He.
  by destruct (String.eqb_spec text confirm_prompt).
Qed.

Lemma gate_ok_quiet {A} (r : result A) t : Forall quiet t → gate_ok r t t.
Proof.
  intros Ht. pose proof (quiet_prompts t Ht) as Hp.
  pose proof (quiet_mutations t Ht) as Hm.
  pose proof (quiet_gate_answer t [] Ht) as Hg. rewrite app_nil_r in Hg.
  split; [done|]. split; [done|]. split.
  - intros line Hl. by rewrite Hg in Hl.
  - by rewrite Hm.
Qed.

Lemma gate_ok_prefix {A} (r0 : result A) pre t1 t0 :
  Forall quiet pre → gate_ok r0 t1 t0 → gate_ok r0 (pre ++ t1) (pre ++ t0).
Proof.
  intros Hpre (H1 & H2 & H3 & H4).
  pose proof (quiet_prompts pre Hpre) as Hp.
  pose proof (quiet_mutations pre Hpre) as Hm.
  unfold gate_ok. rewrite !prompts_app, !mutations_app, Hm, !app_nil_l.
  rewrite (quiet_gate_answer pre t0 Hpre).
  split; [|split; [|split]]; try done.
  - intros [?|?]%elem_of_app; done.
  - intros [?|?]%elem_of_app; [done|]. by apply H2.
Qed.

Lemma gated_bind {A B} (m : M A) (f1 f0 : A → M B) :
  emits quiet m → (∀ a, gated (f1 a) (f0 a)) → gated (m ≫= f1) (m ≫= f0).
Proof.
  intros Hm Hf w s. rewrite !run_bind.
  destruct (Hm w s) as (pre & E & Hpre). destruct (m w s) as [r s1].
  cbn [snd] in E. destruct r as [a| | |];
    try (exists pre, pre; cbn [fst snd]; split; [done|]; split; [done|];
         by apply gate_ok_quiet).
  destruct (Hf a w s1) as (t1 & t0 & E1 & E0 & Hok).
  exists (pre ++ t1), (pre ++ t0). rewrite E1, E0, E, !app_assoc.
  split; [done|]. split; [done|]. by apply gate_ok_prefix.
Qed.

(** The gate itself: skipped, the change follows at once; asked, it
    follows an affirmative answer only. *)
Lemma gated_confirm {B} (k : M B) r :
  mutating r = true →
  (∀ w s, ∃ t, trace (k w s).2 = trace s ++ EHttp r :: t ∧ Forall benign t) →
  gated (confirm "Proceed?" true ≫= λ _, k) (confirm "Proceed?" false ≫= λ _, k).
Proof.
  intros Hr Hk w s.
  assert (Hmut : ∀ t, Forall benign t → mutations (EHttp r :: t) = [r]).
  { intros t Ht. apply mutations_call; [done|].
    eapply Forall_impl; [done|]. apply benign_harmless. }
  assert (Hnp : ∀ t, Forall benign t → prompts (EHttp r :: t) = []).
  { intros t Ht. change (EHttp r :: t) with ([EHttp r] ++ t).
    by rewrite prompts_app, (prompts_benign t Ht). }
  destruct (Hk w s) as (t1 & E1 & Ht1).
  exists (EHttp r :: t1). unfold confirm at 1. rewrite run_bind. cbn [mret M_ret].
  unfold confirm. rewrite run_bind.
  destruct (stdin s) as [|line rest] eqn:Hin.
  - exists [EPrompt confirm_prompt].
    rewrite run_bind, (run_input_eof _ _ _ Hin). cbn [fst snd trace].
    split; [done|]. split; [done|]. unfold gate_ok. rewrite (Hnp t1 Ht1).
    repeat split; try done.
    + apply not_elem_of_nil.
    + intros _. exists r. by rewrite (Hmut t1 Ht1).
  - rewrite run_bind, (run_input _ _ _ line rest Hin).
    fold (declines line). destruct (declines line) eqn:Hd.
    + exists [EPrompt confirm_prompt; ERead line; EStderr "Aborted."].
      rewrite run_bind, run_eprint. unfold sys_exit, lift. cbn [fst snd trace].
      rewrite <- app_assoc. split; [done|]. split; [done|].
      unfold gate_ok. rewrite (Hnp t1 Ht1). repeat split; try done.
      * apply not_elem_of_nil.
      * intros _. exists r. by rewrite (Hmut t1 Ht1).
    + cbn [mret M_ret].
      destruct (Hk w (State (trace s ++ [EPrompt ("Proceed?" +:+ " [y/N] ");
                                         ERead line]) rest)) as (t0 & E0 & Ht0).
      exists ([EPrompt confirm_prompt; ERead line] ++ EHttp r :: t0).
      rewrite E0. cbn [trace fst]. rewrite <- app_assoc.
      split; [done|]. split; [done|].
      unfold gate_ok. rewrite (Hnp t1 Ht1).
      split; [apply not_elem_of_nil|].
      split; [intros _; exists r; by rewrite (Hmut t1 Ht1)|]. split.
      * intros l Hl Hdl. cbn in Hl. simplify_eq. congruence.
      * intros _. exists line. by split.
Qed.

End Gate.

(** Discharges [emits P m] for straight-line code, given the proof [HP]
    that output and input lines satisfy [P]. *)
Ltac emits_with HP :=
  repeat first
    [ apply emits_ret
    | apply emits_lift
    | apply (emits_print _ HP)
    | apply (emits_eprint _ HP)
    | apply (emits_die _ HP)
    | apply emits_isatty
    | apply emits_getenv
    | apply emits_open_read
    | apply (emits_render_table _ HP)
    | apply (emits_http_json _ HP); first [reflexivity | exact I]
    | apply (emits_input _ HP); first [discriminate | exact I]
    | apply emits_bind; [|intros ?]
    | match goal with
      | |- emits _ (if ?b then _ else _) => destruct b
      | |- emits _ (match ?x with _ => _ end) => destruct x
      end ].

Section GatedCommands.

Context `{!PyRepr}.

Lemma read_token_quiet tf : emits quiet (read_token tf).
Proof. unfold read_token. emits_with benign_quiet. Qed.

Lemma zone_id_quiet token zone base : emits quiet (zone_id token zone base).
Proof. unfold zone_id. emits_with benign_quiet. Qed.

Lemma find_record_quiet token zid rid name rtype zone base :
  emits quiet (find_record token zid rid name rtype zone base).
Proof. unfold find_record, sys_exit. emits_with benign_quiet. Qed.

Lemma cmd_add_gated token zone name rtype content ttl proxied base :
  gated (cmd_add token zone name rtype content ttl proxied true base)
        (cmd_add token zone name rtype content ttl proxied false base).
Proof.
  unfold cmd_add.
  apply gated_bind; [apply zone_id_quiet|intros zid]. cbv zeta.
  apply gated_bind; [apply emits_lift|intros payload].
  apply gated_bind; [apply (emits_print _ benign_quiet)|intros _].
  eapply gated_confirm; [|intros w s; apply call_then_benign; intros js;
                          emits_with (λ e (He : benign e), He)].
  reflexivity.
Qed.

Lemma cmd_update_gated token zone rid name rtype content ttl proxied base :
  gated (cmd_update token zone rid name rtype content ttl proxied true base)
        (cmd_update token zone rid name rtype content ttl proxied false base).
Proof.
  unfold cmd_update.
  apply gated_bind; [apply zone_id_quiet|intros zid]. cbv zeta.
  apply gated_bind; [apply find_record_quiet|intros [rid' current]].
  apply gated_bind; [apply emits_lift|intros [[[new_name new_type] new_content] payload]].
  apply gated_bind; [apply (emits_print _ benign_quiet)|intros _].
  do 3 (apply gated_bind; [apply emits_lift|intros ?]).
  do 2 (apply gated_bind; [apply (emits_print _ benign_quiet)|intros _]).
  eapply gated_confirm; [|intros w s; apply call_then_benign; intros js;
                          emits_with (λ e (He : benign e), He)].
  reflexivity.
Qed.

Lemma cmd_delete_gated token zone rid name rtype base :
  gated (cmd_delete token zone rid name rtype true base)
        (cmd_delete token zone rid name rtype false base).
Proof.
  unfold cmd_delete.
  apply gated_bind; [apply zone_id_quiet|intros zid]. cbv zeta.
  apply gated_bind; [apply find_record_quiet|intros [rid' current]].
  do 3 (apply gated_bind; [apply emits_lift|intros ?]).
  apply gated_bind; [apply (emits_print _ benign_quiet)|intros _].
  eapply gated_confirm; [|intros w s; apply call_then_benign; intros js;
                          emits_with (λ e (He : benign e), He)].
  reflexivity.
Qed.

Lemma no_prompt_prompts t : Forall no_prompt t → prompts t = [].
Proof.
  induction 1 as [|e t He _ IH]; [done|].
  unfold prompts in *. cbn [omap list_omap]. by destruct e.
Qed.

Lemma benign_no_prompt e : benign e → no_prompt e.
Proof. by destruct e. Qed.

(** With [--yes], a command that needs no disambiguation prompts nothing. *)
Lemma direct_no_prompt fuel args :
  direct (cmd args) = true → emits no_prompt (main fuel (with_yes true args)).
Proof.
  intros Hd. unfold main. cbn [with_yes token_file base_url yes cmd].
  apply emits_bind; [unfold read_token; emits_with benign_no_prompt|intros token].
  destruct (cmd args) as [| |zone name rtype content ttl proxied
                           |zone rid name rtype content ttl proxied
                           |zone rid name rtype]; try discriminate Hd;
    cbn [direct] in Hd.
  - unfold cmd_add, confirm, zone_id. emits_with benign_no_prompt.
  - unfold cmd_update, confirm, zone_id, find_record. rewrite Hd.
    emits_with benign_no_prompt.
  - unfold cmd_delete, confirm, zone_id, find_record. rewrite Hd.
    emits_with benign_no_prompt.
Qed.

(** What follows the gate once it is reached: skipped, the change with
    nothing prompted; asked, the confirmation prompt, and then the
    change or the exit with status 0 as the line read decides. *)
Lemma confirm_then_call {B} (k : M B) r skip w st :
  mutating r = true →
  (∀ w s, ∃ t, trace (k w s).2 = trace s ++ EHttp r :: t ∧ Forall benign t) →
  let run := (confirm "Proceed?" skip ≫= λ _, k) w st in
  (skip = true →
     prompts (trace run.2) = prompts (trace st)
     ∧ mutations (trace run.2) = mutations (trace st) ++ [r])
  ∧ (skip = false → ∀ line rest, stdin st = line :: rest →
       prompts (trace run.2) = prompts (trace st) ++ [confirm_prompt]
       ∧ (declines line = true →
            run.1 = Exit 0 ∧ mutations (trace run.2) = mutations (trace st))
       ∧ (declines line = false →
            mutations (trace run.2) = mutations (trace st) ++ [r])).
Proof.
  intros Hr Hk run. subst run.
  assert (Hmut : ∀ t, Forall benign t → mutations (EHttp r :: t) = [r]).
  { intros t Ht. apply mutations_call; [done|].
    eapply Forall_impl; [done|]. apply benign_harmless. }
  assert (Hnp : ∀ t, Forall benign t → prompts (EHttp r :: t) = []).
  { intros t Ht. change (EHttp r :: t) with ([EHttp r] ++ t).
    by rewrite prompts_app, (prompts_benign t Ht). }
  split.
  - intros ->. unfold confirm. rewrite run_bind. cbn [mret M_ret].
    destruct (Hk w st) as (t & -> & Ht).
    by rewrite prompts_app, mutations_app, (Hnp t Ht), (Hmut t Ht), app_nil_r.
  - intros -> line rest Hin. unfold confirm. rewrite run_bind.
    rewrite run_bind, (run_input _ _ _ line rest Hin).
    fold (declines line). destruct (declines line) eqn:Hd.
    + rewrite run_bind, run_eprint. unfold sys_exit, lift. cbn [fst snd trace].
      rewrite <- app_assoc. cbn [app].
      rewrite prompts_app, mutations_app. cbn. rewrite app_nil_r.
      split; [done|]. split; [done|]. by intros.
    + cbn [mret M_ret].
      destruct (Hk w (State (trace st ++ [EPrompt ("Proceed?" +:+ " [y/N] ");
                                          ERead line]) rest)) as (t & -> & Ht).
      cbn [trace]. rewrite <- app_assoc. cbn [app].
      rewrite prompts_app, mutations_app.
      change (prompts (EPrompt ?p :: ERead ?l :: ?t)) with (p :: prompts t).
      change (mutations (EPrompt ?p :: ERead ?l :: ?t)) with (mutations t).
      rewrite (Hnp t Ht), (Hmut t Ht).
      split; [done|]. split; [by intros|done].
Qed.

(** A command with its change pending is at its gate: what is left of
    the run is the intent summary, the gate, and the change. *)
Lemma pending_gate fuel args w s r s' :
  pending args w s r s' →
  ∃ intent (k : M unit),
    (∀ skip, main fuel (with_yes skip args) w s
             = (confirm "Proceed?" skip ≫= λ _, k) w
                 (State (trace s' ++ intent) (stdin s')))
    ∧ Forall benign intent
    ∧ mutating r = true
    ∧ (∀ w s, ∃ t, trace (k w s).2 = trace s ++ EHttp r :: t ∧ Forall benign t).
Proof.
  intros (tok & Htok & Hp). cbv zeta in Hp.
  destruct (cmd args) as [| |zone name rtype content ttl proxied
                          |zone rid name rtype content ttl proxied
                          |zone rid name rtype] eqn:Hcmd; try done.
  - destruct Hp as (zid & payload & Hzone & Hpay & ->).
    eexists [_], _. split; [|split; [|split]].
    + intros skip. unfold main. cbn [with_yes token_file base_url yes cmd].
      step Htok. rewrite Hcmd. unfold cmd_add. step Hzone. cbv zeta.
      rewrite bind_lift, Hpay. rewrite run_bind, run_print. reflexivity.
    + by repeat constructor.
    + reflexivity.
    + intros w0 s0. apply call_then_benign. intros js.
      emits_with (λ e (He : benign e), He).
  - destruct Hp as (zid & s1 & rid' & cur & nn & nt & nc & payload
                    & Hzone & Hfind & Hpay & ->).
    eexists [_; _; _], _. split; [|split; [|split]].
    + intros skip. unfold main. cbn [with_yes token_file base_url yes cmd].
      step Htok. rewrite Hcmd. unfold cmd_update. step Hzone. cbv zeta.
      step Hfind. rewrite bind_lift, Hpay. cbv beta iota.
      rewrite run_bind, run_print. cbn [Py.get]. rewrite !bind_lift.
      rewrite run_bind, run_print, run_bind, run_print. cbn [trace stdin].
      rewrite <- !app_assoc. reflexivity.
    + by repeat constructor.
    + reflexivity.
    + intros w0 s0. apply call_then_benign. intros js.
      emits_with (λ e (He : benign e), He).
  - destruct Hp as (zid & s1 & rid' & cur & Hzone & Hfind & ->).
    eexists [_], _. split; [|split; [|split]].
    + intros skip. unfold main. cbn [with_yes token_file base_url yes cmd].
      step Htok. rewrite Hcmd. unfold cmd_delete. step Hzone. cbv zeta.
      step Hfind. cbn [Py.get]. rewrite !bind_lift.
      rewrite run_bind, run_print. reflexivity.
    + by repeat constructor.
    + reflexivity.
    + intros w0 s0. apply call_then_benign. intros js.
      emits_with (λ e (He : benign e), He).
Qed.

(** C4 (amended).  For add, update and delete, compare the run with
    [--yes] and the run without it, from the same world.  With [--yes]
    the confirmation prompt is never issued, and nothing at all is
    prompted when the command is add or names its record by id; once
    the command has its change pending (token, zone, record and payload
    resolved) the run with [--yes] prompts nothing more and makes that
    change, its one mutating call.  Without [--yes] the confirmation is
    prompted at that point; if the answer is not "y" or "yes" (stripped,
    lower-cased), the run ends with status 0 and makes no mutating call
    at all, otherwise it makes the pending change; in every world a
    mutating call is made only after an affirmative answer. *)
Theorem confirmation_gate fuel args w s :
  is_mutation (cmd args) = true →
  let skipped := main fuel (with_yes true args) w s in
  let asked := main fuel (with_yes false args) w s in
  (∃ t1 t0,
     trace skipped.2 = trace s ++ t1
     ∧ trace asked.2 = trace s ++ t0
     ∧ (confirm_prompt ∉ prompts t1)
     ∧ (direct (cmd args) = true → prompts t1 = [])
     ∧ (confirm_prompt ∈ prompts t0 → ∃ r, mutating r = true ∧ mutations t1 = [r])
     ∧ (∀ line, gate_answer t0 = Some line → declines line = true →
          asked.1 = Exit 0 ∧ mutations t0 = [])
     ∧ (mutations t0 ≠ [] →
          ∃ line, gate_answer t0 = Some line ∧ declines line = false))
  ∧ (∀ r s', pending args w s r s' →
       mutating r = true
       ∧ prompts (trace skipped.2) = prompts (trace s')
       ∧ mutations (trace skipped.2) = mutations (trace s') ++ [r]
       ∧ ∀ line rest, stdin s' = line :: rest →
           prompts (trace asked.2) = prompts (trace s') ++ [confirm_prompt]
           ∧ (declines line = true →
                asked.1 = Exit 0 ∧ mutations (trace asked.2) = mutations (trace s'))
           ∧ (declines line = false →
                mutations (trace asked.2) = mutations (trace s') ++ [r])).
Proof.
  intros Hmut skipped asked. subst skipped asked. split.
  - assert (Hg : gated (main fuel (with_yes true args))
                       (main fuel (with_yes false args))).
    { unfold main. cbn [with_yes token_file base_url yes cmd].
      apply gated_bind; [apply read_token_quiet|intros token].
      destruct (cmd args); try discriminate Hmut.
      - apply cmd_add_gated.
      - apply cmd_update_gated.
      - apply cmd_delete_gated. }
    destruct (Hg w s) as (t1 & t0 & E1 & E0 & H1 & H2 & H3 & H4).
    exists t1, t0. repeat (split; [done|]). split; [|done].
    intros Hd. destruct (direct_no_prompt fuel args Hd w s) as (t & E & Ht).
    rewrite E1 in E. apply app_inv_head in E. subst t.
    by apply no_prompt_prompts.
  - intros r s' Hp.
    destruct (pending_gate fuel args w s r s' Hp) as (intent & k & Hrun & Hi & Hr & Hk).
    assert (Hpr : prompts (trace s' ++ intent) = prompts (trace s'))
      by (by rewrite prompts_app, (prompts_benign intent Hi), app_nil_r).
    assert (Hmu : mutations (trace s' ++ intent) = mutations (trace s')).
    { rewrite mutations_app, (mutations_harmless intent), app_nil_r; [done|].
      eapply Forall_impl; [done|]. apply benign_harmless. }
    rewrite !Hrun.
    destruct (confirm_then_call k r true w (State (trace s' ++ intent) (stdin s'))
                Hr Hk) as [Hskip _].
    destruct (confirm_then_call k r false w (State (trace s' ++ intent) (stdin s'))
                Hr Hk) as [_ Hask].
    cbn [trace stdin] in Hskip, Hask.
    split; [done|]. destruct (Hskip eq_refl) as [Hs1 Hs2].
    rewrite Hpr in Hs1. rewrite Hmu in Hs2.
    split; [done|]. split; [done|]. intros line rest Hin.
    destruct (Hask eq_refl line rest Hin) as (Ha1 & Ha2 & Ha3).
    rewrite Hpr in Ha1. rewrite Hmu in Ha2, Ha3. done.
Qed.

End GatedCommands.

(** ** Where pages are walked *)

Section PaginationSites.

Context `{!PyRepr}.

(** Resolution by (name, type) sends its one query, whatever comes back. *)
Lemma find_record_one_request token zid rid name rtype zone base w s :
  PyStr.given rid = false → name ≠ "" → rtype ≠ "" →
  requests (trace (find_record token zid rid (Some name) (Some rtype) zone base w s).2)
  = requests (trace s) ++ [resolve_request token zid name rtype zone base].
Proof.
  intros Hrid Hname Hrtype. unfold find_record. rewrite Hrid.
  destruct name as [|c name]; [done|]. destruct rtype as [|c' rtype]; [done|].
  cbn [PyStr.given PyStr.nonempty negb orb default].
  match goal with
  | |- context [(http_json ?m ?u ?tk ?pl ?pa ≫= ?post) w s] =>
      destruct (call_then no_request m u tk pl pa post w s benign_no_request)
        as (t & -> & Ht)
  end.
  { intros js. unfold sys_exit. emits_with benign_no_request. }
  rewrite requests_app. f_equal.
  change (EHttp ?r :: t) with ([EHttp r] ++ t).
  by rewrite requests_app, (requests_no_request t Ht).
Qed.

(** After the zone lookup the list command sends the lister's requests
    and no other. *)
Lemma cmd_list_requests fuel token zone rtype name_substr as_json base w s zid s1
    (pages : list (list json)) :
  zone_id token zone base w s = (Ret zid, s1) →
  pages ≠ [] → (length pages ≤ fuel)%nat →
  (∀ h (i : nat) items, pages !! i = Some items →
     ∃ st js, server w h (page_request token zid rtype base (1 + Z.of_nat i))
              = Answer st js ∧ is_page js items (Z.of_nat (length pages))) →
  requests (trace (cmd_list fuel token zone rtype name_substr as_json base w s).2)
  = requests (trace s1)
    ++ (page_request token zid rtype base <$> seqZ 1 (Z.of_nat (length pages))).
Proof.
  intros Hzone Hne Hfuel Hsrv. unfold cmd_list. step Hzone.
  unfold paginate_records.
  step (paginate_loop_pages token zid rtype base w (Z.of_nat (length pages))
          pages fuel 1 [] s1 Hne Hfuel ltac:(lia) Hsrv).
  match goal with
  | |- context [trace (?m w ?st).2] =>
      assert (Hm : emits benign m);
        [|destruct (Hm w st) as (t & -> & Ht)]
  end.
  { emits_with (λ e (He : benign e), He). by apply emits_emit. }
  cbn [trace]. rewrite !requests_app, (requests_benign t Ht), app_nil_r. f_equal.
  generalize (seqZ 1 (Z.of_nat (length pages))). intros l.
  induction l as [|p l IH]; [done|]. cbn. by rewrite <- IH.
Qed.

(** The zones command walks the pages of the zone listing itself. *)
Lemma zones_loop_requests token base w k (rem : list (list json)) :
  ∀ fuel page s,
    rem ≠ [] → (length rem ≤ fuel)%nat →
    k = page + Z.of_nat (length rem) - 1 →
    Forall (Forall printable_zone) rem →
    (∀ h (i : nat) items, rem !! i = Some items →
       ∃ st js, server w h (zones_page_request token base (page + Z.of_nat i))
                = Answer st js ∧ is_page js items k) →
    requests (trace (zones_loop fuel token base page w s).2)
    = requests (trace s)
      ++ (zones_page_request token base <$> seqZ page (Z.of_nat (length rem))).
Proof.
  induction rem as [|items rem IH]; intros fuel page s Hne Hfuel Hk Hprint Hsrv;
    [done|].
  destruct fuel as [|fuel]; [simpl in Hfuel; lia|].
  destruct (Hsrv (requests (trace s)) 0%nat items eq_refl)
    as (st & js & Hreply & o & info & -> & Hok & Hres & Hinfo & Htp).
  rewrite Z.add_0_r in Hreply. inversion_clear Hprint as [|?? Hitems Hrem].
  cbn [zones_loop].
  step (http_json_accepted _ _ _ _ _ _ _ _ _ Hreply Hok).
  rewrite bind_lift. cbn [Py.get]. rewrite Hres. cbn [default from_option id].
  rewrite bind_lift. cbn [Py.iter].
  assert (Hrows : ∀ st0, ∃ t,
    for_each items (λ z, row ← lift (zone_row z); print row) w st0
    = (Ret (), State (trace st0 ++ t) (stdin st0)) ∧ Forall benign t).
  { clear -Hitems. induction Hitems as [|z l [row Hrow] _ IHl]; intros st0.
    - exists []. cbn. by rewrite app_nil_r; destruct st0.
    - cbn [for_each]. rewrite run_bind, bind_lift, Hrow, run_print.
      destruct (IHl (State (trace st0 ++ [EStdout row]) (stdin st0)))
        as (t & -> & Ht).
      exists (EStdout row :: t). cbn [trace stdin]. rewrite <- app_assoc.
      split; [done|]. by constructor. }
  match goal with
  | |- context [(for_each items _ ≫= _) w ?st0] =>
      destruct (Hrows st0) as (t & Hfor & Ht)
  end.
  step Hfor. cbn [trace stdin].
  rewrite bind_lift. cbn [Py.get]. rewrite Hinfo. cbn [default from_option id].
  rewrite (or_dict _ _ _ Htp), bind_lift. cbn [Py.get]. rewrite Htp.
  cbn [default from_option id Py.int]. rewrite bind_lift.
  rewrite seqZ_cons by (simpl; lia). cbn [fmap list_fmap].
  assert (Hreq : requests ((trace s ++ [EHttp (zones_page_request token base page)])
                           ++ t)
                 = requests (trace s) ++ [zones_page_request token base page]).
  { rewrite !requests_app, (requests_benign t Ht). by rewrite app_nil_r. }
  destruct rem as [|items' rem].
  - cbn [length] in Hk. destruct (Z.geb_spec page k) as [_|]; [|lia].
    cbn [mret M_ret snd trace]. unfold zones_page_request in Hreq. rewrite Hreq.
    by rewrite seqZ_nil by (simpl; lia).
  - cbn [length] in Hk. destruct (Z.geb_spec page k) as [|_]; [lia|].
    rewrite (IH fuel (page + 1)); [| done | simpl in *; lia | simpl; lia | done |].
    + cbn [trace]. unfold zones_page_request in Hreq. rewrite Hreq.
      rewrite <- app_assoc. cbn [app]. do 3 f_equal. cbn [length]. f_equal; lia.
    + intros h i its Hi. destruct (Hsrv h (S i) its Hi) as (st' & js' & Hr' & Hp').
      exists st', js'. split; [|done]. rewrite <- Hr'. do 2 f_equal. lia.
Qed.

(** C8 (amended).  The list command obtains the record set through the
    lister: after the zone lookup its requests are the lister's page
    requests 1, 2, ..., one per reported page.  Resolution by (name,
    type) does not walk pages: whatever the provider reports, it sends
    the one query filtered by type and name.  The zones command walks
    the pages of the zone listing with its own requests, of page size
    50. *)
Theorem pagination_sites fuel token base w s :
  (∀ zone rtype name_substr as_json zid s1 (pages : list (list json)),
     zone_id token zone base w s = (Ret zid, s1) →
     pages ≠ [] → (length pages ≤ fuel)%nat →
     (∀ h (i : nat) items, pages !! i = Some items →
        ∃ st js, server w h (page_request token zid rtype base (1 + Z.of_nat i))
                 = Answer st js ∧ is_page js items (Z.of_nat (length pages))) →
     requests (trace (cmd_list fuel token zone rtype name_substr as_json base w s).2)
     = requests (trace s1)
       ++ (page_request token zid rtype base <$> seqZ 1 (Z.of_nat (length pages))))
  ∧ (∀ zid rid name rtype zone,
       PyStr.given rid = false → name ≠ "" → rtype ≠ "" →
       requests (trace (find_record token zid rid (Some name) (Some rtype) zone
                          base w s).2)
       = requests (trace s) ++ [resolve_request token zid name rtype zone base])
  ∧ (∀ pages : list (list json),
       pages ≠ [] → (length pages ≤ fuel)%nat →
       Forall (Forall printable_zone) pages →
       (∀ h (i : nat) items, pages !! i = Some items →
          ∃ st js, server w h (zones_page_request token base (1 + Z.of_nat i))
                   = Answer st js ∧ is_page js items (Z.of_nat (length pages))) →
       requests (trace (cmd_zones fuel token base w s).2)
       = requests (trace s)
         ++ (zones_page_request token base <$> seqZ 1 (Z.of_nat (length pages)))).
Proof.
  split; [|split].
  - intros zone rtype name_substr as_json zid s1 pages. apply cmd_list_requests.
  - intros zid rid name rtype zone. apply find_record_one_request.
  - intros pages Hne Hfuel Hprint Hsrv. unfold cmd_zones.
    rewrite run_bind, run_print.
    rewrite (zones_loop_requests token base w (Z.of_nat (length pages)) pages
               fuel 1 _ Hne Hfuel ltac:(lia) Hprint Hsrv).
    cbn [trace]. by rewrite requests_app, app_nil_r.
Qed.

End PaginationSites.

(** ** Runs against the mock provider *)

Section MockRuns.

#[local] Existing Instance Mock.repr.

Lemma zone_id_resolution_witness :
  zone_id Mock.token "example.com" Mock.base (Mock.world false 100) (Mock.start [])
  = (Ret (JStr "z1"),
     State [EHttp (Request "GET" "https://mock/zones" Mock.token
                     [("name", JStr "example.com")] None)] []).
Proof.
  refine (proj2 (zone_id_resolution Mock.token "example.com" Mock.base
            (Mock.world false 100) (Mock.start []) 200
            (Mock.body (JList [JObj Mock.zone]) 1) _ _) Mock.zone [] (JStr "z1") _ _);
    reflexivity.
Defined.

Lemma find_record_by_name_witness :
  (find_record Mock.token (JStr "z1") None (Some "nope") (Some "A") "example.com"
     Mock.base (Mock.world false 100) (Mock.start [])).1 = Exit 3
  ∧ (find_record Mock.token (JStr "z1") None (Some "www") (Some "A") "example.com"
       Mock.base (Mock.world false 100) (Mock.start [])).1
    = Ret (JStr "r1", JObj Mock.www)
  ∧ (find_record Mock.token (JStr "z1") None (Some "example.com") (Some "TXT")
       "example.com" Mock.base (Mock.world false 100) (Mock.start [])).1 = Exit 3.
Proof.
  split; [|split].
  - rewrite (proj1 (find_record_by_name Mock.token (JStr "z1") None "nope" "A"
               "example.com" Mock.base (Mock.world false 100) (Mock.start []) 200
               (Mock.body (JList []) 0)
               eq_refl ltac:(discriminate) ltac:(discriminate) eq_refl eq_refl));
      reflexivity.
  - rewrite (proj1 (proj2 (find_record_by_name Mock.token (JStr "z1") None "www" "A"
               "example.com" Mock.base (Mock.world false 100) (Mock.start []) 200
               (Mock.body (JList [JObj Mock.www]) 1)
               eq_refl ltac:(discriminate) ltac:(discriminate) eq_refl eq_refl))
               (JObj Mock.www) (JStr "r1")); reflexivity.
  - rewrite (proj2 (proj2 (find_record_by_name Mock.token (JStr "z1") None
               "example.com" "TXT"
               "example.com" Mock.base (Mock.world false 100) (Mock.start []) 200
               (Mock.body (JList [JObj Mock.txt1; JObj Mock.txt2]) 1)
               eq_refl ltac:(discriminate) ltac:(discriminate) eq_refl eq_refl))
               [JObj Mock.txt1; JObj Mock.txt2]); [reflexivity..|simpl; lia|reflexivity].
Defined.

Lemma find_record_by_id_witness :
  find_record Mock.token (JStr "z1") (Some "r1") (Some "www") (Some "A") "example.com"
    Mock.base (Mock.world false 100) (Mock.start [])
  = find_record Mock.token (JStr "z1") (Some "r1") None (Some "TXT") "example.com"
      Mock.base (Mock.world false 100) (Mock.start []).
Proof.
  apply (find_record_by_id Mock.token (JStr "z1") "r1" "example.com" Mock.base
           (Mock.world false 100) (Mock.start []) ltac:(discriminate)
           (Some "www") (Some "A") None (Some "TXT")).
Defined.

Lemma find_record_disambiguation_witness :
  (find_record Mock.token (JStr "z1") None (Some "example.com") (Some "TXT")
     "example.com" Mock.base (Mock.world true 100) (Mock.start ["  "])).1 = Exit 0
  ∧ (find_record Mock.token (JStr "z1") None (Some "example.com") (Some "TXT")
       "example.com" Mock.base (Mock.world true 100) (Mock.start ["r1"])).1 = Exit 2
  ∧ (find_record Mock.token (JStr "z1") None (Some "example.com") (Some "TXT")
       "example.com" Mock.base (Mock.world true 100) (Mock.start [" t2 "])).1
    = Ret (JStr "t2", JObj Mock.txt2).
Proof.
  assert (Hobj : Forall is_object [JObj Mock.txt1; JObj Mock.txt2])
    by (repeat constructor; eexists; reflexivity).
  split; [|split].
  - apply (proj1 (find_record_disambiguation Mock.token (JStr "z1") None
             "example.com" "TXT" "example.com" Mock.base (Mock.world true 100)
             (Mock.start ["  "]) 200
             (Mock.body (JList [JObj Mock.txt1; JObj Mock.txt2]) 1)
             [JObj Mock.txt1; JObj Mock.txt2] "  " []
             eq_refl ltac:(discriminate) ltac:(discriminate) eq_refl eq_refl eq_refl
             ltac:(simpl; lia) Hobj eq_refl eq_refl)). reflexivity.
  - apply (proj1 (proj2 (find_record_disambiguation Mock.token (JStr "z1") None
             "example.com" "TXT" "example.com" Mock.base (Mock.world true 100)
             (Mock.start ["r1"]) 200
             (Mock.body (JList [JObj Mock.txt1; JObj Mock.txt2]) 1)
             [JObj Mock.txt1; JObj Mock.txt2] "r1" []
             eq_refl ltac:(discriminate) ltac:(discriminate) eq_refl eq_refl eq_refl
             ltac:(simpl; lia) Hobj eq_refl eq_refl))).
    + discriminate.
    + intros m Hm. repeat (apply elem_of_cons in Hm as [->|Hm]; [reflexivity|]).
      by apply elem_of_nil in Hm.
  - apply (proj2 (proj2 (find_record_disambiguation Mock.token (JStr "z1") None
             "example.com" "TXT" "example.com" Mock.base (Mock.world true 100)
             (Mock.start [" t2 "]) 200
             (Mock.body (JList [JObj Mock.txt1; JObj Mock.txt2]) 1)
             [JObj Mock.txt1; JObj Mock.txt2] " t2 " []
             eq_refl ltac:(discriminate) ltac:(discriminate) eq_refl eq_refl eq_refl
             ltac:(simpl; lia) Hobj eq_refl eq_refl))).
    + discriminate.
    + reflexivity.
Defined.

Lemma paginate_records_pages_witness :
  (paginate_records 2 Mock.token (JStr "z1") None Mock.base (Mock.world false 100)
     (Mock.start [])).1
  = Ret [JObj Mock.www; JObj Mock.api; JObj Mock.txt1; JObj Mock.txt2].
Proof.
  rewrite (paginate_records_pages 2 Mock.token (JStr "z1") None Mock.base
             (Mock.world false 100) (Mock.start [])
             [[JObj Mock.www; JObj Mock.api]; [JObj Mock.txt1; JObj Mock.txt2]]).
  - reflexivity.
  - discriminate.
  - simpl. lia.
  - intros h [|[|i]] items Hi; simplify_eq/=.
    + exists 200, (JObj (Mock.body (JList [JObj Mock.www; JObj Mock.api]) 2)).
      split; [reflexivity|].
      eexists _, _. repeat split; reflexivity.
    + exists 200, (JObj (Mock.body (JList [JObj Mock.txt1; JObj Mock.txt2]) 2)).
      split; [reflexivity|].
      eexists _, _. repeat split; reflexivity.
Defined.

(** C1, counterexample.  [update example.com --id t1 --proxied on --yes]
    on a TXT record: the PUT carries no [proxied] field at all, though a
    value was supplied. *)
Lemma update_payload_not_plain_merge :
  let payload : dict :=
    list_to_map [("type", JStr "TXT"); ("name", JStr "example.com");
                 ("content", JStr "v=spf1 -all"); ("ttl", JInt 3600)] in
  mutations (trace (cmd_update Mock.token "example.com" (Some "t1") None None None
                      None (Some true) true Mock.base (Mock.world false 100)
                      (Mock.start [])).2)
  = [Request "PUT" "https://mock/zones/z1/dns_records/t1" Mock.token [] (Some payload)]
  ∧ ¬ plain_merge None None None None (Some true) Mock.txt1 payload.
Proof.
  split; [by vm_compute|].
  intros (_ & _ & _ & _ & Hp). by vm_compute in Hp.
Qed.

Lemma update_payload_merge_witness :
  mutations (trace (cmd_update Mock.token "example.com" (Some "r1") None None
                      (Some "5.6.7.8") None None true Mock.base
                      (Mock.world false 100) (Mock.start [])).2)
  = [Request "PUT" "https://mock/zones/z1/dns_records/r1" Mock.token []
       (Some (list_to_map [("type", JStr "A"); ("name", JStr "www.example.com");
                           ("content", JStr "5.6.7.8"); ("ttl", JInt 300);
                           ("proxied", JBool true)]))].
Proof.
  destruct (update_payload_merge Mock.token "example.com" (Some "r1") None None
              (Some "5.6.7.8") None None Mock.base (Mock.world false 100)
              (Mock.start []) (JStr "z1")
              (State [EHttp (Request "GET" "https://mock/zones" Mock.token
                               [("name", JStr "example.com")] None)] [])
              (JStr "r1") Mock.www
              (State [EHttp (Request "GET" "https://mock/zones" Mock.token
                               [("name", JStr "example.com")] None);
                      EHttp (Request "GET" "https://mock/zones/z1/dns_records/r1"
                               Mock.token [] None)] [])
              eq_refl eq_refl I)
    as (payload & Hn & Ht & Hc & Httl & Hp & Hdom & Hmut & _).
  rewrite Hmut. cbn [trace]. change (mutations _) with (@nil request).
  cbn [app]. do 3 f_equal. apply map_eq. intros k.
  destruct (decide (k ∈ payload_fields)) as [Hk|Hk].
  - unfold payload_fields in Hk.
    repeat (apply elem_of_cons in Hk as [->|Hk]; [by rewrite ?Hn, ?Ht, ?Hc, ?Httl, ?Hp|]).
    by apply elem_of_nil in Hk.
  - transitivity (@None json).
    + apply eq_None_not_Some. intros Hs. by apply Hk, Hdom.
    + symmetry. apply not_elem_of_list_to_map. cbn. unfold payload_fields in Hk.
      rewrite !elem_of_cons in Hk. rewrite !elem_of_cons. intuition auto.
Defined.

(** C4, counterexample.  [update example.com --name example.com --type txt
    --content site=xyz --yes] on a terminal: two TXT records carry the
    name, so the resolver asks which one is meant, [--yes] or not; the
    update of the record chosen then goes out unconfirmed. *)
Lemma confirmation_gate_not_silent :
  let run := main 0 (Cli None Mock.base true
                       (Update "example.com" None (Some "example.com") (Some "txt")
                          (Some "site=xyz") None None))
               (Mock.world true 100) (Mock.start ["t2"]) in
  prompts (trace run.2)
  = [String PyStr.LF "" +:+ "Enter record ID to proceed (blank to cancel): "]
  ∧ rq_url <$> mutations (trace run.2) = ["https://mock/zones/z1/dns_records/t2"]
  ∧ ¬ silent_with_yes.
Proof.
  split; [by vm_compute|]. split; [by vm_compute|].
  intros Hclaim.
  specialize (Hclaim 0%nat
                (Cli None Mock.base true
                   (Update "example.com" None (Some "example.com") (Some "txt")
                      (Some "site=xyz") None None))
                (Mock.world true 100) (Mock.start ["t2"]) eq_refl eq_refl).
  by vm_compute in Hclaim.
Qed.

Lemma confirmation_gate_witness :
  let del := Delete "example.com" (Some "r1") None None in
  let upd := Update "example.com" None (Some "www") (Some "a") (Some "9.9.9.9")
               None None in
  let run skip c lines := main 0 (Cli None Mock.base skip c) (Mock.world false 100)
                            (Mock.start lines) in
  (run false del ["n"]).1 = Exit 0
  ∧ mutations (trace (run false del ["n"]).2) = []
  ∧ prompts (trace (run true del ["n"]).2) = []
  ∧ mutations (trace (run true del ["n"]).2)
    = [Request "DELETE" "https://mock/zones/z1/dns_records/r1" Mock.token [] None]
  ∧ (∃ r, rq_method r = "PUT"
          ∧ rq_url r = "https://mock/zones/z1/dns_records/r1"
          ∧ mutations (trace (run true upd []).2) = [r]
          ∧ mutations (trace (run false upd [" Yes "]).2) = [r]).
Proof.
  intros del upd run.
  destruct (confirmation_gate 0 (Cli None Mock.base false del)
              (Mock.world false 100) (Mock.start ["n"]) eq_refl) as [_ Hdel].
  destruct (Hdel (Request "DELETE" "https://mock/zones/z1/dns_records/r1"
                    Mock.token [] None)
              (State [EHttp (zone_request Mock.token "example.com" Mock.base);
                      EHttp (Request "GET" "https://mock/zones/z1/dns_records/r1"
                               Mock.token [] None)] ["n"]))
    as (_ & Hquiet & Hsent & Hasked).
  { exists Mock.token. split; [reflexivity|].
    exists (JStr "z1"),
      (State [EHttp (zone_request Mock.token "example.com" Mock.base)] ["n"]),
      (JStr "r1"), Mock.www.
    repeat split; reflexivity. }
  destruct (Hasked "n" [] eq_refl) as (_ & Hdeclined & _).
  destruct (Hdeclined eq_refl) as [Hexit Hnone].
  split; [exact Hexit|]. split; [exact Hnone|]. split; [exact Hquiet|].
  split; [exact Hsent|].
  destruct (confirmation_gate 0 (Cli None Mock.base false upd)
              (Mock.world false 100) (Mock.start []) eq_refl) as [_ Hupd].
  destruct (confirmation_gate 0 (Cli None Mock.base false upd)
              (Mock.world false 100) (Mock.start [" Yes "]) eq_refl) as [_ Hupd'].
  pose (payload := (list_to_map [("type", JStr "A"); ("name", JStr "www.example.com");
                                 ("content", JStr "9.9.9.9"); ("ttl", JInt 300);
                                 ("proxied", JBool true)] : dict)).
  pose (r := Request "PUT" "https://mock/zones/z1/dns_records/r1" Mock.token []
               (Some payload)).
  exists r. split; [reflexivity|]. split; [reflexivity|]. split.
  - destruct (Hupd r
                (State [EHttp (zone_request Mock.token "example.com" Mock.base);
                        EHttp (resolve_request Mock.token (JStr "z1") "www" "A"
                                 "example.com" Mock.base)] []))
      as (_ & _ & Hput & _); [|exact Hput].
    exists Mock.token. split; [reflexivity|].
    exists (JStr "z1"),
      (State [EHttp (zone_request Mock.token "example.com" Mock.base)] []),
      (JStr "r1"), Mock.www, (JStr "www.example.com"), (JStr "A"),
      (JStr "9.9.9.9"), payload.
    repeat split; by vm_compute.
  - destruct (Hupd' r
                (State [EHttp (zone_request Mock.token "example.com" Mock.base);
                        EHttp (resolve_request Mock.token (JStr "z1") "www" "A"
                                 "example.com" Mock.base)] [" Yes "]))
      as (_ & _ & _ & Hasked').
    { exists Mock.token. split; [reflexivity|].
      exists (JStr "z1"),
        (State [EHttp (zone_request Mock.token "example.com" Mock.base)] [" Yes "]),
        (JStr "r1"), Mock.www, (JStr "www.example.com"), (JStr "A"),
        (JStr "9.9.9.9"), payload.
      repeat split; by vm_compute. }
    destruct (Hasked' " Yes " [] eq_refl) as (_ & _ & Hyes).
    exact (Hyes eq_refl).
Defined.

(** C8, counterexample.  The zones command asks for pages with requests
    that are not the lister's; and against a provider that hands out one
    matching record per response and reports two pages, resolution by
    (name, type) sends one request and returns the first TXT record. *)
Lemma pagination_not_single_site :
  (find_record Mock.token (JStr "z1") None (Some "example.com") (Some "TXT")
     "example.com" Mock.base (Mock.world false 1) (Mock.start [])
   = (Ret (JStr "t1", JObj Mock.txt1),
      State [EHttp (resolve_request Mock.token (JStr "z1") "example.com" "TXT"
                      "example.com" Mock.base)] []))
  ∧ ¬ pagination_in_lister_only
  ∧ ¬ resolution_walks_pages.
Proof.
  split; [by vm_compute|]. split.
  - intros Hclaim.
    destruct (Hclaim 2%nat (Cli None Mock.base false Zones) (Mock.world false 100)
                (Mock.start []) (zones_page_request Mock.token Mock.base 1))
      as (tk & zid & rt & b & pg & Heq).
    + vm_compute. apply elem_of_cons. by left.
    + apply not_elem_of_nil.
    + reflexivity.
    + unfold zones_page_request, page_request, page_params in Heq.
      by simplify_eq/=.
  - intros Hclaim.
    specialize (Hclaim Mock.token (JStr "z1") "example.com" "TXT" "example.com"
                  Mock.base (Mock.world false 1) (Mock.start []) 200
                  (JObj (Mock.body (JList [JObj Mock.txt1]) 2)) [JObj Mock.txt1] 2
                  ltac:(discriminate) ltac:(discriminate) eq_refl).
    discriminate Hclaim.
    eexists _, _. repeat split; reflexivity.
Qed.

Lemma pagination_sites_witness :
  requests (trace (cmd_list 2 Mock.token "example.com" None None true Mock.base
                     (Mock.world false 100) (Mock.start [])).2)
  = [Request "GET" "https://mock/zones" Mock.token [("name", JStr "example.com")] None;
     page_request Mock.token (JStr "z1") None Mock.base 1;
     page_request Mock.token (JStr "z1") None Mock.base 2]
  ∧ requests (trace (find_record Mock.token (JStr "z1") None (Some "example.com")
                       (Some "TXT") "example.com" Mock.base (Mock.world false 1)
                       (Mock.start [])).2)
    = [resolve_request Mock.token (JStr "z1") "example.com" "TXT" "example.com"
         Mock.base]
  ∧ requests (trace (cmd_zones 2 Mock.token Mock.base (Mock.world false 100)
                       (Mock.start [])).2)
    = [zones_page_request Mock.token Mock.base 1;
       zones_page_request Mock.token Mock.base 2].
Proof.
  destruct (pagination_sites 2 Mock.token Mock.base (Mock.world false 100)
              (Mock.start [])) as (Hlist & _ & Hzones).
  destruct (pagination_sites 2 Mock.token Mock.base (Mock.world false 1)
              (Mock.start [])) as (_ & Hfind & _).
  split; [|split].
  - rewrite (Hlist "example.com" None None true (JStr "z1")
               (State [EHttp (Request "GET" "https://mock/zones" Mock.token
                                [("name", JStr "example.com")] None)] [])
               [[JObj Mock.www; JObj Mock.api]; [JObj Mock.txt1; JObj Mock.txt2]]).
    + reflexivity.
    + reflexivity.
    + discriminate.
    + simpl. lia.
    + intros h [|[|i]] items Hi; simplify_eq/=.
      * exists 200, (JObj (Mock.body (JList [JObj Mock.www; JObj Mock.api]) 2)).
        split; [reflexivity|]. eexists _, _. repeat split; reflexivity.
      * exists 200, (JObj (Mock.body (JList [JObj Mock.txt1; JObj Mock.txt2]) 2)).
        split; [reflexivity|]. eexists _, _. repeat split; reflexivity.
  - apply Hfind; [reflexivity|discriminate..].
  - rewrite (Hzones [[JObj Mock.zone]; []]).
    + reflexivity.
    + discriminate.
    + simpl. lia.
    + repeat constructor. eexists. reflexivity.
    + intros h [|[|i]] items Hi; simplify_eq/=.
      * exists 200, (JObj (Mock.body (JList [JObj Mock.zone]) 2)).
        split; [reflexivity|]. eexists _, _. repeat split; reflexivity.
      * exists 200, (JObj (Mock.body (JList []) 2)).
        split; [reflexivity|]. eexists _, _. repeat split; reflexivity.
Defined.

End MockRuns.

(** * Further properties of the program *)

(** ** Transport failures *)

Section GivingUp.

Context `{!PyRepr}.

Lemma run_http_json_failing method url token payload params w s :
  failing (server w (requests (trace s)) (Request method url token params payload)) →
  ∃ t, http_json method url token payload params w s
       = (Exit 1,
          State (trace s ++ EHttp (Request method url token params payload) :: t)
                (stdin s))
       ∧ Forall benign t.
Proof.
  intros Hf. unfold http_json. rewrite run_bind. unfold urlopen.
  destruct (server w _ _) as [st js|e|code body [js|]|text]; cbn [failing] in Hf.
  - destruct js as [| | | | |o]; try done.
    rewrite bind_lift. cbn [Py.get]. rewrite Hf, run_die_data. cbn [trace stdin].
    eexists (_ :: _). rewrite <- app_assoc. split; [done|]. apply benign_dump.
  - done.
  - rewrite run_die_data. cbn [trace stdin].
    eexists (_ :: _). rewrite <- app_assoc. split; [done|]. apply benign_dump.
  - rewrite run_die. cbn [trace stdin].
    eexists [_]. rewrite <- app_assoc. split; [done|]. by repeat constructor.
  - rewrite run_die. cbn [trace stdin].
    eexists [_]. rewrite <- app_assoc. split; [done|]. by repeat constructor.
Qed.

(** X1.  An error status, a transport failure or a body whose [success]
    is missing or not true all end the call with status 1, after the one
    request: nothing is retried, nothing is prompted or read. *)
Theorem http_json_gives_up method url token payload params w s :
  let req := Request method url token params payload in
  failing (server w (requests (trace s)) req) →
  let run := http_json method url token payload params w s in
  run.1 = Exit 1
  ∧ requests (trace run.2) = requests (trace s) ++ [req]
  ∧ prompts (trace run.2) = prompts (trace s)
  ∧ stdin run.2 = stdin s.
Proof.
  intros req Hf run. subst run.
  destruct (run_http_json_failing _ _ _ _ _ _ _ Hf) as (t & -> & Ht).
  cbn [fst snd trace stdin]. split; [done|]. fold req.
  rewrite (requests_app (trace s) (EHttp req :: t)).
  rewrite (prompts_app (trace s) (EHttp req :: t)).
  change (requests (EHttp req :: t)) with (req :: requests t).
  change (prompts (EHttp req :: t)) with (prompts t).
  rewrite (requests_benign t Ht), (prompts_benign t Ht).
  by rewrite !app_nil_r.
Qed.

End GivingUp.

(** ** Before the first record request *)

Section EarlyExits.

Context `{!PyRepr}.

Lemma read_token_state tf w s r s' : read_token tf w s = (r, s') → requests (trace s') = requests (trace s) ∧ prompts (trace s') = prompts (trace s) ∧ stdin s' = stdin s.
Proof.
  unfold read_token. rewrite run_bind. unfold getenv.
  destruct (PyStr.given (environ w)); [by intros [= _ <-]|].
  destruct (PyStr.given tf).
  - rewrite run_bind. unfold open_read. destruct (files w _) as [text|e].
    + by intros [= _ <-].
    + rewrite run_die. intros [= _ <-]. cbn [trace stdin].
      by rewrite requests_app, prompts_app, !app_nil_r.
  - rewrite run_die. intros [= _ <-]. cbn [trace stdin].
    by rewrite requests_app, prompts_app, !app_nil_r.
Qed.

Lemma read_token_ret tf w s tok s' : read_token tf w s = (Ret tok, s') → s' = s.
Proof.
  unfold read_token. rewrite run_bind. unfold getenv.
  destruct (PyStr.given (environ w)); [by intros [= _ <-]|].
  destruct (PyStr.given tf); [|by rewrite run_die].
  rewrite run_bind. unfold open_read. destruct (files w _) as [text|e].
  - by intros [= _ <-].
  - by rewrite run_die.
Qed.

(** X2.  Without a token (no non-empty CF_API_TOKEN, and no token file
    or one that cannot be read) every command ends with status 2 before
    any request is sent and before anything is prompted. *)
Theorem no_token_no_request fuel args w s :
  PyStr.given (environ w) = false →
  (PyStr.given (token_file args) = false
   ∨ ∃ e, files w (default "" (token_file args)) = inr e) →
  let run := main fuel args w s in
  run.1 = Exit 2
  ∧ requests (trace run.2) = requests (trace s)
  ∧ prompts (trace run.2) = prompts (trace s).
Proof.
  intros Henv Hfile run. subst run.
  assert (Htok : ∃ s', read_token (token_file args) w s = (Exit 2, s')).
  { unfold read_token. rewrite run_bind. unfold getenv. rewrite Henv.
    destruct (PyStr.given (token_file args)) eqn:Hg.
    - destruct Hfile as [|[e He]]; [done|].
      rewrite run_bind. unfold open_read. rewrite He, run_die. eauto.
    - rewrite run_die. eauto. }
  destruct Htok as [s' Htok]. unfold main.
  rewrite run_bind, Htok. cbn [fst snd].
  by destruct (read_token_state _ _ _ _ _ Htok) as (? & ? & _).
Qed.

Lemma run_zone_id_empty token zone base w s st (o : dict) :
  server w (requests (trace s)) (zone_request token zone base) = Answer st (JObj o) →
  accepted (JObj o) = true →
  Py.truthy (field o "result") = false →
  zone_id token zone base w s
  = (Exit 3,
     State (trace s ++ [EHttp (zone_request token zone base);
                        EStderr ("Zone not found or unauthorized: " +:+ zone)])
           (stdin s)).
Proof.
  intros Hsrv Hok Hempty. unfold zone_id.
  step (http_json_accepted _ _ _ _ _ _ _ _ _ Hsrv Hok).
  rewrite bind_lift. cbn [Py.get].
  unfold Py.or_, field in *. rewrite Hempty. cbn [Py.truthy negb].
  rewrite run_die. cbn [trace stdin]. by rewrite <- app_assoc.
Qed.

(** X3.  list, add, update and delete all start with the zone lookup,
    and when it comes back empty the run ends there with status 3: the
    lookup is the only request, nothing is prompted, nothing changed. *)
Theorem zone_not_found fuel args w s tok zone st (o : dict) :
  (read_token (token_file args) w s).1 = Ret tok →
  zone_of (cmd args) = Some zone →
  server w (requests (trace s)) (zone_request tok zone (base_url args))
  = Answer st (JObj o) →
  accepted (JObj o) = true →
  Py.truthy (field o "result") = false →
  main fuel args w s
  = (Exit 3,
     State (trace s ++ [EHttp (zone_request tok zone (base_url args));
                        EStderr ("Zone not found or unauthorized: " +:+ zone)])
           (stdin s)).
Proof.
  intros Htok Hzone Hsrv Hok Hempty.
  destruct (read_token (token_file args) w s) as [r s'] eqn:E.
  cbn [fst] in Htok. subst r. pose proof (read_token_ret _ _ _ _ _ E) as ->.
  pose proof (run_zone_id_empty tok zone (base_url args) w s st o Hsrv Hok Hempty)
    as Hz.
  unfold main. step E.
  destruct (cmd args); cbn [zone_of] in Hzone; simplify_eq.
  - unfold cmd_list. by rewrite run_bind, Hz.
  - unfold cmd_add. by rewrite run_bind, Hz.
  - unfold cmd_update. by rewrite run_bind, Hz.
  - unfold cmd_delete. by rewrite run_bind, Hz.
Qed.

(** X4.  update and delete check their addressing only after the zone
    lookup: with no id and without both a name and a type they end with
    status 2 then, having sent no record request. *)
Theorem missing_address token zone rid name rtype base w s zid s1 :
  zone_id token zone base w s = (Ret zid, s1) →
  PyStr.given rid = false →
  PyStr.given name = false ∨ PyStr.given rtype = false →
  let stop := (Exit 2,
               State (trace s1 ++ [EStderr "Provide --id OR (--name and --type)"])
                     (stdin s1)) in
  (∀ yes, cmd_delete token zone rid name rtype yes base w s = stop)
  ∧ (∀ content ttl proxied yes,
       cmd_update token zone rid name rtype content ttl proxied yes base w s = stop).
Proof.
  intros Hzone Hrid Haddr stop.
  assert (Hfind : find_record token zid rid name (upper_opt rtype) zone base w s1
                  = (Exit 2,
                     State (trace s1 ++ [EStderr "Provide --id OR (--name and --type)"])
                           (stdin s1))).
  { unfold find_record. rewrite Hrid, given_upper_opt.
    destruct Haddr as [-> | ->]; cbn [negb orb]; rewrite ?orb_true_r;
      by rewrite run_die. }
  split.
  - intros yes. unfold cmd_delete. step Hzone. cbv zeta. by rewrite run_bind, Hfind.
  - intros content ttl proxied yes. unfold cmd_update. step Hzone. cbv zeta.
    by rewrite run_bind, Hfind.
Qed.

(** X5.  A fetch by id that the provider refuses (error status,
    transport failure, unsuccessful body) ends resolution with status 1,
    after that one request and whatever name and type were given. *)
Theorem find_record_by_id_refused token zid rid name rtype zone base w s :
  rid ≠ "" →
  let req := Request "GET" (record_url base zid (JStr rid)) token [] None in
  failing (server w (requests (trace s)) req) →
  let run := find_record token zid (Some rid) name rtype zone base w s in
  run.1 = Exit 1 ∧ requests (trace run.2) = requests (trace s) ++ [req].
Proof.
  intros Hrid req Hf run. subst run.
  destruct rid as [|c rid]; [done|].
  unfold find_record. cbn [PyStr.given PyStr.nonempty default from_option id].
  destruct (run_http_json_failing "GET" (record_url base zid (JStr (String c rid)))
              token None [] w s Hf) as (t & E & Ht).
  rewrite run_bind, E. cbn [fst snd trace]. split; [done|]. fold req.
  rewrite (requests_app (trace s) (EHttp req :: t)).
  change (requests (EHttp req :: t)) with (req :: requests t).
  by rewrite (requests_benign t Ht).
Qed.

(** X6.  A zone entry without an [id] is not reported as "not found":
    the lookup ends with an uncaught KeyError, after its one request. *)
Theorem zone_id_without_id token zone base w s st (o z : dict) rest :
  server w (requests (trace s)) (zone_request token zone base) = Answer st (JObj o) →
  accepted (JObj o) = true →
  o !! "result" = Some (JList (JObj z :: rest)) →
  z !! "id" = None →
  zone_id token zone base w s
  = (Uncaught KeyError,
     State (trace s ++ [EHttp (zone_request token zone base)]) (stdin s)).
Proof.
  intros Hsrv Hok Hres Hid. unfold zone_id.
  step (http_json_accepted _ _ _ _ _ _ _ _ _ Hsrv Hok).
  rewrite bind_lift. cbn [Py.get]. rewrite Hres. py_simpl.
  rewrite bind_lift. unfold lift. cbn [Py.getitem]. by rewrite Hid.
Qed.

End EarlyExits.

(** ** What no run does *)

(** [emits P m] for straight-line code: [tac] is tried first on every
    goal, and settles the events that need an argument of their own. *)
Ltac emits_by HP tac :=
  repeat first
    [ tac
    | apply emits_ret
    | apply emits_lift
    | apply (emits_print _ HP)
    | apply (emits_eprint _ HP)
    | apply (emits_die _ HP)
    | apply emits_isatty
    | apply emits_getenv
    | apply emits_open_read
    | apply (emits_render_table _ HP)
    | apply (emits_emit); apply HP; exact I
    | apply (emits_http_json _ HP)
    | apply (emits_input _ HP)
    | apply emits_bind; [|intros ?]
    | match goal with
      | |- emits _ (if ?b then _ else _) => destruct b
      | |- emits _ (match ?x with _ => _ end) => destruct x
      end ].

Section Invariants.

Lemma emits_impl {A} (P Q : event → Prop) (m : M A) :
  (∀ e, P e → Q e) → emits P m → emits Q m.
Proof.
  intros HPQ Hm w s. destruct (Hm w s) as (t & E & Ht). exists t.
  split; [done|]. by eapply Forall_impl.
Qed.

Lemma prefix_app a b : String.prefix a (a +:+ b) = true.
Proof.
  induction a as [|c a IH]; [by destruct b|].
  change (String c a +:+ b) with (String c (a +:+ b)). cbn [String.prefix].
  by destruct (ascii_dec c c).
Qed.

Context `{!PyRepr}.

Lemma emits_paginate_loop (P : event → Prop) token zid rtype base :
  (∀ e, benign e → P e) →
  (∀ page, P (EHttp (page_request token zid rtype base page))) →
  ∀ fuel page out, emits P (paginate_loop fuel token zid rtype base page out).
Proof.
  intros HP Hreq fuel. induction fuel as [|fuel IH]; intros page out;
    cbn [paginate_loop]; [apply emits_lift|].
  apply emits_bind; [apply (emits_http_json _ HP), Hreq|intros js].
  emits_by HP ltac:(apply IH).
Qed.

Lemma emits_zones_loop (P : event → Prop) token base :
  (∀ e, benign e → P e) →
  (∀ page, P (EHttp (zones_page_request token base page))) →
  ∀ fuel page, emits P (zones_loop fuel token base page).
Proof.
  intros HP Hreq fuel. induction fuel as [|fuel IH]; intros page;
    cbn [zones_loop]; [apply emits_lift|].
  apply emits_bind; [apply (emits_http_json _ HP), Hreq|intros js].
  apply emits_bind; [apply emits_lift|intros r].
  apply emits_bind; [apply emits_lift|intros zs].
  apply emits_bind.
  { apply emits_for_each. intros z. emits_by HP fail. }
  intros _. emits_by HP ltac:(apply IH).
Qed.

(** X7.  zones and list only read: whatever the provider answers, they
    send no request other than GET. *)
Theorem read_commands_change_nothing fuel args w s :
  is_mutation (cmd args) = false →
  mutations (trace (main fuel args w s).2) = mutations (trace s).
Proof.
  intros Hread.
  assert (Hm : emits harmless (main fuel args)).
  { unfold main. apply emits_bind.
    { eapply emits_impl; [apply quiet_harmless|apply read_token_quiet]. }
    intros token. destruct (cmd args); try discriminate Hread.
    - unfold cmd_zones. apply emits_bind; [apply (emits_print _ benign_harmless)|].
      intros _. by apply emits_zones_loop; [apply benign_harmless|].
    - unfold cmd_list. apply emits_bind.
      { eapply emits_impl; [apply quiet_harmless|apply zone_id_quiet]. }
      intros zid. apply emits_bind.
      { unfold paginate_records.
        by apply emits_paginate_loop; [apply benign_harmless|]. }
      intros recs. emits_by benign_harmless fail. }
  destruct (Hm w s) as (t & -> & Ht).
  by rewrite mutations_app, (mutations_harmless t Ht), app_nil_r.
Qed.

Lemma carries_requests token base t :
  Forall (carries token base) t →
  ∀ r, r ∈ requests t → rq_token r = token ∧ String.prefix base (rq_url r) = true.
Proof.
  induction 1 as [|e t He _ IH]; intros r Hr; [by apply elem_of_nil in Hr|].
  destruct e as [r'| | | | | |]; try by apply IH.
  change (requests (EHttp r' :: t)) with (r' :: requests t) in Hr.
  apply elem_of_cons in Hr as [->|Hr]; [done|by apply IH].
Qed.

Lemma benign_carries token base e : benign e → carries token base e.
Proof. by destruct e. Qed.

(** The requests of the program, all of them for [base] with [token]. *)
Ltac carries_tac :=
  first [ exact I
        | split; [reflexivity|];
          first [ apply prefix_app | unfold records_url, record_url; apply prefix_app ] ].

Lemma zone_id_carries token zone base :
  emits (carries token base) (zone_id token zone base).
Proof.
  unfold zone_id. emits_by (benign_carries token base) carries_tac.
Qed.

Lemma find_record_carries token zid rid name rtype zone base :
  emits (carries token base) (find_record token zid rid name rtype zone base).
Proof.
  unfold find_record, sys_exit. emits_by (benign_carries token base) carries_tac.
Qed.

Lemma emits_confirm (P : event → Prop) prompt yes :
  (∀ e, benign e → P e) → P (EPrompt (prompt +:+ " [y/N] ")) →
  emits P (confirm prompt yes).
Proof.
  intros HP Hp. unfold confirm, sys_exit. emits_by HP ltac:(exact Hp).
Qed.

(** X8.  Every request of a run carries the token [read_token] returned
    and a URL that starts with the base URL of the command line: the
    token is sent nowhere else. *)
Theorem requests_carry_token fuel args w s :
  ∃ t, trace (main fuel args w s).2 = trace s ++ t
       ∧ ∀ r, r ∈ requests t →
           (read_token (token_file args) w s).1 = Ret (rq_token r)
           ∧ String.prefix (base_url args) (rq_url r) = true.
Proof.
  destruct (read_token (token_file args) w s) as [res s'] eqn:Htok.
  destruct res as [tok| | |].
  2-4: (unfold main; rewrite run_bind, Htok; cbn [snd fst];
        destruct (read_token_quiet (token_file args) w s) as (t & E & Ht);
        rewrite Htok in E; cbn [snd] in E; exists t; split; [done|];
        intros r Hr; destruct (read_token_state _ _ _ _ _ Htok) as (Hreq & _);
        rewrite E, requests_app in Hreq;
        assert (requests t = []) as Hnil
          by (by destruct (requests t); [|apply (f_equal length) in Hreq;
              rewrite length_app in Hreq; simpl in Hreq; lia]);
        rewrite Hnil in Hr; by apply elem_of_nil in Hr).
  pose proof (read_token_ret _ _ _ _ _ Htok) as ->.
  set (base := base_url args).
  assert (Hm : emits (carries tok base)
                 (match cmd args with
                  | Zones => cmd_zones fuel tok base
                  | List zone rtype name_substr as_json =>
                      cmd_list fuel tok zone (upper_opt rtype) name_substr as_json base
                  | Add zone name rtype content ttl proxied =>
                      cmd_add tok zone name rtype content ttl (prox proxied)
                        (yes args) base
                  | Update zone rid name rtype content ttl proxied =>
                      cmd_update tok zone rid name rtype content ttl (prox proxied)
                        (yes args) base
                  | Delete zone rid name rtype =>
                      cmd_delete tok zone rid name rtype (yes args) base
                  end)).
  { pose proof (benign_carries tok base) as HP.
    destruct (cmd args).
    - unfold cmd_zones. apply emits_bind; [apply (emits_print _ HP)|intros _].
      apply emits_zones_loop; [done|]. intros page. split; [done|apply prefix_app].
    - unfold cmd_list. apply emits_bind; [apply zone_id_carries|intros zid].
      apply emits_bind.
      { unfold paginate_records. apply emits_paginate_loop; [done|].
        intros page. split; [done|]. apply prefix_app. }
      intros recs. emits_by HP fail.
    - unfold cmd_add. apply emits_bind; [apply zone_id_carries|intros zid].
      emits_by HP ltac:(first [apply (emits_confirm _ _ _ HP); exact I|carries_tac]).
    - unfold cmd_update. apply emits_bind; [apply zone_id_carries|intros zid].
      cbv zeta. apply emits_bind; [apply find_record_carries|intros [rid' cur]].
      emits_by HP ltac:(first [apply (emits_confirm _ _ _ HP); exact I|carries_tac]).
    - unfold cmd_delete. apply emits_bind; [apply zone_id_carries|intros zid].
      cbv zeta. apply emits_bind; [apply find_record_carries|intros [rid' cur]].
      emits_by HP ltac:(first [apply (emits_confirm _ _ _ HP); exact I|carries_tac]). }
  destruct (Hm w s) as (t & E & Ht). exists t. unfold main. step Htok.
  fold base. split; [done|]. intros r Hr.
  destruct (carries_requests tok base t Ht r Hr) as [-> ?]. by split.
Qed.

End Invariants.

(** ** One change at most *)

Section OneChange.

Context `{!PyRepr}.

Lemma once_harmless {A} Q (m : M A) : emits harmless m → once Q m.
Proof. intros Hm w s. destruct (Hm w s) as (t & E & Ht). exists t. by split; [|left]. Qed.

Lemma once_bind {A B} Q (m : M A) (f : A → M B) :
  emits harmless m → (∀ a, once Q (f a)) → once Q (m ≫= f).
Proof.
  intros Hm Hf w s. rewrite run_bind.
  destruct (Hm w s) as (pre & E & Hpre). destruct (m w s) as [r s1].
  cbn [snd] in E. destruct r as [a| | |]; try (exists pre; by split; [|left]).
  destruct (Hf a w s1) as (t & E1 & [Ht|(p & r & post & -> & Hp & Hpost & Hr & HQ)]).
  - exists (pre ++ t). rewrite E1, E, app_assoc. split; [done|]. left.
    by apply Forall_app.
  - exists (pre ++ p ++ EHttp r :: post). rewrite E1, E, <- app_assoc.
    split; [done|]. right. exists (pre ++ p), r, post. rewrite <- app_assoc.
    split; [done|]. split; [by apply Forall_app|done].
Qed.

Lemma once_call {A} (Q : request → Prop) method url token payload params
    (post : json → M A) :
  mutating (Request method url token params payload) = true →
  Q (Request method url token params payload) →
  (∀ js, emits benign (post js)) →
  once Q (http_json method url token payload params ≫= post).
Proof.
  intros Hr HQ Hpost w s.
  destruct (call_then_benign method url token payload params post w s Hpost)
    as (t & E & Ht).
  eexists. split; [exact E|]. right.
  by exists [], (Request method url token params payload), t.
Qed.

Lemma one_change_spec Q t :
  one_change Q t →
  mutations t = []
  ∨ ∃ r, mutations t = [r] ∧ last (requests t) = Some r ∧ Q r.
Proof.
  intros [Ht|(pre & r & post & -> & Hpre & Hpost & Hr & HQ)].
  - left. by apply mutations_harmless.
  - right. exists r.
    rewrite mutations_app, (mutations_harmless pre Hpre), app_nil_l.
    rewrite mutations_call; [|done|by eapply Forall_impl; [|apply benign_harmless]].
    split; [done|]. split; [|done].
    rewrite requests_app. change (requests (EHttp r :: post)) with (r :: requests post).
    rewrite (requests_benign post Hpost). apply last_snoc.
Qed.

Lemma harmless_of_quiet {A} (m : M A) : emits quiet m → emits harmless m.
Proof. apply emits_impl, quiet_harmless. Qed.

(** X9.  add, update and delete make at most one change in a run: no
    mutating request, or exactly one, with the method of the command
    (POST, PUT, DELETE), and then it is the last request of the run. *)
Theorem one_change_per_run fuel args w s :
  is_mutation (cmd args) = true →
  ∃ t, trace (main fuel args w s).2 = trace s ++ t
       ∧ (mutations t = []
          ∨ ∃ r, mutations t = [r]
                 ∧ last (requests t) = Some r
                 ∧ rq_method r = method_of (cmd args)).
Proof.
  intros Hmut.
  assert (Hm : once (λ r, rq_method r = method_of (cmd args)) (main fuel args)).
  { pose proof benign_harmless as HP. unfold main.
    apply once_bind; [apply harmless_of_quiet, read_token_quiet|intros token].
    destruct (cmd args) eqn:Hc; try discriminate Hmut; cbn [method_of].
    - unfold cmd_add.
      apply once_bind; [apply harmless_of_quiet, zone_id_quiet|intros zid]. cbv zeta.
      apply once_bind; [apply emits_lift|intros payload].
      apply once_bind; [apply (emits_print _ HP)|intros _].
      apply once_bind; [by apply emits_confirm|intros _].
      apply once_call; [reflexivity..|].
      intros js. emits_by (λ e (He : benign e), He) fail.
    - unfold cmd_update.
      apply once_bind; [apply harmless_of_quiet, zone_id_quiet|intros zid]. cbv zeta.
      apply once_bind; [apply harmless_of_quiet, find_record_quiet|intros [rid' cur]].
      apply once_bind;
        [apply emits_lift|intros [[[new_name new_type] new_content] payload]].
      apply once_bind; [apply (emits_print _ HP)|intros _].
      do 3 (apply once_bind; [apply emits_lift|intros ?]).
      do 2 (apply once_bind; [apply (emits_print _ HP)|intros _]).
      apply once_bind; [by apply emits_confirm|intros _].
      apply once_call; [reflexivity..|].
      intros js. emits_by (λ e (He : benign e), He) fail.
    - unfold cmd_delete.
      apply once_bind; [apply harmless_of_quiet, zone_id_quiet|intros zid]. cbv zeta.
      apply once_bind; [apply harmless_of_quiet, find_record_quiet|intros [rid' cur]].
      do 3 (apply once_bind; [apply emits_lift|intros ?]).
      apply once_bind; [apply (emits_print _ HP)|intros _].
      apply once_bind; [by apply emits_confirm|intros _].
      apply once_call; [reflexivity..|].
      intros js. emits_by (λ e (He : benign e), He) fail. }
  destruct (Hm w s) as (t & E & Ht). exists t. split; [done|].
  by apply one_change_spec in Ht.
Qed.

End OneChange.

(** ** Nothing to read *)

Section NoInput.

Lemma dry_ret {A} (a : A) : dry (mret a).
Proof. by intros w s. Qed.

Lemma dry_lift {A} (r : result A) : dry (lift r).
Proof. by intros w s. Qed.

Lemma dry_bind {A B} (m : M A) (f : A → M B) :
  dry m → (∀ a, dry (f a)) → dry (m ≫= f).
Proof.
  intros Hm Hf w s Hs. rewrite run_bind. specialize (Hm w s Hs).
  destruct (m w s) as [[a| | |] s1]; try done. by apply Hf.
Qed.

Lemma dry_emit e : dry (emit e).
Proof. by intros w s. Qed.

Lemma dry_die {A} msg code data : dry (die (A:=A) msg code data).
Proof. intros w s Hs. by destruct data; rewrite ?run_die, ?run_die_data. Qed.

Lemma dry_input prompt : dry (input prompt).
Proof. intros w s Hs. by rewrite run_input_eof. Qed.

Lemma dry_isatty : dry stdin_isatty.
Proof. by intros w s. Qed.

Lemma dry_getenv : dry getenv.
Proof. by intros w s. Qed.

Lemma dry_open_read path : dry (open_read path).
Proof. by intros w s. Qed.

Lemma dry_for_each {A} (l : list A) (body : A → M unit) :
  (∀ x, dry (body x)) → dry (for_each l body).
Proof.
  intros Hb. induction l as [|x l IH]; [apply dry_ret|].
  cbn [for_each]. apply dry_bind; [apply Hb|by intros _].
Qed.

Context `{!PyRepr}.

Lemma dry_http_json method url token payload params :
  dry (http_json method url token payload params).
Proof.
  intros w s Hs.
  destruct (http_json_trace method url token payload params w s) as (t & -> & _).
  done.
Qed.

End NoInput.

Ltac dry_tac :=
  repeat first
    [ apply dry_ret
    | apply dry_lift
    | apply dry_emit
    | apply dry_die
    | apply dry_input
    | apply dry_isatty
    | apply dry_getenv
    | apply dry_open_read
    | apply dry_http_json
    | apply dry_for_each; intros ?
    | apply dry_bind; [|intros ?]
    | match goal with
      | |- dry (if ?b then _ else _) => destruct b
      | |- dry (match ?x with _ => _ end) => destruct x
      end ].

Section Starved.

Context `{!PyRepr}.

Lemma read_token_dry tf : dry (read_token tf).
Proof. unfold read_token. dry_tac. Qed.

Lemma zone_id_dry token zone base : dry (zone_id token zone base).
Proof. unfold zone_id. dry_tac. Qed.

Lemma find_record_dry token zid rid name rtype zone base :
  dry (find_record token zid rid name rtype zone base).
Proof. unfold find_record, render_table, print, eprint, sys_exit. dry_tac. Qed.

Lemma starved_bind {A B} (m : M A) (f : A → M B) :
  emits harmless m → dry m → (∀ a, starved (f a)) → starved (m ≫= f).
Proof.
  intros Hm Hd Hf w s Hs. rewrite run_bind.
  destruct (Hm w s) as (pre & E & Hpre). specialize (Hd w s Hs).
  destruct (m w s) as [r s1]. cbn [snd] in E, Hd.
  destruct r as [a| | |]; try (split; [done|]; by exists pre).
  destruct (Hf a w s1 Hd) as (Hnot & t & E1 & Ht). split; [done|].
  exists (pre ++ t). rewrite E1, E, app_assoc. split; [done|]. by apply Forall_app.
Qed.

Lemma starved_confirm {B} (k : M B) : starved (confirm "Proceed?" false ≫= λ _, k).
Proof.
  intros w s Hs. unfold confirm. rewrite !run_bind, (run_input_eof _ _ _ Hs).
  cbn [fst snd trace]. split; [done|]. eexists [_]. split; [done|].
  by repeat constructor.
Qed.

(** X10.  Without [--yes] and with nothing to read (input at its end),
    add, update and delete change nothing and do not complete: the run
    stops at the first prompt at the latest. *)
Theorem no_input_no_change fuel args w s :
  is_mutation (cmd args) = true →
  yes args = false →
  stdin s = [] →
  let run := main fuel args w s in
  (∀ u, run.1 ≠ Ret u) ∧ mutations (trace run.2) = mutations (trace s).
Proof.
  intros Hmut Hyes Hs run. subst run.
  assert (Hm : starved (main fuel args)).
  { pose proof benign_harmless as HP. unfold main. rewrite Hyes.
    apply starved_bind;
      [apply harmless_of_quiet, read_token_quiet|apply read_token_dry|intros token].
    destruct (cmd args); try discriminate Hmut.
    - unfold cmd_add.
      apply starved_bind;
        [apply harmless_of_quiet, zone_id_quiet|apply zone_id_dry|intros zid].
      cbv zeta.
      apply starved_bind; [apply emits_lift|apply dry_lift|intros payload].
      apply starved_bind; [apply (emits_print _ HP)|apply dry_emit|intros _].
      apply starved_confirm.
    - unfold cmd_update.
      apply starved_bind;
        [apply harmless_of_quiet, zone_id_quiet|apply zone_id_dry|intros zid].
      cbv zeta.
      apply starved_bind;
        [apply harmless_of_quiet, find_record_quiet|apply find_record_dry
        |intros [rid' cur]].
      apply starved_bind;
        [apply emits_lift|apply dry_lift
        |intros [[[new_name new_type] new_content] payload]].
      apply starved_bind; [apply (emits_print _ HP)|apply dry_emit|intros _].
      do 3 (apply starved_bind; [apply emits_lift|apply dry_lift|intros ?]).
      do 2 (apply starved_bind; [apply (emits_print _ HP)|apply dry_emit|intros _]).
      apply starved_confirm.
    - unfold cmd_delete.
      apply starved_bind;
        [apply harmless_of_quiet, zone_id_quiet|apply zone_id_dry|intros zid].
      cbv zeta.
      apply starved_bind;
        [apply harmless_of_quiet, find_record_quiet|apply find_record_dry
        |intros [rid' cur]].
      do 3 (apply starved_bind; [apply emits_lift|apply dry_lift|intros ?]).
      apply starved_bind; [apply (emits_print _ HP)|apply dry_emit|intros _].
      apply starved_confirm. }
  destruct (Hm w s Hs) as (Hnot & t & -> & Ht). split; [done|].
  by rewrite mutations_app, (mutations_harmless t Ht), app_nil_r.
Qed.

End Starved.

(** ** What add and delete send and report *)

Section AddDelete.

Context `{!PyRepr}.

Lemma requests_snoc_output t e : benign e → requests (t ++ [e]) = requests t.
Proof.
  intros He. rewrite requests_app, (requests_benign [e]), app_nil_r; [done|].
  by constructor.
Qed.

Lemma prompts_http r t : prompts (EHttp r :: t) = prompts t.
Proof. reflexivity. Qed.

Lemma requests_http r t : requests (EHttp r :: t) = r :: requests t.
Proof. reflexivity. Qed.

(** X11.  With [--yes], once the zone is resolved, add sends exactly one
    more request and prompts nothing: a POST to the zone's records whose
    payload holds the type in upper case, the name normalised against
    the zone, the content, the ttl when one is given, and the proxied
    flag when one is given and the type is A, AAAA or CNAME; nothing
    else. *)
Theorem cmd_add_request token zone name rtype content ttl proxied base w s zid s1 :
  zone_id token zone base w s = (Ret zid, s1) →
  ∃ payload : dict,
    payload !! "type" = Some (JStr (PyStr.upper rtype))
    ∧ payload !! "name" = Some (JStr (normalize_name zone name))
    ∧ payload !! "content" = Some (JStr content)
    ∧ payload !! "ttl" = JInt <$> ttl
    ∧ payload !! "proxied"
      = (if proxiable (JStr (PyStr.upper rtype)) then JBool <$> proxied else None)
    ∧ (∀ k, is_Some (payload !! k) → k ∈ payload_fields)
    ∧ requests (trace (cmd_add token zone name rtype content ttl proxied true
                         base w s).2)
      = requests (trace s1)
        ++ [Request "POST" (records_url base zid) token [] (Some payload)]
    ∧ prompts (trace (cmd_add token zone name rtype content ttl proxied true
                        base w s).2)
      = prompts (trace s1).
Proof.
  intros Hzone.
  destruct (build_payload_fields (JStr (normalize_name zone name))
              (JStr (PyStr.upper rtype)) (JStr content) (Py.of_int ttl)
              (Py.of_bool proxied))
    as (payload & Hbuild & Hn & Ht & Hc & Httl & Hp & Hdom).
  { destruct ttl; [right; by eexists|by left]. }
  exists payload. split; [done|]. split; [done|]. split; [done|].
  split; [by rewrite Httl; destruct ttl|].
  split.
  { rewrite Hp. destruct (proxiable _); [|done]. by destruct proxied as [[]|]. }
  split; [done|].
  unfold cmd_add. step Hzone. cbv zeta. rewrite bind_lift, Hbuild.
  rewrite run_bind, run_print. cbn [trace stdin].
  unfold confirm. rewrite run_bind. cbn [mret M_ret].
  match goal with
  | |- context [(http_json ?m ?u ?tk ?pl ?pa ≫= ?post) w ?st] =>
      destruct (call_then_benign m u tk pl pa post w st) as (t & -> & Hben)
  end.
  { intros js. emits_by (λ e (He : benign e), He) fail. }
  cbn [trace]. split.
  - rewrite requests_app, requests_snoc_output by done. f_equal.
    change (requests (EHttp ?r :: t)) with (r :: requests t).
    by rewrite (requests_benign t Hben).
  - rewrite prompts_app, prompts_app, prompts_http, (prompts_benign t Hben).
    by rewrite !app_nil_r.
Qed.

(** X12.  A create that the provider accepts without a [result] has been
    made all the same, but the run ends with an uncaught KeyError where
    it would report it. *)
Theorem cmd_add_unreported token zone name rtype content ttl proxied base w s zid s1
    st (o : dict) :
  zone_id token zone base w s = (Ret zid, s1) →
  (∀ payload, server w (requests (trace s1))
                (Request "POST" (records_url base zid) token [] (Some payload))
              = Answer st (JObj o)) →
  accepted (JObj o) = true →
  o !! "result" = None →
  let run := cmd_add token zone name rtype content ttl proxied true base w s in
  run.1 = Uncaught KeyError
  ∧ ∃ r, rq_method r = "POST" ∧ mutations (trace run.2) = mutations (trace s1) ++ [r].
Proof.
  intros Hzone Hsrv Hok Hres run. subst run.
  destruct (build_payload_fields (JStr (normalize_name zone name))
              (JStr (PyStr.upper rtype)) (JStr content) (Py.of_int ttl)
              (Py.of_bool proxied)) as (payload & Hbuild & _).
  { destruct ttl; [right; by eexists|by left]. }
  unfold cmd_add. step Hzone. cbv zeta. rewrite bind_lift, Hbuild.
  rewrite run_bind, run_print. cbn [trace stdin].
  unfold confirm. rewrite run_bind. cbn [mret M_ret].
  erewrite bind_ret; cycle 1.
  { apply http_json_accepted with (st := st); [|exact Hok].
    cbn [trace]. rewrite requests_snoc_output by done. apply Hsrv. }
  cbv beta. rewrite bind_lift. cbn [Py.getitem]. rewrite Hres.
  cbn [fst snd trace]. split; [done|].
  exists (Request "POST" (records_url base zid) token [] (Some payload)).
  split; [done|].
  rewrite <- app_assoc, mutations_app. f_equal.
Qed.

(** X13.  With [--yes], a delete the provider accepts is reported from
    the record as it was resolved: nothing of the response is used but
    its acceptance, and the run ends normally whatever else it holds. *)
Theorem cmd_delete_reports_snapshot token zone rid name rtype base w s zid s1 rid'
    (cur : dict) s2 st js :
  zone_id token zone base w s = (Ret zid, s1) →
  find_record token zid rid name (upper_opt rtype) zone base w s1
  = (Ret (rid', JObj cur), s2) →
  let req := Request "DELETE" (record_url base zid rid') token [] None in
  server w (requests (trace s2)) req = Answer st js →
  accepted js = true →
  let what := py_str (field cur "type") +:+ " " +:+ py_str (field cur "name")
              +:+ " → " +:+ py_str (field cur "content") in
  cmd_delete token zone rid name rtype true base w s
  = (Ret (),
     State (trace s2 ++ [EStdout ("About to DELETE: " +:+ what);
                         EHttp req;
                         EStdout ("Record " +:+ py_str (field cur "name") +:+ " ("
                                  +:+ py_str (field cur "type") +:+ ") deleted: "
                                  +:+ py_str (field cur "content"))])
           (stdin s2)).
Proof.
  intros Hzone Hfind req Hsrv Hok what.
  unfold cmd_delete. step Hzone. cbv zeta. step Hfind.
  repeat (rewrite bind_lift; cbn [Py.get]). fold (field cur "type").
  fold (field cur "name"). fold (field cur "content").
  rewrite run_bind, run_print. cbn [trace stdin].
  unfold confirm. rewrite run_bind. cbn [mret M_ret].
  erewrite bind_ret; cycle 1.
  { apply http_json_accepted with (st := st); [|exact Hok].
    cbn [trace]. rewrite requests_snoc_output by done. apply Hsrv. }
  cbv beta. repeat (rewrite bind_lift; cbn [Py.get]).
  rewrite run_print. cbn [trace stdin]. by rewrite <- !app_assoc.
Qed.

End AddDelete.

(** ** The lister at its edges *)

Section ListerEdges.

Context `{!PyRepr}.

Lemma paginate_loop_last fuel token zid rtype base page out w s st (o : dict) items :
  server w (requests (trace s)) (page_request token zid rtype base page)
  = Answer st (JObj o) →
  accepted (JObj o) = true →
  Py.iter (Py.or_ (default JNull (o !! "result")) (JList [])) = Ret items →
  at_most_one_page o → 1 ≤ page →
  paginate_loop (S fuel) token zid rtype base page out w s
  = (Ret (out ++ items),
     State (trace s ++ [EHttp (page_request token zid rtype base page)]) (stdin s)).
Proof.
  intros Hsrv Hok Hres Hone Hpage. cbn [paginate_loop].
  step (http_json_accepted _ _ _ _ _ _ _ _ _ Hsrv Hok).
  rewrite bind_lift. cbn [Py.get]. rewrite bind_lift, Hres, bind_lift. cbn [Py.get].
  destruct Hone as [-> | [-> | (info & -> & Hinfo)]]; cbn [default from_option id].
  - unfold Py.or_. cbn [Py.truthy]. rewrite bind_lift. cbn [Py.get].
    rewrite lookup_empty. cbn [default from_option id]. rewrite bind_lift.
    cbn [Py.int]. by destruct (Z.geb_spec page 1); [|lia].
  - unfold Py.or_. cbn [Py.truthy]. rewrite bind_lift. cbn [Py.get].
    rewrite lookup_empty. cbn [default from_option id]. rewrite bind_lift.
    cbn [Py.int]. by destruct (Z.geb_spec page 1); [|lia].
  - assert (Hget : Py.get (Py.or_ (JObj info) (JObj ∅)) "total_pages" (JInt 1)
                   = Ret (default (JInt 1) (info !! "total_pages"))).
    { unfold Py.or_, Py.truthy. case_bool_decide as E; [|done].
      subst info. cbn [negb Py.get]. by rewrite lookup_empty. }
    rewrite bind_lift, Hget.
    destruct Hinfo as [-> | (n & -> & Hn)]; cbn [default from_option id];
      rewrite bind_lift; cbn [Py.int].
    + by destruct (Z.geb_spec page 1); [|lia].
    + by destruct (Z.geb_spec page n); [|lia].
Qed.

(** X14.  A first page that reports no page count, or a count of at most
    one, is the whole listing: the lister sends that one request and
    returns its items. *)
Theorem paginate_records_single_page fuel token zid rtype base w s st (o : dict) items :
  server w (requests (trace s)) (page_request token zid rtype base 1)
  = Answer st (JObj o) →
  accepted (JObj o) = true →
  o !! "result" = Some (JList items) →
  at_most_one_page o →
  paginate_records (S fuel) token zid rtype base w s
  = (Ret items,
     State (trace s ++ [EHttp (page_request token zid rtype base 1)]) (stdin s)).
Proof.
  intros Hsrv Hok Hres Hone. unfold paginate_records.
  rewrite (paginate_loop_last fuel token zid rtype base 1 [] w s st o items);
    [done..| |done|lia].
  rewrite Hres. cbn [default from_option id]. apply iter_or_list.
Qed.

Lemma requests_snoc_http t r : requests (t ++ [EHttp r]) = requests t ++ [r].
Proof. by rewrite requests_app. Qed.

Lemma paginate_loop_fails token zid rtype base w k (pages : list (list json)) :
  ∀ fuel page out s,
    (length pages < fuel)%nat →
    page + Z.of_nat (length pages) ≤ k →
    (∀ h (i : nat) items, pages !! i = Some items →
       ∃ st js, server w h (page_request token zid rtype base (page + Z.of_nat i))
                = Answer st js ∧ is_page js items k) →
    (∀ h, failing (server w h (page_request token zid rtype base
                                 (page + Z.of_nat (length pages))))) →
    (paginate_loop fuel token zid rtype base page out w s).1 = Exit 1
    ∧ requests (trace (paginate_loop fuel token zid rtype base page out w s).2)
      = requests (trace s)
        ++ (page_request token zid rtype base
            <$> seqZ page (Z.of_nat (length pages) + 1)).
Proof.
  induction pages as [|items pages IH]; intros fuel page out s Hfuel Hk Hsrv Hfail.
  - destruct fuel as [|fuel]; [simpl in Hfuel; lia|]. cbn [paginate_loop].
    specialize (Hfail (requests (trace s))). cbn [length Z.of_nat] in Hfail.
    rewrite Z.add_0_r in Hfail.
    destruct (run_http_json_failing "GET" (records_url base zid) token None
                (page_params page 100 rtype) w s Hfail) as (t & E & Ht).
    rewrite run_bind, E. cbn [fst snd trace length Z.of_nat]. split; [done|].
    rewrite requests_app, requests_http, (requests_benign t Ht).
    by rewrite seqZ_cons, seqZ_nil by lia.
  - destruct fuel as [|fuel]; [simpl in Hfuel; lia|]. cbn [paginate_loop].
    destruct (Hsrv (requests (trace s)) 0%nat items eq_refl)
      as (st & js & Hreply & o & info & -> & Hok & Hres & Hinfo & Htp).
    rewrite Z.add_0_r in Hreply.
    step (http_json_accepted _ _ _ _ _ _ _ _ _ Hreply Hok).
    rewrite bind_lift. cbn [Py.get]. rewrite Hres. cbn [default from_option id].
    rewrite bind_lift, iter_or_list, bind_lift. cbn [Py.get]. rewrite Hinfo.
    cbn [default from_option id].
    rewrite (or_dict _ _ _ Htp), bind_lift. cbn [Py.get]. rewrite Htp.
    cbn [default from_option id Py.int]. rewrite bind_lift.
    cbn [length] in Hk, Hfuel, Hfail.
    destruct (Z.geb_spec page k) as [|_]; [lia|].
    destruct (IH fuel (page + 1) (out ++ items)
                (State (trace s ++ [EHttp (page_request token zid rtype base page)])
                       (stdin s))) as [Hexit Hreq].
    + lia.
    + lia.
    + intros h i its Hi. destruct (Hsrv h (S i) its Hi) as (st' & js' & Hr' & Hp').
      exists st', js'. split; [|done]. rewrite <- Hr'. do 2 f_equal. lia.
    + intros h. specialize (Hfail h).
      by replace (page + 1 + Z.of_nat (length pages))
        with (page + Z.of_nat (S (length pages))) by lia.
    + split; [exact Hexit|]. unfold page_request in Hreq |- *. rewrite Hreq.
      cbn [trace length]. rewrite requests_snoc_http, <- app_assoc. f_equal.
      rewrite (seqZ_cons page) by lia. cbn [fmap list_fmap app]. do 3 f_equal; lia.
Qed.

(** X15.  What a failing page costs: when the pages before it were
    served and the next one is refused, the lister ends with status 1
    after requesting that page; the items already fetched are not
    returned. *)
Theorem paginate_records_page_fails fuel token zid rtype base w s k
    (pages : list (list json)) :
  (length pages < fuel)%nat →
  Z.of_nat (length pages) < k →
  (∀ h (i : nat) items, pages !! i = Some items →
     ∃ st js, server w h (page_request token zid rtype base (1 + Z.of_nat i))
              = Answer st js ∧ is_page js items k) →
  (∀ h, failing (server w h (page_request token zid rtype base
                               (1 + Z.of_nat (length pages))))) →
  let run := paginate_records fuel token zid rtype base w s in
  run.1 = Exit 1
  ∧ requests (trace run.2)
    = requests (trace s)
      ++ (page_request token zid rtype base
          <$> seqZ 1 (Z.of_nat (length pages) + 1)).
Proof.
  intros Hfuel Hk Hsrv Hfail run. subst run. unfold paginate_records.
  apply (paginate_loop_fails token zid rtype base w k pages); [done|lia|done..].
Qed.

Lemma paginate_loop_unbounded token zid rtype base w :
  (∀ h page, ∃ st js items k,
     server w h (page_request token zid rtype base page) = Answer st js
     ∧ is_page js items k ∧ page < k) →
  ∀ fuel page out s,
    (paginate_loop fuel token zid rtype base page out w s).1 = OutOfFuel
    ∧ requests (trace (paginate_loop fuel token zid rtype base page out w s).2)
      = requests (trace s)
        ++ (page_request token zid rtype base <$> seqZ page (Z.of_nat fuel)).
Proof.
  intros Hsrv fuel.
  induction fuel as [|fuel IH]; intros page out s; cbn [paginate_loop].
  - cbn. by rewrite app_nil_r.
  - destruct (Hsrv (requests (trace s)) page)
      as (st & js & items & k & Hreply & (o & info & -> & Hok & Hres & Hinfo & Htp) & Hk).
    step (http_json_accepted _ _ _ _ _ _ _ _ _ Hreply Hok).
    rewrite bind_lift. cbn [Py.get]. rewrite Hres. cbn [default from_option id].
    rewrite bind_lift, iter_or_list, bind_lift. cbn [Py.get]. rewrite Hinfo.
    cbn [default from_option id].
    rewrite (or_dict _ _ _ Htp), bind_lift. cbn [Py.get]. rewrite Htp.
    cbn [default from_option id Py.int]. rewrite bind_lift.
    destruct (Z.geb_spec page k) as [|_]; [lia|].
    destruct (IH (page + 1) (out ++ items)
                (State (trace s ++ [EHttp (page_request token zid rtype base page)])
                       (stdin s))) as [Hout Hreq].
    split; [exact Hout|]. unfold page_request in Hreq |- *. rewrite Hreq.
    cbn [trace]. rewrite requests_snoc_http, <- app_assoc. f_equal.
    rewrite (seqZ_cons page) by lia. cbn [fmap list_fmap app]. do 3 f_equal; lia.
Qed.

(** X16.  Nothing bounds the walk but the provider's page count: against
    an endpoint that always reports more pages than the one asked for,
    the lister goes on for as long as it is let, one request a round, and
    returns nothing. *)
Theorem paginate_records_unbounded token zid rtype base w fuel s :
  (∀ h page, ∃ st js items k,
     server w h (page_request token zid rtype base page) = Answer st js
     ∧ is_page js items k ∧ page < k) →
  let run := paginate_records fuel token zid rtype base w s in
  run.1 = OutOfFuel
  ∧ requests (trace run.2)
    = requests (trace s)
      ++ (page_request token zid rtype base <$> seqZ 1 (Z.of_nat fuel)).
Proof.
  intros Hsrv run. subst run. unfold paginate_records.
  by apply paginate_loop_unbounded.
Qed.

End ListerEdges.

(** ** The listing command, and what update and delete aim at *)

Section ListAndTarget.

Context `{!PyRepr}.

Lemma name_filter_objects needle l :
  Forall is_object l →
  name_filter needle l = Ret (List.filter (name_has needle) l).
Proof.
  induction 1 as [|r l [o ->] _ IH]; [done|].
  cbn [name_filter Py.get List.filter name_has].
  change (mbind ?f (Ret ?a)) with (f a). cbv beta. rewrite IH.
  change (mbind ?f (Ret ?a)) with (f a). cbv beta.
  by destruct (PyStr.contains _ _).
Qed.

(** X17.  The name filter of list works on what was fetched, not on what
    is asked: with [--name-substr] and [--json], the requests are those
    of the unfiltered listing, and the one thing printed is the fetched
    records, in the order fetched, whose name, lower-cased, contains the
    lower-cased substring. *)
Theorem cmd_list_filter fuel token zone rtype needle base w s zid s1
    (pages : list (list json)) :
  zone_id token zone base w s = (Ret zid, s1) →
  pages ≠ [] → (length pages ≤ fuel)%nat →
  (∀ h (i : nat) items, pages !! i = Some items →
     ∃ st js, server w h (page_request token zid rtype base (1 + Z.of_nat i))
              = Answer st js ∧ is_page js items (Z.of_nat (length pages))) →
  Forall is_object (concat pages) →
  needle ≠ "" →
  cmd_list fuel token zone rtype (Some needle) true base w s
  = (Ret (),
     State (trace s1
            ++ ((λ p, EHttp (page_request token zid rtype base p))
                <$> seqZ 1 (Z.of_nat (length pages)))
            ++ [EStdoutJson
                  (JList (List.filter (name_has (PyStr.lower needle))
                            (concat pages)))])
           (stdin s1)).
Proof.
  intros Hzone Hne Hfuel Hsrv Hobj Hneedle. unfold cmd_list. step Hzone.
  unfold paginate_records.
  step (paginate_loop_pages token zid rtype base w (Z.of_nat (length pages))
          pages fuel 1 [] s1 Hne Hfuel ltac:(lia) Hsrv).
  destruct needle as [|c needle]; [done|].
  cbn [PyStr.given PyStr.nonempty default from_option id app].
  rewrite bind_lift, (name_filter_objects _ _ Hobj).
  unfold emit. cbn [trace stdin]. by rewrite <- app_assoc.
Qed.

(** X18.  The two listers differ on a null [result]: the record lister
    takes it for an empty page, the zones command breaks on it after
    printing its header. *)
Theorem listers_on_null_result fuel token zid rtype base w s st (o : dict) :
  accepted (JObj o) = true →
  o !! "result" = Some JNull →
  (at_most_one_page o →
   server w (requests (trace s)) (page_request token zid rtype base 1)
   = Answer st (JObj o) →
   paginate_records (S fuel) token zid rtype base w s
   = (Ret [],
      State (trace s ++ [EHttp (page_request token zid rtype base 1)]) (stdin s)))
  ∧ (server w (requests (trace s)) (zones_page_request token base 1)
     = Answer st (JObj o) →
     cmd_zones (S fuel) token base w s
     = (Uncaught TypeError,
        State (trace s
               ++ [EStdout ("id" +:+ PyStr.TAB +:+ "name" +:+ PyStr.TAB +:+ "status"
                            +:+ PyStr.TAB +:+ "plan");
                   EHttp (zones_page_request token base 1)])
              (stdin s))).
Proof.
  intros Hok Hres. split.
  - intros Hone Hsrv. unfold paginate_records.
    rewrite (paginate_loop_last fuel token zid rtype base 1 [] w s st o []);
      [done..| |done|lia].
    by rewrite Hres.
  - intros Hsrv. unfold cmd_zones. rewrite run_bind, run_print. cbn [zones_loop].
    erewrite bind_ret.
    2:{ apply (http_json_accepted _ _ _ _ _ _ _ st (JObj o)); [|done].
        cbn [trace]. rewrite requests_snoc_output; [exact Hsrv|exact I]. }
    cbv beta. rewrite bind_lift. cbn [Py.get]. rewrite Hres.
    cbn [default from_option id]. rewrite bind_lift. cbn [Py.iter trace stdin].
    unfold zones_page_request. by rewrite <- app_assoc.
Qed.

(** X19.  update and delete aim at the record that resolution returned:
    once the zone and the record are resolved, whatever is answered at
    the confirmation and whatever the provider answers, the run changes
    nothing or sends exactly one PUT (DELETE) to that record's URL. *)
Theorem change_targets_resolved_record token zone rid name rtype content ttl
    proxied yes base w s zid s1 rid' cur s2 :
  zone_id token zone base w s = (Ret zid, s1) →
  find_record token zid rid name (upper_opt rtype) zone base w s1
  = (Ret (rid', cur), s2) →
  let aimed method t :=
    mutations t = []
    ∨ ∃ r, mutations t = [r] ∧ rq_method r = method
           ∧ rq_url r = record_url base zid rid' in
  (∃ t, trace (cmd_update token zone rid name rtype content ttl proxied yes base
                 w s).2 = trace s ++ t ∧ aimed "PUT" t)
  ∧ (∃ t, trace (cmd_delete token zone rid name rtype yes base w s).2
          = trace s ++ t ∧ aimed "DELETE" t).
Proof.
  intros Hzone Hfind aimed.
  destruct (zone_id_quiet token zone base w s) as (t0 & E0 & H0).
  rewrite Hzone in E0. cbn [snd] in E0.
  destruct (find_record_quiet token zid rid name (upper_opt rtype) zone base w s1)
    as (t1 & E1 & H1).
  rewrite Hfind in E1. cbn [snd] in E1.
  assert (Hpre : ∀ method t,
    one_change (λ r, rq_method r = method ∧ rq_url r = record_url base zid rid') t →
    aimed method (t0 ++ t1 ++ t)).
  { intros method t Ht. unfold aimed.
    rewrite !mutations_app, (quiet_mutations t0 H0), (quiet_mutations t1 H1).
    cbn [app]. destruct (one_change_spec _ _ Ht) as [->|(r & -> & _ & Hm & Hu)];
      [by left|right; by exists r]. }
  pose proof benign_harmless as HP.
  split.
  - unfold cmd_update. step Hzone. cbv zeta. step Hfind.
    match goal with
    | |- context [trace (?m w s2).2] =>
        assert (Hm : once (λ r, rq_method r = "PUT"
                                ∧ rq_url r = record_url base zid rid') m)
    end.
    { apply once_bind;
        [apply emits_lift|intros [[[new_name new_type] new_content] payload]].
      apply once_bind; [apply (emits_print _ HP)|intros _].
      do 3 (apply once_bind; [apply emits_lift|intros ?]).
      do 2 (apply once_bind; [apply (emits_print _ HP)|intros _]).
      apply once_bind; [by apply emits_confirm|intros _].
      apply once_call; [reflexivity|by split|].
      intros js. emits_by (λ e (He : benign e), He) fail. }
    destruct (Hm w s2) as (t & E & Ht). exists (t0 ++ t1 ++ t).
    split; [by rewrite E, E1, E0, <- !app_assoc|by apply Hpre].
  - unfold cmd_delete. step Hzone. cbv zeta. step Hfind.
    match goal with
    | |- context [trace (?m w s2).2] =>
        assert (Hm : once (λ r, rq_method r = "DELETE"
                                ∧ rq_url r = record_url base zid rid') m)
    end.
    { do 3 (apply once_bind; [apply emits_lift|intros ?]).
      apply once_bind; [apply (emits_print _ HP)|intros _].
      apply once_bind; [by apply emits_confirm|intros _].
      apply once_call; [reflexivity|by split|].
      intros js. emits_by (λ e (He : benign e), He) fail. }
    destruct (Hm w s2) as (t & E & Ht). exists (t0 ++ t1 ++ t).
    split; [by rewrite E, E1, E0, <- !app_assoc|by apply Hpre].
Qed.

Lemma upper_opt_some a b :
  PyStr.upper a = PyStr.upper b → upper_opt (Some a) = upper_opt (Some b).
Proof.
  intros E. unfold upper_opt. cbn [PyStr.given default from_option id].
  rewrite E. by destruct a, b.
Qed.

(** X20.  The record type of the command line counts up to letter case:
    two runs that differ only in the case of [--type] are the same run. *)
Theorem type_case_insensitive fuel tf base y c a b w s :
  PyStr.upper a = PyStr.upper b →
  main fuel (Cli tf base y (with_type a c)) w s
  = main fuel (Cli tf base y (with_type b c)) w s.
Proof.
  intros E. pose proof (upper_opt_some a b E) as Eo.
  unfold main. cbn [token_file base_url yes cmd].
  destruct c; cbn [with_type]; [done| | | |].
  - by rewrite Eo.
  - unfold cmd_add. by rewrite E.
  - unfold cmd_update. by rewrite Eo.
  - unfold cmd_delete. by rewrite Eo.
Qed.

End ListAndTarget.

(** ** Further runs against the mock and the faulty provider *)

Section FurtherRuns.

#[local] Existing Instance Mock.repr.

Lemma http_json_gives_up_witness :
  (http_json "GET" "https://mock/nowhere" Mock.token None []
     (Mock.world false 100) (Mock.start [])).1 = Exit 1.
Proof.
  apply (http_json_gives_up "GET" "https://mock/nowhere" Mock.token None []
           (Mock.world false 100) (Mock.start []) I).
Defined.

Lemma no_token_no_request_witness :
  (main 1 (Cli (Some "/none") Mock.base false Zones)
     (World None (λ _, inr "no such file") false (Mock.server 100))
     (Mock.start [])).1 = Exit 2.
Proof.
  apply (no_token_no_request 1 (Cli (Some "/none") Mock.base false Zones)
           (World None (λ _, inr "no such file") false (Mock.server 100))
           (Mock.start []) eq_refl (or_intror (ex_intro _ "no such file" eq_refl))).
Defined.

Lemma zone_not_found_witness :
  (main 1 (Cli None Mock.base true (List "nope.org" None None false))
     (Mock.world false 100) (Mock.start [])).1 = Exit 3.
Proof.
  rewrite (zone_not_found 1 (Cli None Mock.base true (List "nope.org" None None false))
             (Mock.world false 100) (Mock.start []) Mock.token "nope.org" 200
             (Mock.body (JList []) 1) eq_refl eq_refl eq_refl eq_refl eq_refl).
  reflexivity.
Defined.

Lemma missing_address_witness :
  (cmd_delete Mock.token "example.com" None (Some "www") None true Mock.base
     (Mock.world false 100) (Mock.start [])).1 = Exit 2.
Proof.
  rewrite (proj1 (missing_address Mock.token "example.com" None (Some "www") None
                    Mock.base (Mock.world false 100) (Mock.start []) (JStr "z1")
                    (State [EHttp (zone_request Mock.token "example.com" Mock.base)] [])
                    eq_refl eq_refl (or_intror eq_refl)) true).
  reflexivity.
Defined.

Lemma find_record_by_id_refused_witness :
  (find_record Mock.token (JStr "z1") (Some "zzz") None None "example.com" Mock.base
     (Mock.world false 100) (Mock.start [])).1 = Exit 1.
Proof.
  apply (find_record_by_id_refused Mock.token (JStr "z1") "zzz" None None
           "example.com" Mock.base (Mock.world false 100) (Mock.start [])
           ltac:(discriminate) I).
Defined.

Lemma zone_id_without_id_witness :
  (zone_id Mock.token "example.com" Mock.base
     (Faulty.constant (Mock.body (JList [JObj ∅]) 1)) (Mock.start [])).1
  = Uncaught KeyError.
Proof.
  rewrite (zone_id_without_id Mock.token "example.com" Mock.base
             (Faulty.constant (Mock.body (JList [JObj ∅]) 1)) (Mock.start []) 200
             (Mock.body (JList [JObj ∅]) 1) ∅ [] eq_refl eq_refl eq_refl
             (lookup_empty _)).
  reflexivity.
Defined.

Lemma read_commands_change_nothing_witness :
  mutations (trace (main 2 (Cli None Mock.base false
                              (List "example.com" (Some "txt") None false))
                      (Mock.world false 100) (Mock.start [])).2) = [].
Proof.
  apply (read_commands_change_nothing 2
           (Cli None Mock.base false (List "example.com" (Some "txt") None false))
           (Mock.world false 100) (Mock.start []) eq_refl).
Defined.

Lemma one_change_per_run_witness :
  ∃ t, trace (main 0 (Cli None Mock.base true
                        (Delete "example.com" (Some "r1") None None))
                (Mock.world false 100) (Mock.start [])).2 = t
       ∧ (mutations t = []
          ∨ ∃ r, mutations t = [r] ∧ last (requests t) = Some r
                 ∧ rq_method r = "DELETE").
Proof.
  exact (one_change_per_run 0
           (Cli None Mock.base true (Delete "example.com" (Some "r1") None None))
           (Mock.world false 100) (Mock.start []) eq_refl).
Defined.

Lemma no_input_no_change_witness :
  mutations (trace (main 0 (Cli None Mock.base false
                              (Delete "example.com" (Some "r1") None None))
                      (Mock.world false 100) (Mock.start [])).2) = [].
Proof.
  apply (proj2 (no_input_no_change 0
                  (Cli None Mock.base false
                     (Delete "example.com" (Some "r1") None None))
                  (Mock.world false 100) (Mock.start []) eq_refl eq_refl eq_refl)).
Defined.

Lemma cmd_add_request_witness :
  ∃ payload : dict,
    payload !! "type" = Some (JStr "A")
    ∧ payload !! "name" = Some (JStr "new.example.com")
    ∧ payload !! "proxied" = Some (JBool true)
    ∧ requests (trace (cmd_add Mock.token "example.com" "new" "a" "9.9.9.9" None
                         (Some true) true Mock.base (Mock.world false 100)
                         (Mock.start [])).2)
      = [zone_request Mock.token "example.com" Mock.base;
         Request "POST" "https://mock/zones/z1/dns_records" Mock.token []
           (Some payload)].
Proof.
  destruct (cmd_add_request Mock.token "example.com" "new" "a" "9.9.9.9" None
              (Some true) Mock.base (Mock.world false 100) (Mock.start [])
              (JStr "z1")
              (State [EHttp (zone_request Mock.token "example.com" Mock.base)] [])
              eq_refl)
    as (payload & Ht & Hn & _ & _ & Hp & _ & Hreq & _).
  exists payload. split; [exact Ht|]. split; [exact Hn|]. split; [exact Hp|].
  exact Hreq.
Defined.

Lemma cmd_add_unreported_witness :
  (cmd_add Mock.token "example.com" "new" "a" "9.9.9.9" None None true Mock.base
     Faulty.world (Mock.start [])).1 = Uncaught KeyError.
Proof.
  apply (cmd_add_unreported Mock.token "example.com" "new" "a" "9.9.9.9" None None
           Mock.base Faulty.world (Mock.start []) (JStr "z1")
           (State [EHttp (zone_request Mock.token "example.com" Mock.base)] [])
           200 {[ "success" := JBool true ]}
           eq_refl (λ _, eq_refl) eq_refl eq_refl).
Defined.

Lemma cmd_delete_reports_snapshot_witness :
  cmd_delete Mock.token "example.com" None (Some "www") (Some "a") true Mock.base
    (Mock.world false 100) (Mock.start [])
  = (Ret (),
     State [EHttp (zone_request Mock.token "example.com" Mock.base);
            EHttp (resolve_request Mock.token (JStr "z1") "www" "A" "example.com"
                     Mock.base);
            EStdout "About to DELETE: A www.example.com → 1.2.3.4";
            EHttp (Request "DELETE" "https://mock/zones/z1/dns_records/r1"
                     Mock.token [] None);
            EStdout "Record www.example.com (A) deleted: 1.2.3.4"] []).
Proof.
  rewrite (cmd_delete_reports_snapshot Mock.token "example.com" None (Some "www")
             (Some "a") Mock.base (Mock.world false 100) (Mock.start [])
             (JStr "z1")
             (State [EHttp (zone_request Mock.token "example.com" Mock.base)] [])
             (JStr "r1") Mock.www
             (State [EHttp (zone_request Mock.token "example.com" Mock.base);
                     EHttp (resolve_request Mock.token (JStr "z1") "www" "A"
                              "example.com" Mock.base)] [])
             200 (JObj (Mock.body (JObj Mock.www) 1))
             eq_refl eq_refl eq_refl eq_refl).
  reflexivity.
Defined.

Lemma paginate_records_single_page_witness :
  (paginate_records 1 Mock.token (JStr "z1") None Mock.base
     (Faulty.constant (Mock.body (JList [JObj Mock.www]) 1)) (Mock.start [])).1
  = Ret [JObj Mock.www].
Proof.
  rewrite (paginate_records_single_page 0 Mock.token (JStr "z1") None Mock.base
             (Faulty.constant (Mock.body (JList [JObj Mock.www]) 1)) (Mock.start [])
             200 (Mock.body (JList [JObj Mock.www]) 1) [JObj Mock.www]
             eq_refl eq_refl eq_refl).
  - reflexivity.
  - right. right. exists {[ "total_pages" := JInt 1 ]}. split; [reflexivity|].
    right. exists 1. split; [reflexivity|lia].
Defined.

Lemma paginate_records_page_fails_witness :
  (paginate_records 5 Mock.token (JStr "z1") None Mock.base Faulty.world
     (Mock.start [])).1 = Exit 1.
Proof.
  apply (paginate_records_page_fails 5 Mock.token (JStr "z1") None Mock.base
           Faulty.world (Mock.start []) 3 [[JObj Mock.www]]).
  - simpl. lia.
  - simpl. lia.
  - intros h [|i] items Hi; simplify_eq/=.
    exists 200, (JObj (Mock.body (JList [JObj Mock.www]) 3)).
    split; [reflexivity|]. eexists _, _. repeat split; reflexivity.
  - intros h. exact I.
Defined.

Lemma paginate_records_unbounded_witness :
  (paginate_records 7 Mock.token (JStr "z1") None Mock.base Faulty.endless
     (Mock.start [])).1 = OutOfFuel.
Proof.
  apply (paginate_records_unbounded Mock.token (JStr "z1") None Mock.base
           Faulty.endless 7 (Mock.start [])).
  intros h page. exists 200, (JObj (Mock.body (JList []) (page + 1))), [], (page + 1).
  split; [reflexivity|]. split; [|lia].
  eexists _, _. repeat split; reflexivity.
Defined.

Lemma cmd_list_filter_witness :
  cmd_list 2 Mock.token "example.com" None (Some "WWW") true Mock.base
    (Mock.world false 100) (Mock.start [])
  = (Ret (),
     State [EHttp (zone_request Mock.token "example.com" Mock.base);
            EHttp (page_request Mock.token (JStr "z1") None Mock.base 1);
            EHttp (page_request Mock.token (JStr "z1") None Mock.base 2);
            EStdoutJson (JList [JObj Mock.www])] []).
Proof.
  rewrite (cmd_list_filter 2 Mock.token "example.com" None "WWW" Mock.base
             (Mock.world false 100) (Mock.start []) (JStr "z1")
             (State [EHttp (zone_request Mock.token "example.com" Mock.base)] [])
             [[JObj Mock.www; JObj Mock.api]; [JObj Mock.txt1; JObj Mock.txt2]]).
  - reflexivity.
  - reflexivity.
  - discriminate.
  - simpl. lia.
  - intros h [|[|i]] items Hi; simplify_eq/=.
    + exists 200, (JObj (Mock.body (JList [JObj Mock.www; JObj Mock.api]) 2)).
      split; [reflexivity|].
      eexists _, _. repeat split; reflexivity.
    + exists 200, (JObj (Mock.body (JList [JObj Mock.txt1; JObj Mock.txt2]) 2)).
      split; [reflexivity|].
      eexists _, _. repeat split; reflexivity.
  - repeat constructor; eexists; reflexivity.
  - discriminate.
Defined.

Lemma listers_on_null_result_witness :
  let o : dict := list_to_map [("success", JBool true); ("result", JNull)] in
  (paginate_records 1 Mock.token (JStr "z1") None Mock.base (Faulty.constant o)
     (Mock.start [])).1 = Ret []
  ∧ (cmd_zones 1 Mock.token Mock.base (Faulty.constant o) (Mock.start [])).1
    = Uncaught TypeError.
Proof.
  intros o.
  destruct (listers_on_null_result 0 Mock.token (JStr "z1") None Mock.base
              (Faulty.constant o) (Mock.start []) 200 o eq_refl eq_refl)
    as [Hrecords Hzones].
  split.
  - rewrite Hrecords; [reflexivity|by left|reflexivity].
  - rewrite Hzones; reflexivity.
Defined.

Lemma change_targets_resolved_record_witness :
  ∃ t, trace (cmd_delete Mock.token "example.com" None (Some "www") (Some "a")
                false Mock.base (Mock.world false 100) (Mock.start ["y"])).2 = t
       ∧ (mutations t = []
          ∨ ∃ r, mutations t = [r] ∧ rq_method r = "DELETE"
                 ∧ rq_url r = "https://mock/zones/z1/dns_records/r1").
Proof.
  exact (proj2 (change_targets_resolved_record Mock.token "example.com" None
                  (Some "www") (Some "a") None None None false Mock.base
                  (Mock.world false 100) (Mock.start ["y"]) (JStr "z1")
                  (State [EHttp (zone_request Mock.token "example.com" Mock.base)]
                         ["y"])
                  (JStr "r1") (JObj Mock.www)
                  (State [EHttp (zone_request Mock.token "example.com" Mock.base);
                          EHttp (resolve_request Mock.token (JStr "z1") "www" "A"
                                   "example.com" Mock.base)] ["y"])
                  eq_refl eq_refl)).
Defined.

Lemma type_case_insensitive_witness :
  main 2 (Cli None Mock.base true (List "example.com" (Some "txt") None true))
    (Mock.world false 100) (Mock.start [])
  = main 2 (Cli None Mock.base true (List "example.com" (Some "TXT") None true))
      (Mock.world false 100) (Mock.start []).
Proof.
  exact (type_case_insensitive 2 None Mock.base true
           (List "example.com" None None true) "txt" "TXT"
           (Mock.world false 100) (Mock.start []) eq_refl).
Defined.

End FurtherRuns.
